(** * strava-reporter: the webhook relay of [events/handler.py]

    A shallow embedding of the four Lambda handlers ([subscribe],
    [receive_event], [post_message] and its helpers) and of the Python
    operations they use, followed by the properties the specification states
    about them.

    - Python values are the JSON-shaped values the handlers receive; floats
      are IEEE 754 binary64 numbers ([SpecFloat], prec 53, emax 1024).
    - Exceptions are explicit: a computation returns [Ok v] or [Raise e].
    - The two DynamoDB tables and the sequence of outgoing calls are the
      state; what the remote services answer is a [World]. *)

From Stdlib Require Import ZArith String Ascii List Bool Lia SpecFloat DecimalString.
From stdpp Require Import base gmap strings list.
Import ListNotations.
Local Open Scope string_scope.
Local Open Scope list_scope.
Local Open Scope Z_scope.

(** ** Exceptions and results *)

Inductive exn :=
| KeyError | TypeError | ValueError | ZeroDivisionError | OverflowError
| JSONDecodeError
| ClientError      (* botocore.exceptions.ClientError: the service answered with an error *)
| BotoCoreError    (* botocore.exceptions.BotoCoreError: the call never got an answer *)
| RequestException (* requests.exceptions.RequestException *)
| HTTPException.   (* discord.HTTPException *)

(** [isinstance(e, cls)] for the classes above. *)
Definition exn_eqb (e cls : exn) : bool :=
  match e, cls with
  | KeyError, KeyError | TypeError, TypeError | ValueError, ValueError
  | ZeroDivisionError, ZeroDivisionError | OverflowError, OverflowError
  | JSONDecodeError, JSONDecodeError | ClientError, ClientError
  | BotoCoreError, BotoCoreError | RequestException, RequestException
  | HTTPException, HTTPException => true
  | _, _ => false
  end.

Inductive result (A : Type) :=
| Ok (a : A)
| Raise (e : exn).
Arguments Ok {A} a.
Arguments Raise {A} e.

Definition rbind {A B} (r : result A) (k : A -> result B) : result B :=
  match r with
  | Ok a => k a
  | Raise e => Raise e
  end.

Declare Scope result_scope.
Delimit Scope result_scope with result.
Notation "'let?' x ':=' c 'in' k" := (rbind c (fun x => k))
  (at level 10, x pattern, c at level 100, k at level 200) : result_scope.
Local Open Scope result_scope.

(** ** Python values *)

Local Set Warnings "-register-all".

Inductive pyval :=
| VNone
| VBool (b : bool)
| VInt (z : Z)
| VFloat (f : spec_float)
| VStr (s : string)
| VList (l : list pyval)
| VDict (d : list (string * pyval)).

(** A [dict] keeps insertion order; assignment to an existing key keeps its
    place. *)
Fixpoint dict_get {V} (d : list (string * V)) (k : string) : option V :=
  match d with
  | [] => None
  | (k', v) :: d' => if String.eqb k' k then Some v else dict_get d' k
  end.

Fixpoint dict_set {V} (d : list (string * V)) (k : string) (v : V) : list (string * V) :=
  match d with
  | [] => [(k, v)]
  | (k', v') :: d' => if String.eqb k' k then (k', v) :: d' else (k', v') :: dict_set d' k v
  end.

Fixpoint dict_remove {V} (d : list (string * V)) (k : string) : list (string * V) :=
  match d with
  | [] => []
  | (k', v) :: d' => if String.eqb k' k then dict_remove d' k else (k', v) :: dict_remove d' k
  end.

(** [v[k]] for a string key [k]: [KeyError] on a dict without the key,
    [TypeError] on anything that is not a dict. *)
Definition getitem (v : pyval) (k : string) : result pyval :=
  match v with
  | VDict d => match dict_get d k with
               | Some x => Ok x
               | None => Raise KeyError
               end
  | _ => Raise TypeError
  end.

(** [v == "s"] for a string constant. *)
Definition eq_str (v : pyval) (s : string) : bool :=
  match v with
  | VStr t => String.eqb t s
  | _ => false
  end.

(** ** Binary64 arithmetic as Python performs it *)

Module Float.

Definition prec : Z := 53.
Definition emax : Z := 1024.

Definition add := SFadd prec emax.
Definition sub := SFsub prec emax.
Definition mul := SFmul prec emax.
Definition ieee_div := SFdiv prec emax.
Definition ltb := SFltb.

Definition is_zero (x : spec_float) : bool :=
  match x with S754_zero _ => true | _ => false end.

Definition is_nan (x : spec_float) : bool :=
  match x with S754_nan => true | _ => false end.

Definition is_infinite (x : spec_float) : bool :=
  match x with S754_infinity _ => true | _ => false end.

Definition sign (x : spec_float) : bool :=
  match x with
  | S754_zero s | S754_infinity s | S754_finite s _ _ => s
  | S754_nan => false
  end.

(** The binary64 number nearest to [a / b] (ties to even), signed by [s]. *)
Definition nearest (s : bool) (a b : positive) : spec_float :=
  let '(q, e, l) := SFdiv_core_binary prec emax (Zpos a) 0 (Zpos b) 0 in
  binary_round_aux prec emax s q e l.

(** [float(z)] for an integer within range. *)
Definition of_Z (z : Z) : spec_float := binary_normalize prec emax z 0 false.

(** The value [m * 2^e] as a fraction [(numerator, denominator)]. *)
Definition fraction (m : positive) (e : Z) : Z * Z :=
  match e with
  | Zneg k => (Zpos m, 2 ^ Zpos k)
  | _ => (Zpos m * 2 ^ e, 1)
  end.

(** [n / d] rounded to the nearest integer, ties to even ([0 < d]). *)
Definition round_half_even (n d : Z) : Z :=
  let q := n / d in
  match (2 * (n mod d)) ?= d with
  | Lt => q
  | Gt => q + 1
  | Eq => if Z.even q then q else q + 1
  end.

(** [round(x, ndigits)] for a float [x] and a small [ndigits >= 0]: the
    exact value of [x] is rounded half-even to [ndigits] decimals, and the
    resulting decimal is read back as the nearest float. *)
Definition round (x : spec_float) (ndigits : Z) : spec_float :=
  match x with
  | S754_finite s m e =>
      let '(n, d) := fraction m e in
      match round_half_even (n * 10 ^ ndigits) d with
      | Zpos k => nearest s k (Z.to_pos (10 ^ ndigits))
      | _ => S754_zero s
      end
  | _ => x
  end.

(** C's [fmod]: the exact remainder, with the sign of the dividend. *)
Definition fmod (x y : spec_float) : spec_float :=
  match x, y with
  | S754_nan, _ | _, S754_nan => S754_nan
  | S754_infinity _, _ => S754_nan
  | _, S754_zero _ => S754_nan
  | _, S754_infinity _ => x
  | S754_zero _, _ => x
  | S754_finite sx mx ex, S754_finite _ my ey =>
      let e := Z.min ex ey in
      let r := (Zpos mx * 2 ^ (ex - e)) mod (Zpos my * 2 ^ (ey - e)) in
      match r with
      | Zpos p => binary_normalize prec emax (if sx then Zneg p else Zpos p) e false
      | _ => S754_zero sx
      end
  end.

(** C's [floor]. *)
Definition floor (x : spec_float) : spec_float :=
  match x with
  | S754_finite s m (Zneg k) =>
      let q := (if s then Zneg m else Zpos m) / 2 ^ Zpos k in
      binary_normalize prec emax q 0 s
  | _ => x
  end.

Definition copysign (x y : spec_float) : spec_float :=
  match x with
  | S754_zero _ => S754_zero (sign y)
  | S754_infinity _ => S754_infinity (sign y)
  | S754_finite _ m e => S754_finite (sign y) m e
  | S754_nan => S754_nan
  end.

(** [int(x)]: truncation towards zero. *)
Definition to_int (x : spec_float) : result Z :=
  match x with
  | S754_zero _ => Ok 0
  | S754_nan => Raise ValueError
  | S754_infinity _ => Raise OverflowError
  | S754_finite s m e =>
      let '(n, d) := fraction m e in
      Ok (if s then - (n / d) else n / d)
  end.

End Float.

(** ** Text: [str], [repr], [format] and [json.dumps] *)

Module Text.

Local Open Scope string_scope.
Local Open Scope Z_scope.

Definition of_Z (z : Z) : string := NilZero.string_of_int (Z.to_int z).

Fixpoint zeros (n : nat) : string :=
  match n with
  | O => ""
  | S n' => "0" +:+ zeros n'
  end.

(** [format(z, "02d")]: at least two characters, zero-filled after the sign. *)
Definition format_02d (z : Z) : string :=
  if z <? 0 then "-" +:+ zeros (1 - String.length (of_Z (- z)))%nat +:+ of_Z (- z)
  else zeros (2 - String.length (of_Z z))%nat +:+ of_Z z.

(** *** [repr] of a float: the shortest decimal that reads back as the same
    float, the nearest to it among those of that length. *)

(** The decimal [c * 10^t] read as a float. *)
Definition read_decimal (c : positive) (t : Z) : spec_float :=
  match t with
  | Zneg k => Float.nearest false c (Z.to_pos (10 ^ Zpos k))
  | _ => Float.nearest false (Z.to_pos (Zpos c * 10 ^ t)) 1
  end.

Definition same_float (x y : spec_float) : bool :=
  match x, y with
  | S754_finite sx mx ex, S754_finite sy my ey =>
      Bool.eqb sx sy && Pos.eqb mx my && Z.eqb ex ey
  | _, _ => false
  end.

(** The least [j >= 1] with [n * 10^j >= d], searched upwards from [j]. *)
Fixpoint first_scale (fuel : nat) (n d j : Z) : Z :=
  match fuel with
  | O => j
  | S fuel' => if d <=? n * 10 ^ j then j else first_scale fuel' n d (j + 1)
  end.

(** [decpt] with [10^(decpt-1) <= n/d < 10^decpt], for [0 < n/d]. *)
Definition decimal_point (n d : Z) : Z :=
  if d <=? n then Z.of_nat (String.length (of_Z (n / d)))
  else 1 - first_scale 400 n d 1.

(** The [k]-digit candidates around [n/d] and the one [repr] keeps, if any:
    the result is the integer [c] of the decimal [c * 10^(decpt - k)]. *)
Definition candidate (x : spec_float) (n d decpt k : Z) : option Z :=
  let s := k - decpt in
  let yn := if 0 <=? s then n * 10 ^ s else n in
  let yd := if 0 <=? s then d else d * 10 ^ (- s) in
  let lo := yn / yd in
  let r := yn mod yd in
  let ok c := match c with
              | Zpos p => same_float (read_decimal p (- s)) x
              | _ => false
              end in
  if (r =? 0) && ok lo then Some lo
  else match ok lo, ok (lo + 1) with
       | true, false => Some lo
       | false, true => Some (lo + 1)
       | false, false => None
       | true, true =>
           match (2 * r) ?= yd with
           | Lt => Some lo
           | Gt => Some (lo + 1)
           | Eq => Some (if Z.even lo then lo else lo + 1)
           end
       end.

Fixpoint shortest (fuel : nat) (x : spec_float) (n d decpt k : Z) : Z * Z :=
  match fuel with
  | O => (Float.round_half_even (n * 10 ^ (17 - decpt)) d, 17)
  | S fuel' =>
      match candidate x n d decpt k with
      | Some c => (c, k)
      | None => shortest fuel' x n d decpt (k + 1)
      end
  end.

Fixpoint strip_zeros (fuel : nat) (c : Z) : Z :=
  match fuel with
  | O => c
  | S fuel' => if (c mod 10 =? 0) && negb (c =? 0) then strip_zeros fuel' (c / 10) else c
  end.

(** The digits of [m * 2^e] and the position of the decimal point:
    the value is [0.digits * 10^decpt]. *)
Definition digits (m : positive) (e : Z) : string * Z :=
  let '(n, d) := Float.fraction m e in
  let p := decimal_point n d in
  let '(c, k) := shortest 17 (S754_finite false m e) n d p 1 in
  let len := Z.of_nat (String.length (of_Z c)) in
  (of_Z (strip_zeros 20 c), p + (len - k)).

Definition substring_from (n : nat) (s : string) : string :=
  String.substring n (String.length s - n)%nat s.

(** [float_repr_style], format code ['r']. *)
Definition float_repr (x : spec_float) : string :=
  match x with
  | S754_nan => "nan"
  | S754_infinity s => if s then "-inf" else "inf"
  | S754_zero s => if s then "-0.0" else "0.0"
  | S754_finite s m e =>
      let '(ds, decpt) := digits m e in
      let n := Z.of_nat (String.length ds) in
      let body :=
        if (decpt <=? -4) || (16 <? decpt) then
          String.substring 0 1 ds
            +:+ (if 1 <? n then "." +:+ substring_from 1 ds else "")
            +:+ "e" +:+ (if decpt - 1 <? 0 then "-" else "+")
            +:+ format_02d (Z.abs (decpt - 1))
        else if decpt <=? 0 then
          "0." +:+ zeros (Z.to_nat (- decpt)) +:+ ds
        else if n <=? decpt then
          ds +:+ zeros (Z.to_nat (decpt - n)) +:+ ".0"
        else
          String.substring 0 (Z.to_nat decpt) ds +:+ "." +:+ substring_from (Z.to_nat decpt) ds
      in (if s then "-" else "") +:+ body
  end.

(** *** Characters: a character is a code point below 256. *)

Definition hex_digit (n : N) : ascii :=
  match n with
  | 0%N => "0" | 1%N => "1" | 2%N => "2" | 3%N => "3" | 4%N => "4"
  | 5%N => "5" | 6%N => "6" | 7%N => "7" | 8%N => "8" | 9%N => "9"
  | 10%N => "a" | 11%N => "b" | 12%N => "c" | 13%N => "d" | 14%N => "e"
  | _ => "f"
  end%char.

Definition hex2 (c : ascii) : string :=
  let n := N_of_ascii c in
  String (hex_digit (n / 16)%N) (String (hex_digit (n mod 16)%N) "").

Definition char (c : ascii) : string := String c "".
Definition backslash : string := char "092".
Definition dquote : string := char "034".
Definition squote : string := char "039".

Fixpoint contains (c : ascii) (s : string) : bool :=
  match s with
  | EmptyString => false
  | String c' s' => Ascii.eqb c c' || contains c s'
  end.

Fixpoint flat_map_string (f : ascii -> string) (s : string) : string :=
  match s with
  | EmptyString => ""
  | String c s' => f c +:+ flat_map_string f s'
  end.

(** [repr] of a [str]. *)
Definition repr_char (quote : ascii) (c : ascii) : string :=
  let n := N_of_ascii c in
  if Ascii.eqb c quote || Ascii.eqb c "092" then backslash +:+ char c
  else if (n =? 9)%N then backslash +:+ "t"
  else if (n =? 10)%N then backslash +:+ "n"
  else if (n =? 13)%N then backslash +:+ "r"
  else if (n <? 32)%N || (n =? 127)%N then backslash +:+ "x" +:+ hex2 c
  else if (n <? 127)%N then char c
  else if (n <=? 160)%N || (n =? 173)%N then backslash +:+ "x" +:+ hex2 c
  else char c.

Definition str_repr (s : string) : string :=
  let quote : ascii :=
    if contains "039" s && negb (contains "034" s) then "034"%char else "039"%char in
  char quote +:+ flat_map_string (repr_char quote) s +:+ char quote.

(** [repr(v)], and [str(v)] as f-strings and [str.join] apply it. *)
Fixpoint repr (v : pyval) : string :=
  match v with
  | VNone => "None"
  | VBool b => if b then "True" else "False"
  | VInt z => of_Z z
  | VFloat f => float_repr f
  | VStr s => str_repr s
  | VList l =>
      "[" +:+ (fix items (l : list pyval) : string :=
                 match l with
                 | [] => ""
                 | x :: l' =>
                     match l' with
                     | [] => repr x
                     | _ => repr x +:+ ", " +:+ items l'
                     end
                 end) l +:+ "]"
  | VDict d =>
      "{" +:+ (fix items (d : list (string * pyval)) : string :=
                 match d with
                 | [] => ""
                 | (k, x) :: d' =>
                     match d' with
                     | [] => str_repr k +:+ ": " +:+ repr x
                     | _ => str_repr k +:+ ": " +:+ repr x +:+ ", " +:+ items d'
                     end
                 end) d +:+ "}"
  end.

Definition str (v : pyval) : string :=
  match v with
  | VStr s => s
  | _ => repr v
  end.

(** *** [json.dumps] with its defaults ([ensure_ascii], separators
    [", "] and [": "]). *)

Definition json_char (c : ascii) : string :=
  let n := N_of_ascii c in
  if (n =? 34)%N then backslash +:+ dquote
  else if (n =? 92)%N then backslash +:+ backslash
  else if (n =? 8)%N then backslash +:+ "b"
  else if (n =? 12)%N then backslash +:+ "f"
  else if (n =? 10)%N then backslash +:+ "n"
  else if (n =? 13)%N then backslash +:+ "r"
  else if (n =? 9)%N then backslash +:+ "t"
  else if (n <? 32)%N || (126 <? n)%N then backslash +:+ "u00" +:+ hex2 c
  else char c.

Definition json_string (s : string) : string :=
  dquote +:+ flat_map_string json_char s +:+ dquote.

Definition json_float (f : spec_float) : string :=
  match f with
  | S754_nan => "NaN"
  | S754_infinity s => if s then "-Infinity" else "Infinity"
  | _ => float_repr f
  end.

Fixpoint json_dumps (v : pyval) : string :=
  match v with
  | VNone => "null"
  | VBool b => if b then "true" else "false"
  | VInt z => of_Z z
  | VFloat f => json_float f
  | VStr s => json_string s
  | VList l =>
      "[" +:+ (fix items (l : list pyval) : string :=
                 match l with
                 | [] => ""
                 | x :: l' =>
                     match l' with
                     | [] => json_dumps x
                     | _ => json_dumps x +:+ ", " +:+ items l'
                     end
                 end) l +:+ "]"
  | VDict d =>
      "{" +:+ (fix items (d : list (string * pyval)) : string :=
                 match d with
                 | [] => ""
                 | (k, x) :: d' =>
                     match d' with
                     | [] => json_string k +:+ ": " +:+ json_dumps x
                     | _ => json_string k +:+ ": " +:+ json_dumps x +:+ ", " +:+ items d'
                     end
                 end) d +:+ "}"
  end.

End Text.

(** ** Numbers: the numeric operators on Python values *)

Inductive number :=
| NInt (z : Z)
| NFloat (f : spec_float).

(** [bool] is a subclass of [int]; anything else that is not a number makes
    an arithmetic operator raise [TypeError]. *)
Definition as_number (v : pyval) : result number :=
  match v with
  | VBool b => Ok (NInt (Z.b2z b))
  | VInt z => Ok (NInt z)
  | VFloat f => Ok (NFloat f)
  | _ => Raise TypeError
  end.

Definition truthy (v : pyval) : bool :=
  match v with
  | VNone => false
  | VBool b => b
  | VInt z => negb (z =? 0)
  | VFloat f => negb (Float.is_zero f)
  | VStr s => negb (String.eqb s "")
  | VList l => match l with [] => false | _ => true end
  | VDict d => match d with [] => false | _ => true end
  end.

(** An [int] operand of a float operation is converted first. *)
Definition int_to_float (z : Z) : result spec_float :=
  let f := Float.of_Z z in
  if Float.is_infinite f then Raise OverflowError else Ok f.

(** [a / b] on floats. *)
Definition float_truediv (a b : spec_float) : result spec_float :=
  if Float.is_zero b then Raise ZeroDivisionError else Ok (Float.ieee_div a b).

(** [a / b] on ints: the correctly rounded quotient. *)
Definition int_truediv (a b : Z) : result spec_float :=
  if b =? 0 then Raise ZeroDivisionError
  else match a with
       | 0 => Ok (S754_zero (b <? 0))
       | _ =>
           let f := Float.nearest (xorb (a <? 0) (b <? 0))
                                  (Z.to_pos (Z.abs a)) (Z.to_pos (Z.abs b)) in
           if Float.is_infinite f then Raise OverflowError else Ok f
       end.

Definition truediv (a b : pyval) : result spec_float :=
  let? x := as_number a in
  let? y := as_number b in
  match x, y with
  | NInt m, NInt n => int_truediv m n
  | NInt m, NFloat g => let? f := int_to_float m in float_truediv f g
  | NFloat f, NInt n => let? g := int_to_float n in float_truediv f g
  | NFloat f, NFloat g => float_truediv f g
  end.

(** [a * c] for a float constant [c]. *)
Definition mul_float (a : pyval) (c : spec_float) : result spec_float :=
  let? x := as_number a in
  match x with
  | NInt m => let? f := int_to_float m in Ok (Float.mul f c)
  | NFloat f => Ok (Float.mul f c)
  end.

Definition float_zero : spec_float := S754_zero false.
Definition float_one : spec_float := Float.of_Z 1.
Definition float_half : spec_float := Float.nearest false 1 2.

(** [divmod(vx, wx)] on floats, as [float_divmod] computes it. *)
Definition float_divmod (vx wx : spec_float) : result (spec_float * spec_float) :=
  if Float.is_zero wx then Raise ZeroDivisionError
  else
    let mod0 := Float.fmod vx wx in
    let div0 := Float.ieee_div (Float.sub vx mod0) wx in
    let '(mod1, div1) :=
      if negb (Float.is_zero mod0) then
        if xorb (Float.ltb wx float_zero) (Float.ltb mod0 float_zero)
        then (Float.add mod0 wx, Float.sub div0 float_one)
        else (mod0, div0)
      else (Float.copysign float_zero wx, div0) in
    let floordiv :=
      if negb (Float.is_zero div1) then
        let fd := Float.floor div1 in
        if Float.ltb float_half (Float.sub div1 fd) then Float.add fd float_one else fd
      else Float.copysign float_zero (Float.ieee_div vx wx) in
    Ok (floordiv, mod1).

(** ** The display computations of [build_webhook_message] *)

(** The literals [0.6] and [3.6]. *)
Definition lit_0_6 : spec_float := Float.nearest false 6 10.
Definition lit_3_6 : spec_float := Float.nearest false 36 10.

(** [activity_distance_km = round(activity["distance"] / 1000, 2)] *)
Definition activity_distance_km (activity : pyval) : result spec_float :=
  let? distance := getitem activity "distance" in
  let? km := truediv distance (VInt 1000) in
  Ok (Float.round km 2).

(** [hours, rem = divmod(activity["moving_time"], 3600)],
    [minutes, seconds = divmod(rem, 60)], then the [":"]-joined time array.
    With a float [moving_time] both [divmod]s succeed and ["{:02d}".format]
    raises [ValueError] on its float argument, whichever array is built. *)
Definition activity_moving_time (activity : pyval) : result string :=
  let? moving_time := getitem activity "moving_time" in
  let? t := as_number moving_time in
  match t with
  | NFloat _ => Raise ValueError
  | NInt t =>
      let hours := t / 3600 in
      let rem := t mod 3600 in
      let minutes := rem / 60 in
      let seconds := rem mod 60 in
      Ok (if negb (hours =? 0)
          then Text.of_Z hours +:+ ":" +:+ Text.format_02d minutes +:+ ":" +:+ Text.format_02d seconds
          else Text.of_Z minutes +:+ ":" +:+ Text.format_02d seconds)
  end.

(** [pace_minutes, pace_seconds = divmod(raw_pace, 1)],
    [pace_seconds = round(pace_seconds * 0.6, 2)],
    [f"{int(pace_minutes)}:{int(pace_seconds * 100):02d}"] *)
Definition pace_of (raw_pace : spec_float) : result string :=
  let? (pace_minutes, pace_seconds) := float_divmod raw_pace float_one in
  let pace_seconds := Float.round (Float.mul pace_seconds lit_0_6) 2 in
  let? m := Float.to_int pace_minutes in
  let? s := Float.to_int (Float.mul pace_seconds (Float.of_Z 100)) in
  Ok (Text.of_Z m +:+ ":" +:+ Text.format_02d s).

(** [activity_minutes = activity["moving_time"] / 60],
    [raw_pace = activity_minutes / activity_distance_km] *)
Definition raw_pace (activity : pyval) (distance_km : spec_float) : result spec_float :=
  let? moving_time := getitem activity "moving_time" in
  let? activity_minutes := truediv moving_time (VInt 60) in
  float_truediv activity_minutes distance_km.

Definition activity_pace (activity : pyval) (distance_km : spec_float) : result string :=
  let? raw := raw_pace activity distance_km in
  pace_of raw.

(** [activity_speed_kmh = round(activity["average_speed"] * 3.6, 1)] *)
Definition activity_speed_kmh (activity : pyval) : result spec_float :=
  let? average_speed := getitem activity "average_speed" in
  let? kmh := mul_float average_speed lit_3_6 in
  Ok (Float.round kmh 1).

(** ** The chat message ([discord.Embed]) *)

Record Author := { author_name : string; author_url : string; author_icon_url : pyval }.
Record Footer := { footer_text : string; footer_icon_url : string }.
Record Field := { field_name : string; field_value : string; field_inline : bool }.

Record Embed := {
  title : pyval;
  url : string;
  colour : Z;
  timestamp : Z;
  author : Author;
  footer : Footer;
  fields : list Field
}.

(** See https://developers.strava.com/docs/reference/#api-models-ActivityType *)
Definition activity_colours : list (string * Z) :=
  [ ("Run", 0xFC4C02);            (* orange *)
    ("Ride", 0x66C2FF);           (* pale blue *)
    ("Hike", 0x008000);           (* forest green *)
    ("RockClimbing", 0xFF8000);
    ("AlpineSki", 0xFEFEFE);      (* snow *)
    ("BackcountrySki", 0xFEFEFE);
    ("NordicSki", 0xFEFEFE);
    ("Snowboard", 0xFEFEFE);
    ("default", 0xFC4C02) ].      (* also orange *)

(** Activity types to use average speed instead of pace *)
Definition use_speed : list string := ["Ride"].

(** [activity_colours.get(activity_type, activity_colours["default"])]:
    a list or a dict cannot be hashed. *)
Definition colour_of (activity_type : pyval) : result Z :=
  match activity_type with
  | VList _ | VDict _ => Raise TypeError
  | VStr s => Ok (default 0xFC4C02 (dict_get activity_colours s))
  | _ => Ok 0xFC4C02
  end.

(** [activity_type in use_speed] *)
Definition in_use_speed (activity_type : pyval) : bool :=
  existsb (eq_str activity_type) use_speed.

(** ** The world outside: what the remote services answer *)

Record response := { status_code : Z; json : result pyval }.

Record World := {
  (** [datetime.now()], in microseconds since the epoch *)
  now : Z;
  (** [datetime.strptime(s, "%Y-%m-%dT%H:%M:%SZ")] *)
  strptime : string -> result Z;
  (** [json.loads(s)] *)
  json_loads : string -> result pyval;
  (** [requests.post("https://www.strava.com/oauth/token", ...)], by refresh token *)
  oauth_token : pyval -> result response;
  (** [requests.get(".../activities/{object_id}", ...).json()], by object id and token *)
  get_activity : pyval -> pyval -> result pyval;
  (** [requests.get(".../athlete", ...).json()], by token *)
  get_athlete : pyval -> result pyval;
  (** [webhook.send(..., embed=embed, wait=True).id] *)
  webhook_send : Embed -> result Z;
  (** [webhook.edit_message(message_id=..., embed=embed)] *)
  webhook_edit : pyval -> Embed -> result unit;
  (** [boto3.client("sns").publish(TopicArn=ACTIVITY_TOPIC_ARN, Message=...)] *)
  sns_publish : string -> result unit
}.

(** ** State: the two tables and the calls made so far *)

Definition item := list (string * pyval).

Inductive table := Users | Messages.

Inductive call :=
| GetItem (t : table) (key : pyval)
| PutItem (t : table) (it : item)
| OauthToken (refresh_token : pyval)
| GetActivity (object_id access_token : pyval)
| GetAthlete (access_token : pyval)
| WebhookSend (embed : Embed)
| WebhookEdit (message_id : pyval) (embed : Embed)
| SnsPublish (message : string).

Record state := {
  users : gmap Z item;
  messages : gmap Z item;
  calls : list call
}.

Definition M (A : Type) : Type := state -> result A * state.

Definition ret {A} (a : A) : M A := fun s => (Ok a, s).

Definition raise {A} (e : exn) : M A := fun s => (Raise e, s).

Definition bind {A B} (c : M A) (k : A -> M B) : M B :=
  fun s => match c s with
           | (Ok a, s') => k a s'
           | (Raise e, s') => (Raise e, s')
           end.

Definition lift {A} (r : result A) : M A := fun s => (r, s).

Declare Scope py_scope.
Delimit Scope py_scope with py.
Notation "'let*' x ':=' c 'in' k" := (bind c (fun x => k))
  (at level 10, x pattern, c at level 100, k at level 200) : py_scope.
Local Open Scope py_scope.

(** [try: c except e: handler] *)
Definition try_except {A} (c : M A) (e : exn) (handler : M A) : M A :=
  fun s => match c s with
           | (Raise e', s') => if exn_eqb e' e then handler s' else (Raise e', s')
           | r => r
           end.

Definition emit (c : call) : M unit :=
  fun s => (Ok tt, {| users := users s; messages := messages s; calls := calls s ++ [c] |}).

Definition table_of (t : table) (s : state) : gmap Z item :=
  match t with Users => users s | Messages => messages s end.

Definition key_name (t : table) : string :=
  match t with Users => "id" | Messages => "activity_id" end.

(** Both tables are keyed by a number: boto3 refuses a float, DynamoDB
    refuses a key of another type. *)
Definition key_of (v : pyval) : result Z :=
  match v with
  | VInt z => Ok z
  | VFloat _ => Raise TypeError
  | _ => Raise ClientError
  end.

(** Reading and writing a table. *)
Definition read (t : table) (k : Z) : M (option item) :=
  fun s => (Ok (table_of t s !! k), s).

Definition write (t : table) (k : Z) (it : item) : M unit :=
  fun s => (Ok tt,
            match t with
            | Users => {| users := <[k := it]> (users s); messages := messages s; calls := calls s |}
            | Messages => {| users := users s; messages := <[k := it]> (messages s); calls := calls s |}
            end).

(** [table.get_item(Key={key_name: key})]; the answer has an ["Item"] only
    when the key is present. *)
Definition get_item (t : table) (key : pyval) : M (option item) :=
  let* _ := emit (GetItem t key) in
  let* k := lift (key_of key) in
  read t k.

(** [table.put_item(Item=it)] *)
Definition put_item (t : table) (it : item) : M unit :=
  let* _ := emit (PutItem t it) in
  let* k := lift (match dict_get it (key_name t) with
                  | Some v => key_of v
                  | None => Raise ClientError
                  end) in
  write t k it.

(** ** The handlers *)

Record reply := { statusCode : Z; body : string }.

(** [datetime.fromtimestamp(v)], in microseconds since the epoch. The
    representable range is years 1 to 9999. *)
Definition datetime_min : Z := -62135596800.
Definition datetime_max : Z := 253402300799.

Definition in_datetime_range (seconds : Z) : result unit :=
  if (seconds <? - 2 ^ 63) || (2 ^ 63 <=? seconds) then Raise OverflowError
  else if (seconds <? datetime_min) || (datetime_max <? seconds) then Raise ValueError
  else Ok tt.

Definition fromtimestamp (v : pyval) : result Z :=
  let? t := as_number v in
  match t with
  | NInt z => let? _ := in_datetime_range z in Ok (z * 1000000)
  | NFloat S754_nan => Raise ValueError
  | NFloat (S754_infinity _) => Raise OverflowError
  | NFloat f =>
      (* modf, then the fraction times 1e6 rounded half-even *)
      let? intpart := Float.to_int f in
      let floatpart := Float.mul (Float.sub f (Float.of_Z intpart)) (Float.of_Z 1000000) in
      let us := match floatpart with
                | S754_finite s m e =>
                    let '(n, d) := Float.fraction m e in
                    let r := Float.round_half_even n d in
                    if s then - r else r
                | _ => 0
                end in
      let total := intpart * 1000000 + us in
      let? _ := in_datetime_range (total / 1000000) in
      Ok total
  end.

(** The arguments a call site hands to [post_webhook(activity_id, embed)]. *)
Inductive post_webhook_args :=
| Positional2 (activity_id : pyval) (embed : Embed)
| Positional1 (arg : Embed).

Section Handlers.

Variable w : World.

(** [subscribe(event)]: respond to a Strava subscription validation request. *)
Definition subscribe (event : pyval) : result reply :=
  match (let? params := getitem event "queryStringParameters" in
         getitem params "hub.challenge") with
  | Ok challenge =>
      Ok {| statusCode := 200;
            body := Text.json_dumps (VDict [("hub.challenge", challenge)]) |}
  | Raise KeyError => Ok {| statusCode := 400; body := "Invalid request" |}
  | Raise e => Raise e
  end.

(** [json.loads(v)] *)
Definition loads (v : pyval) : result pyval :=
  match v with
  | VStr s => json_loads w s
  | _ => Raise TypeError
  end.

(** [receive_event(event)] *)
Definition receive_event (event : pyval) : M reply :=
  let* raw := lift (getitem event "body") in
  let* body := lift (loads raw) in
  let* type := lift (getitem body "object_type") in
  let* _ :=
    if eq_str type "activity" then
      (* post message to SNS to be picked up by webhook *)
      try_except
        (let message := Text.json_dumps body in
         let* _ := emit (SnsPublish message) in
         lift (sns_publish w message))
        ClientError
        (ret tt)
    else
      (* unsupported object type *)
      ret tt in
  ret {| statusCode := 200; body := "Success" |}.

(** [get_token_for_athlete(id)] *)
Definition get_token_for_athlete (id : pyval) : M pyval :=
  let* result := get_item Users id in
  let* item := lift (match result with Some it => Ok it | None => Raise KeyError end) in
  let* expires_at := lift (getitem (VDict item) "expires_at") in
  let* token_expiry := lift (fromtimestamp expires_at) in
  let expired := token_expiry <? now w in
  if expired then
    let* refresh_token := lift (getitem (VDict item) "refresh_token") in
    let* _ := emit (OauthToken refresh_token) in
    let* response := lift (oauth_token w refresh_token) in
    if negb (status_code response =? 200) then
      ret (VDict [("statusCode", VInt (status_code response));
                  ("body", VStr "Failed to get updated token for athlete")])
    else
      let* response_body := lift (json response) in
      let* access_token := lift (getitem response_body "access_token") in
      let item := dict_set item "access_token" access_token in
      let* refresh_token' := lift (getitem response_body "refresh_token") in
      let item := dict_set item "refresh_token" refresh_token' in
      let* expires_at' := lift (getitem response_body "expires_at") in
      let item := dict_set item "expires_at" expires_at' in
      let* _ := put_item Users item in
      lift (getitem response_body "access_token")
  else
    lift (getitem (VDict item) "access_token").

(** The part of [build_webhook_message] after the two fetches. *)
Definition build_embed (activity athlete : pyval) : result Embed :=
  let? distance_km := activity_distance_km activity in
  let? moving_time := activity_moving_time activity in
  let? pace := activity_pace activity distance_km in
  let? speed_kmh := activity_speed_kmh activity in
  let? elevation := getitem activity "total_elevation_gain" in
  let? activity_type := getitem activity "type" in
  let? name := getitem activity "name" in
  let? activity_id := getitem activity "id" in
  let? colour := colour_of activity_type in
  let? start_date := getitem activity "start_date" in
  let? timestamp := match start_date with
                    | VStr s => strptime w s
                    | _ => Raise TypeError
                    end in
  let? firstname := getitem athlete "firstname" in
  let? lastname := getitem athlete "lastname" in
  let? athlete_id := getitem athlete "id" in
  let? profile_medium := getitem athlete "profile_medium" in
  Ok {| title := name;
        url := "https://strava.com/activities/" +:+ Text.str activity_id;
        colour := colour;
        timestamp := timestamp;
        author := {| author_name := Text.str firstname +:+ " " +:+ Text.str lastname;
                     author_url := "https://strava.com/athletes/" +:+ Text.str athlete_id;
                     author_icon_url := profile_medium |};
        footer := {| footer_text := "Powered by Strava";
                     footer_icon_url := "https://d3nn82uaxijpm6.cloudfront.net/apple-touch-icon-144x144.png?v=dLlWydWlG8" |};
        fields :=
          [ {| field_name := "Distance";
               field_value := Text.float_repr distance_km +:+ " km";
               field_inline := true |};
            {| field_name := "Moving Time";
               field_value := moving_time;
               field_inline := true |};
            (if in_use_speed activity_type
             then {| field_name := "Average Speed";
                     field_value := Text.float_repr speed_kmh +:+ " km/h";
                     field_inline := true |}
             else {| field_name := "Pace";
                     field_value := pace +:+ " /km";
                     field_inline := true |});
            {| field_name := "Elevation";
               field_value := Text.str elevation +:+ " m";
               field_inline := true |} ] |}.

(** [build_webhook_message(access_token, object_id)] *)
Definition build_webhook_message (access_token object_id : pyval) : M Embed :=
  let* _ := emit (GetActivity object_id access_token) in
  let* activity := lift (get_activity w object_id access_token) in
  let* _ := emit (GetAthlete access_token) in
  let* athlete := lift (get_athlete w access_token) in
  lift (build_embed activity athlete).

(** The body of [post_webhook(activity_id, embed)]. *)
Definition post_webhook_body (activity_id : pyval) (embed : Embed) : M unit :=
  let* _ := emit (WebhookSend embed) in
  let* message_id := lift (webhook_send w embed) in
  put_item Messages [("activity_id", activity_id); ("message_id", VInt message_id)].

(** A call of [post_webhook]: Python binds the arguments to the two
    positional parameters before the body runs, and raises [TypeError]
    when one is missing. *)
Definition post_webhook (args : post_webhook_args) : M unit :=
  match args with
  | Positional2 activity_id embed => post_webhook_body activity_id embed
  | Positional1 _ => raise TypeError
  end.

(** [update_or_repost_webhook(activity_id, embed)]: should be called when
    an activity is updated. *)
Definition update_or_repost_webhook (activity_id : pyval) (embed : Embed) : M unit :=
  let* result := get_item Messages activity_id in
  (* Search for existing entry in messages table or posts a new message. *)
  let message_id :=
    default VNone (dict_get (default [] result) "message_id") in
  if truthy message_id then
    let* _ := emit (WebhookEdit message_id embed) in
    lift (webhook_edit w message_id embed)
  else
    post_webhook (Positional1 embed).

(** [post_message(body)] *)
Definition post_message (body : pyval) : M Z :=
  let* object_type := lift (getitem body "object_type") in
  let* object_id := lift (getitem body "object_id") in
  let* aspect_type := lift (getitem body "aspect_type") in
  let* owner_id := lift (getitem body "owner_id") in
  let* access_token := get_token_for_athlete owner_id in
  let* _ :=
    if eq_str object_type "activity" then
      if eq_str aspect_type "create" then
        let* embed := build_webhook_message access_token object_id in
        post_webhook (Positional2 object_id embed)
      else if eq_str aspect_type "update" then
        let* embed := build_webhook_message access_token object_id in
        update_or_repost_webhook object_id embed
      else ret tt
    else if eq_str object_type "athlete" then
      ret tt
    else ret tt in
  ret 200.

End Handlers.

(** * Properties *)

(** ** Dictionaries *)

Lemma dict_get_set_eq {V} (d : list (string * V)) k v :
  dict_get (dict_set d k v) k = Some v.
Proof.
  induction d as [|[k' v'] d IH]; simpl.
  - now rewrite String.eqb_refl.
  - destruct (String.eqb k' k) eqn:E; simpl; rewrite E; auto.
Qed.

Lemma dict_get_set_ne {V} (d : list (string * V)) k k' v :
  k <> k' -> dict_get (dict_set d k v) k' = dict_get d k'.
Proof.
  intros Hne. induction d as [|[k0 v0] d IH]; simpl.
  - destruct (String.eqb_spec k k'); congruence.
  - destruct (String.eqb_spec k0 k) as [->|]; simpl.
    + destruct (String.eqb_spec k k'); congruence.
    + destruct (String.eqb_spec k0 k'); auto.
Qed.

(** ** States and runs *)

(** [with_calls s l]: the state [s] after the calls [l], tables untouched. *)
Definition with_calls (s : state) (l : list call) : state :=
  {| users := users s; messages := messages s; calls := calls s ++ l |}.

Lemma with_calls_nil s : with_calls s [] = s.
Proof. destruct s; unfold with_calls; simpl. now rewrite app_nil_r. Qed.

Lemma with_calls_app s l1 l2 :
  with_calls (with_calls s l1) l2 = with_calls s (l1 ++ l2).
Proof. unfold with_calls; simpl. now rewrite app_assoc. Qed.

Lemma emit_run c s : emit c s = (Ok tt, with_calls s [c]).
Proof. reflexivity. Qed.

Lemma bind_lift_ok {A B} (r : result A) (a : A) (k : A -> M B) s :
  r = Ok a -> bind (lift r) k s = k a s.
Proof. intros ->. reflexivity. Qed.

Lemma bind_lift_raise {A B} (r : result A) e (k : A -> M B) s :
  r = Raise e -> bind (lift r) k s = (Raise e, s).
Proof. intros ->. reflexivity. Qed.

Lemma bind_emit {B} c (k : unit -> M B) s :
  bind (emit c) k s = k tt (with_calls s [c]).
Proof. reflexivity. Qed.

Lemma bind_bind {A B C} (c : M A) (k : A -> M B) (h : B -> M C) s :
  bind (bind c k) h s = bind c (fun a => bind (k a) h) s.
Proof. unfold bind. destruct (c s) as [[a|e] s']; reflexivity. Qed.

Lemma get_item_run t key k s :
  key_of key = Ok k ->
  get_item t key s = (Ok (table_of t s !! k), with_calls s [GetItem t key]).
Proof.
  intros Hk. unfold get_item. rewrite bind_emit, (bind_lift_ok _ k) by exact Hk.
  destruct t; reflexivity.
Qed.

(** ** Subscription validation ([subscribe]) *)

(** When the event carries a query-parameter mapping with [hub.challenge],
    the reply is 200 and its body is the JSON object echoing the value. *)
Lemma subscribe_challenge_present event params challenge :
  getitem event "queryStringParameters" = Ok params ->
  getitem params "hub.challenge" = Ok challenge ->
  subscribe event
  = Ok {| statusCode := 200;
          body := Text.json_dumps (VDict [("hub.challenge", challenge)]) |}.
Proof. intros H1 H2. unfold subscribe. rewrite H1. simpl. now rewrite H2. Qed.

(** The body for the challenge ["X"] is the text [{"hub.challenge": "X"}]. *)
Lemma subscribe_challenge_text :
  subscribe (VDict [("queryStringParameters", VDict [("hub.challenge", VStr "X")])])
  = Ok {| statusCode := 200;
          body := "{" +:+ Text.dquote +:+ "hub.challenge" +:+ Text.dquote +:+ ": "
                      +:+ Text.dquote +:+ "X" +:+ Text.dquote +:+ "}" |}.
Proof. reflexivity. Qed.

(** A missing key, at either level, is answered with 400. *)
Lemma subscribe_key_missing event :
  (let? params := getitem event "queryStringParameters" in
   getitem params "hub.challenge") = Raise KeyError ->
  subscribe event = Ok {| statusCode := 400; body := "Invalid request" |}.
Proof. intros H. unfold subscribe. now rewrite H. Qed.

(** C7, at the event API Gateway's REST proxy builds for a request without any
    query string ([queryStringParameters] is [null]): the challenge is
    absent, the lookup raises [TypeError], which [except KeyError] does not
    catch, so no 400 reply is produced. *)
Theorem subscribe_null_query_parameters :
  subscribe (VDict [("queryStringParameters", VNone)]) = Raise TypeError.
Proof. reflexivity. Qed.

(** ** Event intake ([receive_event]) *)

Definition success : reply := {| statusCode := 200; body := "Success" |}.

(** For a request whose body parses to a JSON object with an
    [object_type]: when it is ["activity"], exactly one publish call is made,
    carrying [json.dumps] of the parsed body, and the reply is 200 whether
    the publish succeeds or fails with a [ClientError]; when it is anything
    else, no call is made and the reply is 200. *)
Theorem receive_event_forwards_activities w event raw payload type s :
  getitem event "body" = Ok (VStr raw) ->
  json_loads w raw = Ok payload ->
  getitem payload "object_type" = Ok type ->
  (eq_str type "activity" = true ->
   sns_publish w (Text.json_dumps payload) = Ok tt
   \/ sns_publish w (Text.json_dumps payload) = Raise ClientError) ->
  receive_event w event s
  = (Ok success,
     if eq_str type "activity"
     then with_calls s [SnsPublish (Text.json_dumps payload)]
     else s).
Proof.
  intros Hraw Hload Htype Hpub. unfold receive_event.
  rewrite (bind_lift_ok _ _ _ _ Hraw).
  rewrite (bind_lift_ok _ payload) by exact Hload.
  rewrite (bind_lift_ok _ _ _ _ Htype).
  destruct (eq_str type "activity"); [|reflexivity].
  unfold bind at 1, try_except. rewrite bind_emit. unfold lift.
  destruct (Hpub eq_refl) as [-> | ->]; reflexivity.
Qed.

(** A world for examples: the clock stands at [t] and every remote call
    fails the way its client library reports an unreachable service. *)
Definition offline (t : Z) : World :=
  {| now := t;
     strptime := fun _ => Raise ValueError;
     json_loads := fun _ => Raise JSONDecodeError;
     oauth_token := fun _ => Raise RequestException;
     get_activity := fun _ _ => Raise RequestException;
     get_athlete := fun _ => Raise RequestException;
     webhook_send := fun _ => Raise HTTPException;
     webhook_edit := fun _ _ => Raise HTTPException;
     sns_publish := fun _ => Raise BotoCoreError |}.

Definition empty_state : state := {| users := ∅; messages := ∅; calls := [] |}.

Definition activity_event : pyval :=
  VDict [("aspect_type", VStr "create"); ("object_id", VInt 1360128428);
         ("object_type", VStr "activity"); ("owner_id", VInt 134815)].

Definition athlete_event : pyval :=
  VDict [("aspect_type", VStr "update"); ("object_id", VInt 134815);
         ("object_type", VStr "athlete"); ("owner_id", VInt 134815)].

(** Worlds that differ from [w] in one service. *)
Definition with_json_loads (f : string -> result pyval) (w : World) : World :=
  {| now := now w; strptime := strptime w; json_loads := f;
     oauth_token := oauth_token w; get_activity := get_activity w;
     get_athlete := get_athlete w; webhook_send := webhook_send w;
     webhook_edit := webhook_edit w; sns_publish := sns_publish w |}.

Definition with_publish (f : string -> result unit) (w : World) : World :=
  {| now := now w; strptime := strptime w; json_loads := json_loads w;
     oauth_token := oauth_token w; get_activity := get_activity w;
     get_athlete := get_athlete w; webhook_send := webhook_send w;
     webhook_edit := webhook_edit w; sns_publish := f |}.

Definition with_oauth (f : pyval -> result response) (w : World) : World :=
  {| now := now w; strptime := strptime w; json_loads := json_loads w;
     oauth_token := f; get_activity := get_activity w;
     get_athlete := get_athlete w; webhook_send := webhook_send w;
     webhook_edit := webhook_edit w; sns_publish := sns_publish w |}.

Definition with_strava (activity athlete : pyval) (parse : string -> result Z) (w : World) : World :=
  {| now := now w; strptime := parse; json_loads := json_loads w;
     oauth_token := oauth_token w; get_activity := fun _ _ => Ok activity;
     get_athlete := fun _ => Ok athlete; webhook_send := webhook_send w;
     webhook_edit := webhook_edit w; sns_publish := sns_publish w |}.

Definition with_discord (send : Embed -> result Z) (edit : pyval -> Embed -> result unit)
    (w : World) : World :=
  {| now := now w; strptime := strptime w; json_loads := json_loads w;
     oauth_token := oauth_token w; get_activity := get_activity w;
     get_athlete := get_athlete w; webhook_send := send;
     webhook_edit := edit; sns_publish := sns_publish w |}.

(** A world that parses exactly the text of [payload]. *)
Definition parsing (payload : pyval) : World -> World :=
  with_json_loads (fun s => if String.eqb s (Text.json_dumps payload) then Ok payload
                            else Raise JSONDecodeError).

Definition http_event (payload : pyval) : pyval :=
  VDict [("body", VStr (Text.json_dumps payload))].

Definition published : World -> World := with_publish (fun _ => Ok tt).

Lemma receive_event_forwards_activities_witness :
  receive_event (published (parsing activity_event (offline 0)))
                (http_event activity_event) empty_state
  = (Ok success, with_calls empty_state [SnsPublish (Text.json_dumps activity_event)]).
Proof.
  apply (receive_event_forwards_activities
           (published (parsing activity_event (offline 0)))
           (http_event activity_event) (Text.json_dumps activity_event)
           activity_event (VStr "activity") empty_state);
    try reflexivity.
  intros _. left. reflexivity.
Defined.

(** C6, on the code: a publish that fails otherwise than with a
    [ClientError] (botocore raises a [BotoCoreError] when the endpoint is
    unreachable, say) is not caught by [except ClientError]: after the one
    publish call the handler raises instead of logging the failure and
    replying 200, as it does for a [ClientError]. *)
Theorem publish_failure_escapes w event raw payload type e s :
  getitem event "body" = Ok (VStr raw) ->
  json_loads w raw = Ok payload ->
  getitem payload "object_type" = Ok type ->
  eq_str type "activity" = true ->
  sns_publish w (Text.json_dumps payload) = Raise e ->
  e <> ClientError ->
  receive_event w event s
  = (Raise e, with_calls s [SnsPublish (Text.json_dumps payload)]).
Proof.
  intros Hraw Hload Htype Hactivity Hpub Hother. unfold receive_event.
  rewrite (bind_lift_ok _ _ _ _ Hraw).
  rewrite (bind_lift_ok _ payload) by exact Hload.
  rewrite (bind_lift_ok _ _ _ _ Htype), Hactivity.
  unfold bind at 1, try_except. rewrite bind_emit. unfold lift. rewrite Hpub.
  assert (Hmiss : exn_eqb e ClientError = false) by (destruct e; try reflexivity; congruence).
  now rewrite Hmiss.
Qed.

Lemma publish_failure_escapes_witness :
  receive_event (parsing activity_event (offline 0)) (http_event activity_event) empty_state
  = (Raise BotoCoreError,
     with_calls empty_state [SnsPublish (Text.json_dumps activity_event)]).
Proof.
  apply (publish_failure_escapes (parsing activity_event (offline 0))
           (http_event activity_event) (Text.json_dumps activity_event) activity_event
           (VStr "activity") BotoCoreError empty_state);
    try reflexivity.
  discriminate.
Defined.

(** ** Delivery ([post_webhook], [update_or_repost_webhook]) *)

(** The create path: the message is sent and the record
    [{activity_id, message_id}] is written under the activity id. *)
Lemma post_webhook_records w activity_id k embed message_id s :
  key_of activity_id = Ok k ->
  webhook_send w embed = Ok message_id ->
  let record := [("activity_id", activity_id); ("message_id", VInt message_id)] in
  post_webhook w (Positional2 activity_id embed) s
  = (Ok tt,
     {| users := users s;
        messages := <[k := record]> (messages s);
        calls := calls s ++ [WebhookSend embed; PutItem Messages record] |}).
Proof.
  intros Hk Hsend record. unfold post_webhook, post_webhook_body.
  rewrite bind_emit, (bind_lift_ok _ _ _ _ Hsend).
  unfold put_item. rewrite bind_emit. simpl dict_get.
  rewrite (bind_lift_ok _ _ _ _ Hk). unfold with_calls; simpl.
  now rewrite <- app_assoc.
Qed.

(** The stored message id [update_or_repost_webhook] branches on:
    [result.get("Item", {}).get("message_id")]. *)
Definition stored_message_id (record : option item) : pyval :=
  default VNone (dict_get (default [] record) "message_id").

(** C1, on the code: for an update whose activity has no record, the
    fallback calls [post_webhook] with the embed alone; the call raises
    [TypeError] before anything is sent, so no message is posted and no
    record is written. *)
Theorem update_without_record_raises w activity_id k embed s :
  key_of activity_id = Ok k ->
  messages s !! k = None ->
  update_or_repost_webhook w activity_id embed s
  = (Raise TypeError, with_calls s [GetItem Messages activity_id]).
Proof.
  intros Hk Hnone. unfold update_or_repost_webhook, bind.
  rewrite (get_item_run _ _ _ _ Hk). unfold table_of. rewrite Hnone. reflexivity.
Qed.

Definition blank_embed : Embed :=
  {| title := VStr "Morning Run"; url := ""; colour := 0; timestamp := 0;
     author := {| author_name := ""; author_url := ""; author_icon_url := VNone |};
     footer := {| footer_text := ""; footer_icon_url := "" |};
     fields := [] |}.

Lemma update_without_record_raises_witness :
  update_or_repost_webhook (offline 0) (VInt 1360128428) blank_embed empty_state
  = (Raise TypeError, with_calls empty_state [GetItem Messages (VInt 1360128428)]).
Proof.
  apply (update_without_record_raises (offline 0) (VInt 1360128428) 1360128428);
    reflexivity.
Defined.

(** With a record whose message id is set, the edit is submitted against
    that id and nothing else happens. *)
Lemma update_with_record_edits w activity_id k (record : item) message_id embed s :
  key_of activity_id = Ok k ->
  messages s !! k = Some record ->
  dict_get record "message_id" = Some message_id ->
  truthy message_id = true ->
  update_or_repost_webhook w activity_id embed s
  = (webhook_edit w message_id embed,
     with_calls s [GetItem Messages activity_id; WebhookEdit message_id embed]).
Proof.
  intros Hk Hrec Hid Htrue. unfold update_or_repost_webhook, bind at 1.
  rewrite (get_item_run _ _ _ _ Hk). unfold table_of. rewrite Hrec.
  cbn [from_option id]. rewrite Hid. cbn [from_option id].
  rewrite Htrue, bind_emit, with_calls_app. reflexivity.
Qed.

(** ** Frames: what a computation may call and which table it may write *)

(** [changes P T s s']: from [s] to [s'] only calls satisfying [P] were
    made and only the tables in [T] were written. *)
Definition changes (P : call -> Prop) (T : table -> Prop) (s s' : state) : Prop :=
  (exists l, calls s' = calls s ++ l /\ Forall P l)
  /\ (~ T Users -> users s' = users s)
  /\ (~ T Messages -> messages s' = messages s).

Definition preserves {A} (R : state -> state -> Prop) (c : M A) : Prop :=
  forall s, R s (snd (c s)).

Section Frames.

Variable P : call -> Prop.
Variable T : table -> Prop.

Lemma changes_refl s : changes P T s s.
Proof.
  repeat split; auto. exists []. now rewrite app_nil_r.
Qed.

Lemma changes_trans s1 s2 s3 :
  changes P T s1 s2 -> changes P T s2 s3 -> changes P T s1 s3.
Proof.
  intros [[l1 [E1 F1]] [U1 M1]] [[l2 [E2 F2]] [U2 M2]]. repeat split.
  - exists (l1 ++ l2). rewrite E2, E1, <- app_assoc. split; auto.
    apply Forall_app; auto.
  - intros H. now rewrite U2, U1.
  - intros H. now rewrite M2, M1.
Qed.

Lemma preserves_ret {A} (a : A) : preserves (changes P T) (ret a).
Proof. intros s. apply changes_refl. Qed.

Lemma preserves_lift {A} (r : result A) : preserves (changes P T) (lift r).
Proof. intros s. apply changes_refl. Qed.

Lemma preserves_raise {A} e : preserves (changes P T) (@raise A e).
Proof. intros s. apply changes_refl. Qed.

Lemma preserves_bind {A B} (c : M A) (k : A -> M B) :
  preserves (changes P T) c ->
  (forall a, preserves (changes P T) (k a)) ->
  preserves (changes P T) (bind c k).
Proof.
  intros Hc Hk s. unfold bind. specialize (Hc s).
  destruct (c s) as [[a|e] s']; simpl in *; auto.
  eapply changes_trans; [exact Hc | apply Hk].
Qed.

Lemma preserves_try_except {A} (c : M A) e (h : M A) :
  preserves (changes P T) c ->
  preserves (changes P T) h ->
  preserves (changes P T) (try_except c e h).
Proof.
  intros Hc Hh s. unfold try_except. specialize (Hc s).
  destruct (c s) as [[a|e'] s']; simpl in *; auto.
  destruct (exn_eqb e' e); auto.
  eapply changes_trans; [exact Hc | apply Hh].
Qed.

Lemma preserves_emit c : P c -> preserves (changes P T) (emit c).
Proof.
  intros Hc s. repeat split; auto. exists [c]. split; auto.
Qed.

Lemma preserves_read t k : preserves (changes P T) (read t k).
Proof. intros s. apply changes_refl. Qed.

Lemma preserves_write t k it : T t -> preserves (changes P T) (write t k it).
Proof.
  intros Ht s. destruct t; simpl; repeat split; simpl; auto;
    try (exists []; now rewrite app_nil_r); intros H; now destruct H.
Qed.

Lemma preserves_get_item t key :
  P (GetItem t key) -> preserves (changes P T) (get_item t key).
Proof.
  intros Hc. unfold get_item. apply preserves_bind; [now apply preserves_emit|].
  intros _. apply preserves_bind; [apply preserves_lift|].
  intros k. apply preserves_read.
Qed.

Lemma preserves_put_item t it :
  P (PutItem t it) -> T t -> preserves (changes P T) (put_item t it).
Proof.
  intros Hc Ht. unfold put_item. apply preserves_bind; [now apply preserves_emit|].
  intros _. apply preserves_bind; [apply preserves_lift|].
  intros k. now apply preserves_write.
Qed.

End Frames.

Ltac frame_side := try solve [simpl; auto | hnf; auto].

Ltac frame_step :=
  lazymatch goal with
  | |- preserves _ (bind _ _) => apply preserves_bind; [|intros ?]
  | |- preserves _ (ret _) => apply preserves_ret
  | |- preserves _ (lift _) => apply preserves_lift
  | |- preserves _ (raise _) => apply preserves_raise
  | |- preserves _ (emit _) => apply preserves_emit; frame_side
  | |- preserves _ (read _ _) => apply preserves_read
  | |- preserves _ (write _ _ _) => apply preserves_write; frame_side
  | |- preserves _ (get_item _ _) => apply preserves_get_item; frame_side
  | |- preserves _ (put_item _ _) => apply preserves_put_item; frame_side
  | |- preserves _ (try_except _ _ _) => apply preserves_try_except
  | |- preserves _ (if ?b then _ else _) => destruct b
  | |- preserves _ (match ?x with _ => _ end) => destruct x
  end.

Ltac frame := cbv zeta; repeat (frame_step; cbv beta zeta).

(** The calls of credential resolution. *)
Definition credential_call (c : call) : Prop :=
  match c with
  | GetItem Users _ | OauthToken _ | PutItem Users _ => True
  | _ => False
  end.

(** The calls of message building. *)
Definition fetch_call (c : call) : Prop :=
  match c with
  | GetActivity _ _ | GetAthlete _ => True
  | _ => False
  end.

Definition any_call (c : call) : Prop := True.
Definition any_table (t : table) : Prop := True.
Definition no_table (t : table) : Prop := False.

(** Credential resolution reads and writes the [users] table only. *)
Lemma get_token_for_athlete_frame w id :
  preserves (changes credential_call (eq Users)) (get_token_for_athlete w id).
Proof. unfold get_token_for_athlete. frame. Qed.

(** Message building fetches and writes nothing. *)
Lemma build_webhook_message_frame w access_token object_id :
  preserves (changes fetch_call no_table) (build_webhook_message w access_token object_id).
Proof. unfold build_webhook_message. frame. Qed.

Lemma post_webhook_frame w args :
  preserves (changes any_call any_table) (post_webhook w args).
Proof. unfold post_webhook, post_webhook_body. frame. Qed.

Lemma update_or_repost_webhook_frame w activity_id embed :
  preserves (changes any_call any_table) (update_or_repost_webhook w activity_id embed).
Proof. unfold update_or_repost_webhook. frame. apply post_webhook_frame. Qed.

(** Frames weaken. *)
Lemma changes_weaken (P P' : call -> Prop) (T T' : table -> Prop) s s' :
  (forall c, P c -> P' c) -> (forall t, T t -> T' t) ->
  changes P T s s' -> changes P' T' s s'.
Proof.
  intros HP HT [[l [E F]] [U M0]]. repeat split.
  - exists l. split; auto. eapply Forall_impl; eauto.
  - intros H. apply U. intros H'. apply H. auto.
  - intros H. apply M0. intros H'. apply H. auto.
Qed.

Lemma preserves_weaken {A} (P P' : call -> Prop) (T T' : table -> Prop) (c : M A) :
  (forall c, P c -> P' c) -> (forall t, T t -> T' t) ->
  preserves (changes P T) c -> preserves (changes P' T') c.
Proof. intros HP HT H s. eapply changes_weaken; eauto. Qed.

(** ** Credential resolution ([get_token_for_athlete]) *)

Lemma in_datetime_range_ok seconds :
  datetime_min <= seconds <= datetime_max -> in_datetime_range seconds = Ok tt.
Proof.
  unfold in_datetime_range, datetime_min, datetime_max. intros H.
  change (2 ^ 63) with 9223372036854775808.
  repeat match goal with
         | |- context [?a <? ?b] => destruct (Z.ltb_spec a b); [lia|]
         | |- context [?a <=? ?b] => destruct (Z.leb_spec a b); [lia|]
         end.
  reflexivity.
Qed.

Lemma fromtimestamp_int seconds :
  datetime_min <= seconds <= datetime_max ->
  fromtimestamp (VInt seconds) = Ok (seconds * 1000000).
Proof.
  intros H. unfold fromtimestamp. cbn [as_number rbind].
  now rewrite (in_datetime_range_ok _ H).
Qed.

(** The result handed back when the refresh endpoint answers [status]. *)
Definition refresh_failure (status : Z) : pyval :=
  VDict [("statusCode", VInt status);
         ("body", VStr "Failed to get updated token for athlete")].

(** The stored credential after a refresh answered with the triple. *)
Definition refreshed (credential : item) (access refresh expires : pyval) : item :=
  dict_set (dict_set (dict_set credential "access_token" access)
                     "refresh_token" refresh)
           "expires_at" expires.

Section Credential.

Variable w : World.
Variables (id : pyval) (k : Z) (s : state) (credential : item) (expires_at : Z).

Hypothesis Hkey : key_of id = Ok k.
Hypothesis Hstored : users s !! k = Some credential.
Hypothesis Hexpiry : dict_get credential "expires_at" = Some (VInt expires_at).
Hypothesis Hrange : datetime_min <= expires_at <= datetime_max.

(** Up to the expiry test. *)
Lemma get_token_for_athlete_test :
  get_token_for_athlete w id s
  = (if expires_at * 1000000 <? now w then
       let* refresh_token := lift (getitem (VDict credential) "refresh_token") in
       let* _ := emit (OauthToken refresh_token) in
       let* response := lift (oauth_token w refresh_token) in
       if negb (status_code response =? 200) then
         ret (refresh_failure (status_code response))
       else
         let* response_body := lift (json response) in
         let* access_token := lift (getitem response_body "access_token") in
         let* refresh_token' := lift (getitem response_body "refresh_token") in
         let* expires_at' := lift (getitem response_body "expires_at") in
         let* _ := put_item Users (refreshed credential access_token refresh_token' expires_at') in
         lift (getitem response_body "access_token")
     else lift (getitem (VDict credential) "access_token"))
      (with_calls s [GetItem Users id]).
Proof.
  unfold get_token_for_athlete, bind at 1.
  rewrite (get_item_run _ _ _ _ Hkey). unfold table_of. rewrite Hstored.
  rewrite (bind_lift_ok _ credential) by reflexivity.
  rewrite (bind_lift_ok _ (VInt expires_at)) by (simpl; now rewrite Hexpiry).
  rewrite (bind_lift_ok _ (expires_at * 1000000))
    by (now apply fromtimestamp_int).
  reflexivity.
Qed.

(** Not past the expiry: the stored token, and no other call. *)
Lemma get_token_for_athlete_fresh access :
  now w <= expires_at * 1000000 ->
  dict_get credential "access_token" = Some access ->
  get_token_for_athlete w id s = (Ok access, with_calls s [GetItem Users id]).
Proof.
  intros Hnow Haccess. rewrite get_token_for_athlete_test.
  destruct (Z.ltb_spec (expires_at * 1000000) (now w)); [lia|].
  unfold lift. simpl. now rewrite Haccess.
Qed.

Section Expired.

Variable refresh : pyval.
Hypothesis Hpast : expires_at * 1000000 < now w.
Hypothesis Hrefresh : dict_get credential "refresh_token" = Some refresh.

Lemma get_token_for_athlete_expired :
  get_token_for_athlete w id s
  = (let* response := lift (oauth_token w refresh) in
     if negb (status_code response =? 200) then
       ret (refresh_failure (status_code response))
     else
       let* response_body := lift (json response) in
       let* access_token := lift (getitem response_body "access_token") in
       let* refresh_token' := lift (getitem response_body "refresh_token") in
       let* expires_at' := lift (getitem response_body "expires_at") in
       let* _ := put_item Users (refreshed credential access_token refresh_token' expires_at') in
       lift (getitem response_body "access_token"))
      (with_calls s [GetItem Users id; OauthToken refresh]).
Proof.
  rewrite get_token_for_athlete_test.
  destruct (Z.ltb_spec (expires_at * 1000000) (now w)); [|lia].
  rewrite (bind_lift_ok _ refresh) by (simpl; now rewrite Hrefresh).
  rewrite bind_emit, with_calls_app. reflexivity.
Qed.

(** The refresh endpoint is called, whatever it answers. *)
Lemma get_token_for_athlete_calls_endpoint :
  exists l, calls (snd (get_token_for_athlete w id s))
            = calls s ++ [GetItem Users id; OauthToken refresh] ++ l.
Proof.
  rewrite get_token_for_athlete_expired.
  match goal with |- context [snd (?c ?s0)] =>
    assert (H : preserves (changes any_call any_table) c) by frame;
    destruct (H s0) as [[l [E _]] _]
  end.
  exists l. rewrite E. simpl. now rewrite <- app_assoc.
Qed.

(** A non-200 answer comes back as a result, not as an exception. *)
Lemma get_token_for_athlete_refresh_failed response :
  oauth_token w refresh = Ok response ->
  status_code response <> 200 ->
  get_token_for_athlete w id s
  = (Ok (refresh_failure (status_code response)),
     with_calls s [GetItem Users id; OauthToken refresh]).
Proof.
  intros Hanswer Hstatus. rewrite get_token_for_athlete_expired.
  rewrite (bind_lift_ok _ _ _ _ Hanswer).
  destruct (Z.eqb_spec (status_code response) 200); [contradiction|]. reflexivity.
Qed.

(** A 200 answer with the token triple overwrites the stored credential. *)
Lemma get_token_for_athlete_refreshed response answer access' refresh' expires' :
  dict_get credential "id" = Some (VInt k) ->
  oauth_token w refresh = Ok response ->
  status_code response = 200 ->
  json response = Ok answer ->
  getitem answer "access_token" = Ok access' ->
  getitem answer "refresh_token" = Ok refresh' ->
  getitem answer "expires_at" = Ok expires' ->
  let credential' := refreshed credential access' refresh' expires' in
  get_token_for_athlete w id s
  = (Ok access',
     {| users := <[k := credential']> (users s);
        messages := messages s;
        calls := calls s ++ [GetItem Users id; OauthToken refresh;
                             PutItem Users credential'] |}).
Proof.
  intros Hid Hanswer Hstatus Hjson Ha Hr He credential'.
  rewrite get_token_for_athlete_expired.
  rewrite (bind_lift_ok _ _ _ _ Hanswer), Hstatus.
  change (negb (200 =? 200)) with false. cbv iota.
  rewrite (bind_lift_ok _ _ _ _ Hjson), (bind_lift_ok _ _ _ _ Ha),
    (bind_lift_ok _ _ _ _ Hr), (bind_lift_ok _ _ _ _ He).
  fold credential'. unfold put_item. rewrite bind_bind, bind_emit.
  assert (Hk' : dict_get credential' (key_name Users) = Some (VInt k)).
  { unfold credential', refreshed. simpl key_name.
    rewrite !dict_get_set_ne by discriminate. exact Hid. }
  rewrite Hk'. simpl key_of. rewrite bind_bind.
  rewrite (bind_lift_ok _ k) by reflexivity.
  unfold bind, lift. rewrite Ha. unfold with_calls. simpl.
  now rewrite <- app_assoc.
Qed.

End Expired.

End Credential.

(** C3 (amended): for every stored credential, the resolver refreshes exactly
    when [now] is strictly later than [expires_at] (at [now = expires_at] the
    token still counts as valid). Not later: no refresh call, the stored
    access token is returned and nothing is written. Later: the refresh
    endpoint is called with the stored refresh token, and on a 200 answer
    carrying the triple the stored [access_token], [refresh_token] and
    [expires_at] are overwritten and the new access token is returned. The
    clock [now w] counts microseconds, [expires_at] seconds. *)
Theorem credential_refreshed_when_past_expiry
    w id k s (credential : item) expires_at access refresh :
  key_of id = Ok k ->
  users s !! k = Some credential ->
  dict_get credential "id" = Some (VInt k) ->
  dict_get credential "expires_at" = Some (VInt expires_at) ->
  datetime_min <= expires_at <= datetime_max ->
  dict_get credential "access_token" = Some access ->
  dict_get credential "refresh_token" = Some refresh ->
  (now w <= expires_at * 1000000 ->
   get_token_for_athlete w id s = (Ok access, with_calls s [GetItem Users id]))
  /\ (expires_at * 1000000 < now w ->
      (exists l, calls (snd (get_token_for_athlete w id s))
                 = calls s ++ [GetItem Users id; OauthToken refresh] ++ l)
      /\ forall response answer access' refresh' expires',
          oauth_token w refresh = Ok response ->
          status_code response = 200 ->
          json response = Ok answer ->
          getitem answer "access_token" = Ok access' ->
          getitem answer "refresh_token" = Ok refresh' ->
          getitem answer "expires_at" = Ok expires' ->
          let credential' := refreshed credential access' refresh' expires' in
          get_token_for_athlete w id s
          = (Ok access',
             {| users := <[k := credential']> (users s);
                messages := messages s;
                calls := calls s ++ [GetItem Users id; OauthToken refresh;
                                     PutItem Users credential'] |})
          /\ dict_get credential' "access_token" = Some access'
          /\ dict_get credential' "refresh_token" = Some refresh'
          /\ dict_get credential' "expires_at" = Some expires').
Proof.
  intros Hkey Hstored Hid Hexpiry Hrange Haccess Hrefresh. split.
  - intros Hnow. eapply get_token_for_athlete_fresh; eauto.
  - intros Hpast. split.
    + eapply get_token_for_athlete_calls_endpoint; eauto.
    + intros response answer access' refresh' expires' Hanswer Hstatus Hjson Ha Hr He credential'.
      split; [eapply get_token_for_athlete_refreshed; eauto|].
      unfold credential', refreshed.
      repeat split;
        rewrite ?dict_get_set_eq, ?dict_get_set_ne by discriminate;
        rewrite ?dict_get_set_eq, ?dict_get_set_ne by discriminate;
        rewrite ?dict_get_set_eq; reflexivity.
Qed.

Definition stored_credential : item :=
  [("id", VInt 134815); ("access_token", VStr "access-1");
   ("refresh_token", VStr "refresh-1"); ("expires_at", VInt 1700000000)].

Definition one_athlete : state :=
  {| users := {[ 134815 := stored_credential ]}; messages := ∅; calls := [] |}.

Definition token_answer : pyval :=
  VDict [("token_type", VStr "Bearer"); ("access_token", VStr "access-2");
         ("expires_at", VInt 1700021600); ("expires_in", VInt 21600);
         ("refresh_token", VStr "refresh-2")].

Definition answering (status : Z) (answer : pyval) : World -> World :=
  with_oauth (fun _ => Ok {| status_code := status; json := Ok answer |}).

Lemma credential_refreshed_when_past_expiry_witness :
  get_token_for_athlete (offline 1699999999000000) (VInt 134815) one_athlete
  = (Ok (VStr "access-1"), with_calls one_athlete [GetItem Users (VInt 134815)])
  /\ get_token_for_athlete (answering 200 token_answer (offline 1700000000000001))
       (VInt 134815) one_athlete
     = (Ok (VStr "access-2"),
        {| users := <[134815 := refreshed stored_credential (VStr "access-2")
                                  (VStr "refresh-2") (VInt 1700021600)]> (users one_athlete);
           messages := ∅;
           calls := [GetItem Users (VInt 134815); OauthToken (VStr "refresh-1");
                     PutItem Users (refreshed stored_credential (VStr "access-2")
                                      (VStr "refresh-2") (VInt 1700021600))] |}).
Proof.
  assert (Hrange : datetime_min <= 1700000000 <= datetime_max)
    by (unfold datetime_min, datetime_max; lia).
  split.
  - destruct (credential_refreshed_when_past_expiry (offline 1699999999000000)
                (VInt 134815) 134815 one_athlete stored_credential 1700000000
                (VStr "access-1") (VStr "refresh-1")
                eq_refl eq_refl eq_refl eq_refl Hrange eq_refl eq_refl) as [Hfresh _].
    apply Hfresh. simpl. lia.
  - destruct (credential_refreshed_when_past_expiry
                (answering 200 token_answer (offline 1700000000000001))
                (VInt 134815) 134815 one_athlete stored_credential 1700000000
                (VStr "access-1") (VStr "refresh-1")
                eq_refl eq_refl eq_refl eq_refl Hrange eq_refl eq_refl) as [_ Hpast].
    destruct Hpast as [_ Hdone]; [simpl; lia|].
    apply (Hdone {| status_code := 200; json := Ok token_answer |} token_answer
             (VStr "access-2") (VStr "refresh-2") (VInt 1700021600));
      reflexivity.
Defined.

(** C3 as stated fails at the boundary: with the clock exactly at the
    expiry ([now >= expires_at] holds) the stored token is returned and the
    refresh endpoint is not called. *)
Lemma no_refresh_at_expiry :
  dict_get stored_credential "expires_at" = Some (VInt 1700000000)
  /\ now (answering 200 token_answer (offline 1700000000000000)) >= 1700000000 * 1000000
  /\ get_token_for_athlete (answering 200 token_answer (offline 1700000000000000))
       (VInt 134815) one_athlete
     = (Ok (VStr "access-1"), with_calls one_athlete [GetItem Users (VInt 134815)]).
Proof. repeat split; vm_compute; congruence. Qed.

(** ** The processor ([post_message]) *)

(** The branch of [post_message] on [(object_type, aspect_type)]. *)
Definition deliver (w : World) (object_type aspect_type object_id access_token : pyval) : M unit :=
  if eq_str object_type "activity" then
    if eq_str aspect_type "create" then
      let* embed := build_webhook_message w access_token object_id in
      post_webhook w (Positional2 object_id embed)
    else if eq_str aspect_type "update" then
      let* embed := build_webhook_message w access_token object_id in
      update_or_repost_webhook w object_id embed
    else ret tt
  else if eq_str object_type "athlete" then ret tt
  else ret tt.

(** The events for which a message is built. *)
Definition produces_message (object_type aspect_type : pyval) : bool :=
  eq_str object_type "activity"
  && (eq_str aspect_type "create" || eq_str aspect_type "update").

Definition chat_call (c : call) : Prop :=
  match c with
  | WebhookSend _ | WebhookEdit _ _ => True
  | _ => False
  end.

Section Processor.

Variable w : World.
Variables (payload object_type object_id aspect_type owner_id : pyval).

Hypothesis Hobject_type : getitem payload "object_type" = Ok object_type.
Hypothesis Hobject_id : getitem payload "object_id" = Ok object_id.
Hypothesis Haspect_type : getitem payload "aspect_type" = Ok aspect_type.
Hypothesis Howner_id : getitem payload "owner_id" = Ok owner_id.

Lemma post_message_run s :
  post_message w payload s
  = (let* access_token := get_token_for_athlete w owner_id in
     let* _ := deliver w object_type aspect_type object_id access_token in
     ret 200) s.
Proof.
  unfold post_message.
  rewrite (bind_lift_ok _ _ _ _ Hobject_type), (bind_lift_ok _ _ _ _ Hobject_id),
    (bind_lift_ok _ _ _ _ Haspect_type), (bind_lift_ok _ _ _ _ Howner_id).
  reflexivity.
Qed.

Lemma deliver_frame access_token :
  preserves (changes any_call any_table)
            (deliver w object_type aspect_type object_id access_token).
Proof.
  unfold deliver, build_webhook_message, update_or_repost_webhook,
    post_webhook, post_webhook_body.
  frame.
Qed.

(** Whatever the event, the first call is the credential lookup. *)
Lemma post_message_starts_with_credentials s :
  exists l, calls (snd (post_message w payload s))
            = calls s ++ GetItem Users owner_id :: l.
Proof.
  rewrite post_message_run. unfold get_token_for_athlete, get_item.
  rewrite !bind_bind, bind_emit.
  match goal with |- context [snd (?c ?s0)] =>
    assert (H : preserves (changes any_call any_table) c)
      by (frame; apply deliver_frame);
    destruct (H s0) as [[l [E _]] _]
  end.
  exists l. rewrite E. simpl. now rewrite <- app_assoc.
Qed.

(** An event that produces no message runs credential resolution and
    nothing else. *)
Lemma post_message_without_message s :
  produces_message object_type aspect_type = false ->
  post_message w payload s
  = (let? _ := fst (get_token_for_athlete w owner_id s) in Ok 200,
     snd (get_token_for_athlete w owner_id s)).
Proof.
  intros Hnone. rewrite post_message_run. unfold bind, deliver.
  unfold produces_message in Hnone.
  destruct (get_token_for_athlete w owner_id s) as [[token|e] s1]; [|reflexivity].
  destruct (eq_str object_type "activity"); simpl in Hnone.
  - apply orb_false_iff in Hnone as [-> ->]. reflexivity.
  - destruct (eq_str object_type "athlete"); reflexivity.
Qed.

End Processor.

(** C10: whatever the event's [object_type] and [aspect_type], the processor
    starts with resolving the owner's credentials. For an event that
    produces no message (any [athlete] event, an [activity] [delete]) that
    is all it does: the messages table is untouched and no chat call is made,
    yet when the stored token is past its expiry and the refresh succeeds the
    credentials table is rewritten. *)
Theorem noop_event_resolves_credentials
    w payload object_type object_id aspect_type owner_id s :
  getitem payload "object_type" = Ok object_type ->
  getitem payload "object_id" = Ok object_id ->
  getitem payload "aspect_type" = Ok aspect_type ->
  getitem payload "owner_id" = Ok owner_id ->
  (exists l, calls (snd (post_message w payload s))
             = calls s ++ GetItem Users owner_id :: l)
  /\ (produces_message object_type aspect_type = false ->
      messages (snd (post_message w payload s)) = messages s
      /\ (exists l, calls (snd (post_message w payload s)) = calls s ++ l
                    /\ Forall (fun c => ~ chat_call c) l)
      /\ forall k (credential : item) expires_at refresh response answer
                access' refresh' expires',
          key_of owner_id = Ok k ->
          users s !! k = Some credential ->
          dict_get credential "id" = Some (VInt k) ->
          dict_get credential "expires_at" = Some (VInt expires_at) ->
          datetime_min <= expires_at <= datetime_max ->
          dict_get credential "refresh_token" = Some refresh ->
          expires_at * 1000000 < now w ->
          oauth_token w refresh = Ok response ->
          status_code response = 200 ->
          json response = Ok answer ->
          getitem answer "access_token" = Ok access' ->
          getitem answer "refresh_token" = Ok refresh' ->
          getitem answer "expires_at" = Ok expires' ->
          let credential' := refreshed credential access' refresh' expires' in
          post_message w payload s
          = (Ok 200,
             {| users := <[k := credential']> (users s);
                messages := messages s;
                calls := calls s ++ [GetItem Users owner_id; OauthToken refresh;
                                     PutItem Users credential'] |})).
Proof.
  intros Hty Hid Hasp Hown. split.
  - eapply post_message_starts_with_credentials; eauto.
  - intros Hnone.
    rewrite (post_message_without_message w payload object_type object_id
               aspect_type owner_id Hty Hid Hasp Hown s Hnone).
    destruct (get_token_for_athlete_frame w owner_id s) as [[l [E F]] [_ Hm]].
    cbn [fst snd]. split; [apply Hm; discriminate|]. split.
    + exists l. split; [exact E|]. eapply Forall_impl; [exact F|].
      intros [] Hc; simpl in *; auto.
    + intros k credential expires_at refresh response answer access' refresh' expires'
        Hk Hst Hcid Hexp Hrange Href Hpast Hans Hstatus Hjson Ha Hr He.
      rewrite (get_token_for_athlete_refreshed w owner_id k s credential expires_at
                 Hk Hst Hexp Hrange refresh Hpast Href response answer
                 access' refresh' expires' Hcid Hans Hstatus Hjson Ha Hr He).
      reflexivity.
Qed.

Lemma noop_event_resolves_credentials_witness :
  post_message (answering 200 token_answer (offline 1700000000000001))
    athlete_event one_athlete
  = (Ok 200,
     {| users := <[134815 := refreshed stored_credential (VStr "access-2")
                               (VStr "refresh-2") (VInt 1700021600)]> (users one_athlete);
        messages := messages one_athlete;
        calls := calls one_athlete
                 ++ [GetItem Users (VInt 134815); OauthToken (VStr "refresh-1");
                     PutItem Users (refreshed stored_credential (VStr "access-2")
                                      (VStr "refresh-2") (VInt 1700021600))] |}).
Proof.
  destruct (noop_event_resolves_credentials
              (answering 200 token_answer (offline 1700000000000001))
              athlete_event (VStr "athlete") (VInt 134815) (VStr "update") (VInt 134815)
              one_athlete eq_refl eq_refl eq_refl eq_refl) as [_ Hnoop].
  destruct (Hnoop eq_refl) as [_ [_ Hrewrite]].
  apply (Hrewrite 134815 stored_credential 1700000000 (VStr "refresh-1")
           {| status_code := 200; json := Ok token_answer |} token_answer
           (VStr "access-2") (VStr "refresh-2") (VInt 1700021600));
    try reflexivity; unfold datetime_min, datetime_max; simpl; lia.
Defined.

(** C2, on the code: when the refresh endpoint answers with a status other
    than 200, the resolver returns the failure result; [post_message] does
    not look at it and, for an event that produces a message, hands it to
    [build_webhook_message] as the access token, so the activity fetch is
    still made. *)
Theorem refresh_failure_reaches_fetch
    w payload object_type object_id aspect_type owner_id k s
    (credential : item) expires_at refresh response :
  getitem payload "object_type" = Ok object_type ->
  getitem payload "object_id" = Ok object_id ->
  getitem payload "aspect_type" = Ok aspect_type ->
  getitem payload "owner_id" = Ok owner_id ->
  produces_message object_type aspect_type = true ->
  key_of owner_id = Ok k ->
  users s !! k = Some credential ->
  dict_get credential "expires_at" = Some (VInt expires_at) ->
  datetime_min <= expires_at <= datetime_max ->
  dict_get credential "refresh_token" = Some refresh ->
  expires_at * 1000000 < now w ->
  oauth_token w refresh = Ok response ->
  status_code response <> 200 ->
  get_token_for_athlete w owner_id s
  = (Ok (refresh_failure (status_code response)),
     with_calls s [GetItem Users owner_id; OauthToken refresh])
  /\ exists l, calls (snd (post_message w payload s))
               = calls s ++ [GetItem Users owner_id; OauthToken refresh;
                             GetActivity object_id (refresh_failure (status_code response))]
                         ++ l.
Proof.
  intros Hty Hid Hasp Hown Hmsg Hk Hst Hexp Hrange Href Hpast Hans Hstatus.
  pose proof (get_token_for_athlete_refresh_failed w owner_id k s credential expires_at
                Hk Hst Hexp Hrange refresh Hpast Href response Hans Hstatus) as Hfail.
  split; [exact Hfail|].
  rewrite (post_message_run w payload object_type object_id aspect_type owner_id
             Hty Hid Hasp Hown).
  unfold bind at 1. rewrite Hfail.
  assert (Hdeliver : exists k0 : unit -> M unit,
             (forall u, preserves (changes any_call any_table) (k0 u))
             /\ deliver w object_type aspect_type object_id
                  (refresh_failure (status_code response))
                = bind (emit (GetActivity object_id (refresh_failure (status_code response)))) k0).
  { unfold produces_message in Hmsg. unfold deliver.
    apply andb_true_iff in Hmsg as [-> Hasp']. unfold build_webhook_message.
    destruct (eq_str aspect_type "create").
    - eexists (fun _ => bind (bind _ _) _). split; [|reflexivity].
      intros u. unfold post_webhook, post_webhook_body. frame.
    - simpl in Hasp'. rewrite Hasp'.
      eexists (fun _ => bind (bind _ _) _). split; [|reflexivity].
      intros u. unfold update_or_repost_webhook, post_webhook, post_webhook_body. frame. }
  destruct Hdeliver as [k0 [Hk0 ->]].
  rewrite bind_bind, bind_emit, with_calls_app.
  match goal with |- context [snd (?c ?s0)] =>
    assert (H : preserves (changes any_call any_table) c)
      by (frame; apply Hk0);
    destruct (H s0) as [[l [E _]] _]
  end.
  exists l. rewrite E. simpl. now rewrite <- !app_assoc.
Qed.

(** An activity and an athlete for examples. *)
Definition activity_record (type : string) (distance : pyval) (moving_time : Z)
    (average_speed : pyval) : pyval :=
  VDict [("id", VInt 1360128428); ("name", VStr "Morning Run");
         ("distance", distance); ("moving_time", VInt moving_time);
         ("average_speed", average_speed);
         ("total_elevation_gain", VInt 12); ("type", VStr type);
         ("start_date", VStr "2018-02-16T14:52:54Z")].

Definition morning_run (distance : pyval) (moving_time : Z) : pyval :=
  activity_record "Run" distance moving_time (VFloat (Float.of_Z 3)).

Definition marianne : pyval :=
  VDict [("id", VInt 134815); ("firstname", VStr "Marianne");
         ("lastname", VStr "Teutenberg");
         ("profile_medium", VStr "https://example.org/medium.jpg")].

(** Strava serves the run and the athlete whatever the token, Discord
    accepts every message. *)
Definition online (t : Z) : World :=
  with_discord (fun _ => Ok 42) (fun _ _ => Ok tt)
    (with_strava (morning_run (VInt 5000) 1500) marianne (fun _ => Ok 1518792774000000)
       (offline t)).

Lemma refresh_failure_reaches_fetch_witness :
  exists l,
    calls (snd (post_message (answering 401 VNone (online 1700000000000001))
                  activity_event one_athlete))
    = calls one_athlete
      ++ [GetItem Users (VInt 134815); OauthToken (VStr "refresh-1");
          GetActivity (VInt 1360128428) (refresh_failure 401)] ++ l.
Proof.
  assert (Hrange : datetime_min <= 1700000000 <= datetime_max)
    by (unfold datetime_min, datetime_max; lia).
  assert (Hpast : 1700000000 * 1000000 < now (answering 401 VNone (online 1700000000000001)))
    by (simpl; lia).
  assert (Hstatus : status_code {| status_code := 401; json := Ok VNone |} <> 200)
    by (simpl; lia).
  exact (proj2 (refresh_failure_reaches_fetch
                  (answering 401 VNone (online 1700000000000001))
                  activity_event (VStr "activity") (VInt 1360128428) (VStr "create")
                  (VInt 134815) 134815 one_athlete stored_credential 1700000000
                  (VStr "refresh-1") {| status_code := 401; json := Ok VNone |}
                  eq_refl eq_refl eq_refl eq_refl eq_refl eq_refl eq_refl eq_refl
                  Hrange eq_refl Hpast eq_refl Hstatus)).
Defined.

(** With Strava serving the records all the same, the run after a failed
    refresh goes on to post the message and to write its record. *)
Lemma refresh_failure_still_posts :
  exists embed,
    post_message (answering 401 VNone (online 1700000000000001)) activity_event one_athlete
    = (Ok 200,
       {| users := users one_athlete;
          messages := {[ 1360128428 := [("activity_id", VInt 1360128428);
                                        ("message_id", VInt 42)] ]};
          calls := [GetItem Users (VInt 134815); OauthToken (VStr "refresh-1");
                    GetActivity (VInt 1360128428) (refresh_failure 401);
                    GetAthlete (refresh_failure 401);
                    WebhookSend embed;
                    PutItem Messages [("activity_id", VInt 1360128428);
                                      ("message_id", VInt 42)]] |}).
Proof. eexists. vm_compute. reflexivity. Qed.

(** C8: for an [("activity", "update")] event whose activity has a record
    with a message id, once the credentials are resolved and the message is
    built, the processor submits one edit against the stored message id; the
    messages table is the one it started from, and the calls made are the
    credential calls, the two fetches, the lookup of the record and the
    edit: no send and no write to the messages table. *)
Theorem update_edits_in_place
    w payload object_id owner_id k s s1 access_token activity athlete embed
    (record : item) message_id :
  getitem payload "object_type" = Ok (VStr "activity") ->
  getitem payload "object_id" = Ok object_id ->
  getitem payload "aspect_type" = Ok (VStr "update") ->
  getitem payload "owner_id" = Ok owner_id ->
  key_of object_id = Ok k ->
  messages s !! k = Some record ->
  dict_get record "message_id" = Some message_id ->
  truthy message_id = true ->
  get_token_for_athlete w owner_id s = (Ok access_token, s1) ->
  get_activity w object_id access_token = Ok activity ->
  get_athlete w access_token = Ok athlete ->
  build_embed w activity athlete = Ok embed ->
  post_message w payload s
  = (let? _ := webhook_edit w message_id embed in Ok 200,
     with_calls s1 [GetActivity object_id access_token; GetAthlete access_token;
                    GetItem Messages object_id; WebhookEdit message_id embed])
  /\ messages s1 = messages s
  /\ exists l, calls s1 = calls s ++ l /\ Forall credential_call l.
Proof.
  intros Hty Hid Hasp Hown Hk Hrec Hmid Htrue Htoken Hactivity Hathlete Hembed.
  pose proof (get_token_for_athlete_frame w owner_id s) as [[l [E F]] [_ Hm]].
  rewrite Htoken in E, Hm. simpl in E, Hm.
  assert (Hsame : messages s1 = messages s) by (apply Hm; discriminate).
  split; [|split; [exact Hsame | exists l; auto]].
  rewrite (post_message_run w payload (VStr "activity") object_id (VStr "update")
             owner_id Hty Hid Hasp Hown).
  unfold bind at 1. rewrite Htoken. unfold deliver. simpl eq_str. cbv iota.
  unfold build_webhook_message.
  rewrite ?bind_bind, bind_emit.
  rewrite ?bind_bind, (bind_lift_ok _ _ _ _ Hactivity).
  rewrite ?bind_bind, bind_emit.
  rewrite ?bind_bind, (bind_lift_ok _ _ _ _ Hathlete).
  rewrite ?bind_bind, (bind_lift_ok _ _ _ _ Hembed).
  unfold bind at 1.
  rewrite (update_with_record_edits w object_id k record message_id embed _ Hk)
    by (simpl; try rewrite Hsame; eauto).
  rewrite !with_calls_app. simpl app.
  destruct (webhook_edit w message_id embed) as [[]|e]; reflexivity.
Qed.

Definition update_event : pyval :=
  VDict [("aspect_type", VStr "update"); ("object_id", VInt 1360128428);
         ("object_type", VStr "activity"); ("owner_id", VInt 134815)].

(** The athlete's run has been posted as message 42. *)
Definition delivered : state :=
  {| users := {[ 134815 := stored_credential ]};
     messages := {[ 1360128428 := [("activity_id", VInt 1360128428);
                                   ("message_id", VInt 42)] ]};
     calls := [] |}.

Definition morning_run_embed : Embed :=
  Eval vm_compute in
    match build_embed (online 0) (morning_run (VInt 5000) 1500) marianne with
    | Ok embed => embed
    | Raise _ => blank_embed
    end.

Lemma update_edits_in_place_witness :
  post_message (online 0) update_event delivered
  = (Ok 200,
     with_calls (with_calls delivered [GetItem Users (VInt 134815)])
       [GetActivity (VInt 1360128428) (VStr "access-1"); GetAthlete (VStr "access-1");
        GetItem Messages (VInt 1360128428); WebhookEdit (VInt 42) morning_run_embed])
  /\ messages (with_calls delivered [GetItem Users (VInt 134815)]) = messages delivered.
Proof.
  destruct (update_edits_in_place (online 0) update_event (VInt 1360128428) (VInt 134815)
              1360128428 delivered (with_calls delivered [GetItem Users (VInt 134815)])
              (VStr "access-1") (morning_run (VInt 5000) 1500) marianne morning_run_embed
              [("activity_id", VInt 1360128428); ("message_id", VInt 42)] (VInt 42)
              eq_refl eq_refl eq_refl eq_refl eq_refl eq_refl eq_refl eq_refl
              eq_refl eq_refl eq_refl eq_refl) as [Hrun [Hsame _]].
  split; [exact Hrun | exact Hsame].
Defined.

(** ** The display computations *)

Definition float_10000 : spec_float := Float.of_Z 10000.
Definition float_3 : spec_float := Float.of_Z 3.

(** The distance field, [f"{activity_distance_km} km"]. *)
Definition distance_field (activity : pyval) : result string :=
  let? km := activity_distance_km activity in
  Ok (Text.float_repr km +:+ " km").

(** The speed field, [f"{activity_speed_kmh} km/h"]. *)
Definition speed_field (activity : pyval) : result string :=
  let? kmh := activity_speed_kmh activity in
  Ok (Text.float_repr kmh +:+ " km/h").

(** The pace field, up to the unit. *)
Definition pace_field (activity : pyval) : result string :=
  let? km := activity_distance_km activity in
  activity_pace activity km.

(** [y] is [x] rounded to [ndigits] decimals, as the display rules word it:
    [y] is the float nearest to [k / 10^ndigits], for a whole number [k] of
    units of the last decimal that is at most half a unit away from the
    exact value of [x]. Zeros, infinities and NaN are left as they are. *)
Definition rounded_to (ndigits : Z) (x y : spec_float) : Prop :=
  match x with
  | S754_finite s m e =>
      let '(n, d) := Float.fraction m e in
      exists k, 0 <= k
                /\ 2 * Z.abs (n * 10 ^ ndigits - k * d) <= d
                /\ y = match k with
                       | Zpos p => Float.nearest s p (Z.to_pos (10 ^ ndigits))
                       | _ => S754_zero s
                       end
  | _ => y = x
  end.

(** The moving time as the display rule words it: [H:MM:SS] from one hour
    up, [M:SS] below. *)
Definition clock (t : Z) : string :=
  if 3600 <=? t
  then Text.of_Z (t / 3600) +:+ ":" +:+ Text.format_02d (t / 60 mod 60)
         +:+ ":" +:+ Text.format_02d (t mod 60)
  else Text.of_Z (t / 60) +:+ ":" +:+ Text.format_02d (t mod 60).

Lemma round_half_even_is_nearest n d :
  0 < d -> 0 <= n ->
  0 <= Float.round_half_even n d
  /\ 2 * Z.abs (n - Float.round_half_even n d * d) <= d.
Proof.
  intros Hd Hn. unfold Float.round_half_even.
  pose proof (Z.div_mod n d ltac:(lia)) as Hdm.
  pose proof (Z.mod_pos_bound n d Hd) as Hr.
  pose proof (Z.div_pos n d Hn Hd) as Hq.
  set (q := n / d) in *. set (r := n mod d) in *.
  destruct (Z.compare_spec (2 * r) d) as [E|E|E];
    [destruct (Z.even q)|..]; split; try lia; nia.
Qed.

Lemma fraction_pos m e :
  let '(n, d) := Float.fraction m e in 0 < n /\ 0 < d.
Proof.
  unfold Float.fraction. destruct e as [|p|p].
  - simpl. lia.
  - pose proof (Z.pow_pos_nonneg 2 (Zpos p) ltac:(lia) ltac:(lia)). split; [nia|lia].
  - pose proof (Z.pow_pos_nonneg 2 (Zpos p) ltac:(lia) ltac:(lia)). split; lia.
Qed.

(** [round(x, ndigits)] rounds to [ndigits] decimals. *)
Lemma round_is_rounded x ndigits :
  0 <= ndigits -> rounded_to ndigits x (Float.round x ndigits).
Proof.
  intros Hnd. destruct x as [s|s| |s m e]; try reflexivity.
  unfold rounded_to, Float.round.
  pose proof (fraction_pos m e) as Hf. destruct (Float.fraction m e) as [n d].
  destruct Hf as [Hn Hd].
  pose proof (Z.pow_pos_nonneg 10 ndigits ltac:(lia) Hnd) as Hp.
  destruct (round_half_even_is_nearest (n * 10 ^ ndigits) d Hd ltac:(nia)) as [Hk Hnear].
  exists (Float.round_half_even (n * 10 ^ ndigits) d).
  split; [exact Hk|]. split; [exact Hnear|].
  destruct (Float.round_half_even (n * 10 ^ ndigits) d); reflexivity.
Qed.

Lemma moving_time_is_clock activity t :
  getitem activity "moving_time" = Ok (VInt t) -> 0 <= t ->
  activity_moving_time activity = Ok (clock t).
Proof.
  intros Hmt Ht. unfold activity_moving_time, clock. rewrite Hmt.
  cbn [rbind as_number]. cbv zeta. f_equal.
  assert (Hm : t mod 3600 / 60 = t / 60 mod 60) by (Z.div_mod_to_equations; lia).
  assert (Hs : t mod 3600 mod 60 = t mod 60) by (Z.div_mod_to_equations; lia).
  rewrite Hm, Hs.
  destruct (Z.leb_spec 3600 t) as [Hlong|Hshort].
  - destruct (Z.eqb_spec (t / 3600) 0) as [E|E]; [|reflexivity].
    exfalso. revert E. Z.div_mod_to_equations. lia.
  - assert (E : t / 3600 = 0) by (apply Z.div_small; lia).
    rewrite E. simpl negb. cbv iota.
    assert (E' : t / 60 mod 60 = t / 60) by (Z.div_mod_to_equations; lia).
    now rewrite E'.
Qed.

Definition float_3_33 : spec_float := Float.nearest false 333 100.

(** C5: the display computations follow the rules of the specification and
    give its vectors. The distance field is the metres over 1000 rounded to
    two decimals, then [" km"]: 10000 m (a JSON float or integer) displays
    as "10.0 km". The moving time of [t >= 0] seconds is [H:MM:SS] from one
    hour up and [M:SS] below: 3725 s displays as "1:02:05", 125 s as "2:05".
    The speed field is the metres per second times 3.6 rounded to one
    decimal, then [" km/h"]: 3.0 m/s displays as "10.8 km/h". These are the
    fields of the message built for such an activity. The rounding shows on
    12346 m ("12.35 km"), on a marathon ("42.2 km"), on 1005 m ("1.0 km",
    the float of 1.005 being below it) and on 3.33 m/s ("12.0 km/h"), also
    as fields of a message. *)
Theorem display_vectors :
  (distance_field (VDict [("distance", VFloat float_10000)]) = Ok "10.0 km"
   /\ distance_field (VDict [("distance", VInt 10000)]) = Ok "10.0 km"
   /\ activity_moving_time (VDict [("moving_time", VInt 3725)]) = Ok "1:02:05"
   /\ activity_moving_time (VDict [("moving_time", VInt 125)]) = Ok "2:05"
   /\ speed_field (VDict [("average_speed", VFloat float_3)]) = Ok "10.8 km/h"
   /\ (let? embed := build_embed (online 0)
                       (activity_record "Ride" (VFloat float_10000) 3725 (VFloat float_3))
                       marianne in
       Ok (map (fun f => (field_name f, field_value f)) (fields embed)))
      = Ok [("Distance", "10.0 km"); ("Moving Time", "1:02:05");
            ("Average Speed", "10.8 km/h"); ("Elevation", "12 m")])
  /\ (forall activity distance q,
        getitem activity "distance" = Ok distance ->
        truediv distance (VInt 1000) = Ok q ->
        exists km, rounded_to 2 q km
                   /\ distance_field activity = Ok (Text.float_repr km +:+ " km"))
  /\ (forall activity t,
        getitem activity "moving_time" = Ok (VInt t) -> 0 <= t ->
        activity_moving_time activity = Ok (clock t))
  /\ (forall activity average_speed x,
        getitem activity "average_speed" = Ok average_speed ->
        mul_float average_speed lit_3_6 = Ok x ->
        exists kmh, rounded_to 1 x kmh
                    /\ speed_field activity = Ok (Text.float_repr kmh +:+ " km/h"))
  /\ (distance_field (VDict [("distance", VInt 12346)]) = Ok "12.35 km"
      /\ distance_field (VDict [("distance", VInt 42195)]) = Ok "42.2 km"
      /\ distance_field (VDict [("distance", VInt 1005)]) = Ok "1.0 km"
      /\ speed_field (VDict [("average_speed", VFloat float_3_33)]) = Ok "12.0 km/h"
      /\ (let? embed := build_embed (online 0)
                          (activity_record "Ride" (VInt 12346) 3725 (VFloat float_3_33))
                          marianne in
          Ok (map (fun f => (field_name f, field_value f)) (fields embed)))
         = Ok [("Distance", "12.35 km"); ("Moving Time", "1:02:05");
               ("Average Speed", "12.0 km/h"); ("Elevation", "12 m")]).
Proof.
  split; [repeat split; vm_compute; reflexivity|].
  split; [|split; [|split]].
  - intros activity distance q Hget Hq. exists (Float.round q 2).
    split; [apply round_is_rounded; lia|].
    unfold distance_field, activity_distance_km. rewrite Hget. cbn [rbind].
    rewrite Hq. reflexivity.
  - exact moving_time_is_clock.
  - intros activity average_speed x Hget Hx. exists (Float.round x 1).
    split; [apply round_is_rounded; lia|].
    unfold speed_field, activity_speed_kmh. rewrite Hget. cbn [rbind].
    rewrite Hx. reflexivity.
  - repeat split; vm_compute; reflexivity.
Qed.

Lemma display_vectors_witness :
  (exists km, rounded_to 2 (Float.nearest false 12346 1000) km
              /\ distance_field (VDict [("distance", VInt 12346)])
                 = Ok (Text.float_repr km +:+ " km"))
  /\ activity_moving_time (VDict [("moving_time", VInt 3725)]) = Ok (clock 3725)
  /\ (exists kmh, rounded_to 1 (Float.mul float_3_33 lit_3_6) kmh
                  /\ speed_field (VDict [("average_speed", VFloat float_3_33)])
                     = Ok (Text.float_repr kmh +:+ " km/h")).
Proof.
  destruct display_vectors as (_ & Hdistance & Htime & Hspeed & _).
  split; [|split].
  - apply (Hdistance (VDict [("distance", VInt 12346)]) (VInt 12346)); reflexivity.
  - apply (Htime (VDict [("moving_time", VInt 3725)]) 3725); [reflexivity|lia].
  - apply (Hspeed (VDict [("average_speed", VFloat float_3_33)]) (VFloat float_3_33));
      reflexivity.
Defined.

(** ** Binary64 rounding *)

(** *** Digits *)

Lemma digits2_pos_size p : digits2_pos p = Pos.size p.
Proof. induction p; simpl; congruence. Qed.

Lemma Zdigits2_log2 z : 0 < z -> Zdigits2 z = Z.log2 z + 1.
Proof.
  destruct z as [|p|p]; try lia. intros _. simpl. rewrite digits2_pos_size.
  destruct p; simpl; lia.
Qed.

Lemma Zdigits2_nonneg z : 0 <= Zdigits2 z.
Proof. destruct z; simpl; lia. Qed.

Lemma Zdigits2_bounds z : 0 < z -> 2 ^ (Zdigits2 z - 1) <= z < 2 ^ Zdigits2 z.
Proof.
  intros Hz. rewrite Zdigits2_log2 by exact Hz.
  replace (Z.log2 z + 1 - 1) with (Z.log2 z) by lia.
  replace (Z.log2 z + 1) with (Z.succ (Z.log2 z)) by lia.
  apply Z.log2_spec. exact Hz.
Qed.

Lemma Zdigits2_unique z d : 2 ^ (d - 1) <= z < 2 ^ d -> 0 < z -> Zdigits2 z = d.
Proof.
  intros H Hz. rewrite Zdigits2_log2 by exact Hz.
  assert (0 < d).
  { destruct (Z.lt_trichotomy d 0) as [Hd|[Hd|Hd]]; try lia.
    - rewrite (Z.pow_neg_r 2 d) in H by lia. lia.
    - subst. simpl in H. lia. }
  enough (Z.log2 z = d - 1) by lia.
  apply Z.log2_unique; [lia|]. replace (Z.succ (d - 1)) with d by lia. exact H.
Qed.

Lemma Zdigits2_le z d : 0 <= z -> z < 2 ^ d -> 0 <= d -> Zdigits2 z <= d.
Proof.
  intros Hz Hlt Hd. destruct (Z.eq_dec z 0) as [->|Hne]; [simpl; lia|].
  destruct (Z.le_gt_cases (Zdigits2 z) d) as [|Hgt]; [assumption|].
  pose proof (Zdigits2_bounds z ltac:(lia)) as [Hlo _].
  assert (2 ^ d <= 2 ^ (Zdigits2 z - 1)) by (apply Z.pow_le_mono_r; lia). lia.
Qed.

Lemma Zdigits2_ge z d : 2 ^ (d - 1) <= z -> 0 < d -> d <= Zdigits2 z.
Proof.
  intros Hlo Hd.
  assert (0 < z) by (pose proof (Z.pow_pos_nonneg 2 (d - 1)); lia).
  destruct (Z.le_gt_cases d (Zdigits2 z)) as [|Hgt]; [assumption|].
  pose proof (Zdigits2_bounds z ltac:(lia)) as [_ Hhi].
  assert (2 ^ Zdigits2 z <= 2 ^ (d - 1)) by (apply Z.pow_le_mono_r; lia). lia.
Qed.

(** *** Shifting right with a round bit and a sticky bit *)

(** [mrs] holds the quotient [a / b] and the position of the remainder
    against the half. *)
Definition encodes (mrs : shr_record) (a b : Z) : Prop :=
  shr_m mrs = a / b
  /\ shr_r mrs = (b <=? 2 * (a mod b))
  /\ shr_s mrs = negb (a mod b =? 0) && negb (2 * (a mod b) =? b).

Lemma shr_1_nonneg m r s :
  0 <= m ->
  shr_1 {| shr_m := m; shr_r := r; shr_s := s |}
  = {| shr_m := m / 2; shr_r := Z.odd m; shr_s := r || s |}.
Proof.
  intros Hm. destruct m as [|p|p]; [reflexivity| |lia].
  destruct p as [p|p|]; simpl shr_1; f_equal.
  - apply Z.div_unique with (r := 1); lia.
  - apply Z.div_unique with (r := 0); lia.
Qed.

Lemma encodes_shr_1 mrs a b :
  0 <= a -> 0 < b -> encodes mrs a b -> encodes (shr_1 mrs) a (2 * b).
Proof.
  intros Ha Hb [Hm [Hr Hs]]. destruct mrs as [m r s]. simpl in Hm, Hr, Hs.
  assert (Hm0 : 0 <= m) by (subst m; apply Z.div_pos; lia).
  rewrite shr_1_nonneg by exact Hm0. unfold encodes. simpl.
  assert (Hdiv : a / (2 * b) = m / 2).
  { subst m. rewrite (Z.mul_comm 2 b). symmetry. apply Z.div_div; lia. }
  assert (Hmod : a mod (2 * b) = a mod b + b * (m mod 2)).
  { subst m. rewrite (Z.mul_comm 2 b). apply Z.rem_mul_r; lia. }
  pose proof (Z.mod_pos_bound a b Hb) as Ht.
  rewrite Hdiv, Hmod. split; [reflexivity|].
  rewrite Zodd_mod. subst r s.
  pose proof (Z.mod_pos_bound m 2 ltac:(lia)) as H2.
  assert (Hcase : m mod 2 = 0 \/ m mod 2 = 1) by lia.
  destruct Hcase as [-> | ->]; simpl Z.eqb; cbv iota.
  - split.
    + symmetry. apply Z.leb_gt. lia.
    + destruct (Z.leb_spec b (2 * (a mod b))), (Z.eqb_spec (a mod b) 0),
        (Z.eqb_spec (2 * (a mod b)) b),
        (Z.eqb_spec (a mod b + b * 0) 0),
        (Z.eqb_spec (2 * (a mod b + b * 0)) (2 * b)); simpl; try reflexivity; lia.
  - split.
    + symmetry. apply Z.leb_le. lia.
    + destruct (Z.leb_spec b (2 * (a mod b))), (Z.eqb_spec (a mod b) 0),
        (Z.eqb_spec (2 * (a mod b)) b),
        (Z.eqb_spec (a mod b + b * 1) 0),
        (Z.eqb_spec (2 * (a mod b + b * 1)) (2 * b)); simpl; try reflexivity; lia.
Qed.

Lemma pow2_xO p : 2 ^ Z.pos p~0 = 2 ^ Zpos p * 2 ^ Zpos p.
Proof. rewrite (Pos2Z.inj_xO p). apply Z.pow_twice_r. Qed.

Lemma pow2_xI p : 2 ^ Z.pos p~1 = 2 * (2 ^ Zpos p * 2 ^ Zpos p).
Proof.
  rewrite (Pos2Z.inj_xI p), Z.pow_add_r by lia.
  rewrite Z.pow_twice_r, Z.pow_1_r. ring.
Qed.

Lemma encodes_iter_shr_1 p : forall mrs a b,
  0 <= a -> 0 < b -> encodes mrs a b ->
  encodes (SpecFloat.iter_pos shr_1 p mrs) a (b * 2 ^ Zpos p).
Proof.
  induction p as [p IH|p IH|]; intros mrs a b Ha Hb H; simpl SpecFloat.iter_pos.
  - replace (b * 2 ^ Z.pos p~1) with ((2 * b) * 2 ^ Zpos p * 2 ^ Zpos p).
    + apply IH; [lia| |]. { pose proof (Z.pow_pos_nonneg 2 (Zpos p)); nia. }
      apply IH; [lia|lia|]. now apply encodes_shr_1.
    + rewrite pow2_xI. ring.
  - replace (b * 2 ^ Z.pos p~0) with (b * 2 ^ Zpos p * 2 ^ Zpos p).
    + apply IH; [lia| |]. { pose proof (Z.pow_pos_nonneg 2 (Zpos p)); nia. }
      now apply IH.
    + rewrite pow2_xO. ring.
  - replace (b * 2 ^ 1) with (2 * b) by (simpl; lia). now apply encodes_shr_1.
Qed.

(** *** Rounding a quotient *)

Abbreviation fexp64 := (fexp Float.prec Float.emax).

Lemma fexp64_eq e : fexp64 e = Z.max (e - 53) (-1074).
Proof. reflexivity. Qed.

Lemma fexp64_mono e e' : e <= e' -> fexp64 e <= fexp64 e'.
Proof. rewrite !fexp64_eq. lia. Qed.

(** The location of [a / b] between [a / b] and its successor. *)
Definition loc_of (a b : Z) : location :=
  if a mod b =? 0 then loc_Exact else loc_Inexact (2 * (a mod b) ?= b).

Lemma encodes_loc_of a b :
  0 < b -> encodes (shr_record_of_loc (a / b) (loc_of a b)) a b.
Proof.
  intros Hb. pose proof (Z.mod_pos_bound a b Hb) as Ht. unfold loc_of, encodes.
  destruct (Z.eqb_spec (a mod b) 0) as [E|E]; simpl.
  - rewrite E. repeat split. symmetry. apply Z.leb_gt. lia.
  - destruct (Z.compare_spec (2 * (a mod b)) b) as [C|C|C]; simpl; repeat split;
      destruct (Z.leb_spec b (2 * (a mod b))), (Z.eqb_spec (2 * (a mod b)) b);
      try reflexivity; lia.
Qed.

Lemma shr_encodes mrs a b e n :
  0 <= a -> 0 < b -> encodes mrs a b ->
  encodes (fst (shr mrs e n)) a (b * 2 ^ Z.max 0 n)
  /\ snd (shr mrs e n) = e + Z.max 0 n.
Proof.
  intros Ha Hb H. destruct n as [|p|p]; simpl.
  - rewrite Z.mul_1_r, Z.add_0_r. auto.
  - split; [|reflexivity]. now apply encodes_iter_shr_1.
  - rewrite Z.mul_1_r, Z.add_0_r. auto.
Qed.

(** The rounded quotient is the quotient or its successor, and the quotient
    itself when the division is exact. *)
Lemma round_nearest_even_bounds mrs a b :
  0 < b -> encodes mrs a b ->
  let N := round_nearest_even (shr_m mrs) (loc_of_shr_record mrs) in
  a / b <= N <= a / b + 1 /\ (a mod b = 0 -> N = a / b).
Proof.
  intros Hb [Hm [Hr Hs]]. destruct mrs as [m r s]. simpl in *. subst m.
  pose proof (Z.mod_pos_bound a b Hb) as Ht.
  destruct r, s; simpl; split; try lia;
    try (destruct (Z.even (a / b)); lia);
    intros E; rewrite E in Hr, Hs; simpl in Hr, Hs;
    try discriminate;
    destruct (Z.leb_spec b (2 * 0)); try discriminate; lia.
Qed.

Lemma le_div_succ a b K :
  0 < b -> a <= K * b -> a mod b <> 0 -> a / b + 1 <= K.
Proof.
  intros Hb Hle Hne.
  pose proof (Z.div_mod a b ltac:(lia)) as E.
  pose proof (Z.mod_pos_bound a b Hb) as Ht.
  assert (a / b < K) by nia. lia.
Qed.

Lemma le_div a b K : 0 < b -> a <= K * b -> a / b <= K.
Proof.
  intros Hb Hle.
  pose proof (Z.div_mod a b ltac:(lia)) as E.
  pose proof (Z.mod_pos_bound a b Hb) as Ht. nia.
Qed.

Lemma bounded_canonical mf ef :
  bounded Float.prec Float.emax mf ef = true ->
  fexp64 (Zpos (digits2_pos mf) + ef) = ef /\ ef <= 971.
Proof.
  unfold bounded, canonical_mantissa. intros H.
  apply andb_true_iff in H as [H1 H2].
  apply Z.eqb_eq in H1. apply Z.leb_le in H2. split; [exact H1|exact H2].
Qed.

(** Rounding never passes a representable number: when the quotient
    [a / b], scaled by [2^e], is at most the float [mf * 2^ef], so is the
    result of rounding it. *)
Lemma binary_round_aux_le s a b e mf ef :
  0 <= a -> 0 < b ->
  e <= fexp64 (Zdigits2 (a / b) + e) ->
  bounded Float.prec Float.emax mf ef = true ->
  e <= ef ->
  a <= b * (Zpos mf * 2 ^ (ef - e)) ->
  match binary_round_aux Float.prec Float.emax s (a / b) e (loc_of a b) with
  | S754_zero s' => s' = s
  | S754_finite s' m e' => s' = s /\ e' <= ef /\ Zpos m <= Zpos mf * 2 ^ (ef - e')
  | _ => False
  end.
Proof.
  intros Ha Hb Hfit Hbounded Hee Hle.
  destruct (bounded_canonical mf ef Hbounded) as [Hcanon Hef].
  set (q := a / b) in *.
  assert (Hq : 0 <= q) by (apply Z.div_pos; lia).
  set (e1 := fexp64 (Zdigits2 q + e)) in *.
  assert (Hpow : forall k, 0 <= k -> 0 < 2 ^ k) by (intros; apply Z.pow_pos_nonneg; lia).
  (* the threshold is a multiple of the rounding unit *)
  assert (He1 : e1 <= ef).
  { unfold e1. rewrite fexp64_eq. rewrite fexp64_eq in Hcanon.
    destruct (Z.max_spec (Zdigits2 q + e - 53) (-1074)) as [[_ ->]|[Hc ->]]; [lia|].
    assert (Hq0 : 0 < q).
    { destruct (Z.eq_dec q 0) as [E|]; [|lia]. exfalso.
      unfold e1 in Hfit. rewrite fexp64_eq, E in Hfit. rewrite E in Hc.
      simpl Zdigits2 in *. lia. }
    pose proof (Zdigits2_bounds q Hq0) as [Hlo _].
    pose proof (Zdigits2_bounds (Zpos mf) ltac:(lia)) as [_ Hhi]. simpl Zdigits2 in Hhi.
    assert (Hqle : q <= Zpos mf * 2 ^ (ef - e)).
    { apply le_div; [lia|]. rewrite Z.mul_comm. exact Hle. }
    assert (Hlt : 2 ^ (Zdigits2 q - 1) < 2 ^ (Zpos (digits2_pos mf) + (ef - e))).
    { rewrite Z.pow_add_r by lia. pose proof (Hpow (ef - e) ltac:(lia)). nia. }
    apply Z.pow_lt_mono_r_iff in Hlt; lia. }
  assert (Hn : 0 <= e1 - e) by lia.
  set (K := Zpos mf * 2 ^ (ef - e1)).
  assert (HK : Zpos mf * 2 ^ (ef - e) = K * 2 ^ (e1 - e)).
  { unfold K. rewrite <- Z.mul_assoc, <- Z.pow_add_r by lia. do 2 f_equal. lia. }
  (* first shift *)
  unfold binary_round_aux, shr_fexp. fold q. fold e1.
  destruct (shr_encodes (shr_record_of_loc q (loc_of a b)) a b e (e1 - e) Ha Hb
              (encodes_loc_of a b Hb)) as [Henc1 Hexp1].
  rewrite Z.max_r in Henc1, Hexp1 by exact Hn.
  destruct (shr (shr_record_of_loc q (loc_of a b)) e (e1 - e)) as [mrs1 e1'].
  simpl in Henc1, Hexp1. replace e1' with e1 by lia. clear Hexp1 e1'.
  set (n := e1 - e) in *.
  assert (HB : 0 < b * 2 ^ n) by (pose proof (Hpow n Hn); nia).
  destruct (round_nearest_even_bounds mrs1 a (b * 2 ^ n) HB Henc1) as [[HNlo HNhi] HNex].
  set (N := round_nearest_even (shr_m mrs1) (loc_of_shr_record mrs1)) in *.
  assert (HaK : a <= K * (b * 2 ^ n)) by (rewrite HK in Hle; nia).
  assert (HNK : N <= K).
  { destruct (Z.eq_dec (a mod (b * 2 ^ n)) 0) as [E|E].
    - rewrite (HNex E). now apply le_div.
    - pose proof (le_div_succ a (b * 2 ^ n) K HB HaK E). lia. }
  assert (HN0 : 0 <= N) by (pose proof (Z.div_pos a (b * 2 ^ n) Ha HB); lia).
  (* second shift *)
  assert (HencN : encodes (shr_record_of_loc N loc_Exact) N 1).
  { unfold encodes. simpl. rewrite Z.div_1_r, Z.mod_1_r. auto. }
  destruct (shr_encodes (shr_record_of_loc N loc_Exact) N 1 e1
              (fexp64 (Zdigits2 N + e1) - e1) HN0 ltac:(lia) HencN) as [Henc2 Hexp2].
  destruct (shr (shr_record_of_loc N loc_Exact) e1 (fexp64 (Zdigits2 N + e1) - e1))
    as [mrs2 e2].
  simpl in Henc2, Hexp2. destruct Henc2 as [Hm2 _]. rewrite Z.mul_1_l in Hm2.
  set (n2 := Z.max 0 (fexp64 (Zdigits2 N + e1) - e1)) in *.
  assert (Hn2 : 0 <= n2) by (unfold n2; lia).
  assert (HK0 : 0 < K) by (unfold K; pose proof (Hpow (ef - e1) ltac:(lia)); nia).
  assert (He2 : e2 <= ef).
  { rewrite Hexp2. unfold n2.
    destruct (Z.max_spec 0 (fexp64 (Zdigits2 N + e1) - e1)) as [[_ ->]|[_ ->]]; [|lia].
    replace (e1 + (fexp64 (Zdigits2 N + e1) - e1)) with (fexp64 (Zdigits2 N + e1)) by lia.
    rewrite <- Hcanon. apply fexp64_mono.
    pose proof (Zdigits2_bounds (Zpos mf) ltac:(lia)) as [_ Hhi]. simpl Zdigits2 in Hhi.
    assert (Zdigits2 N <= Zpos (digits2_pos mf) + (ef - e1)); [|lia].
    apply Zdigits2_le; [lia| |lia].
    rewrite Z.pow_add_r by lia. unfold K in HNK.
    pose proof (Hpow (ef - e1) ltac:(lia)). nia. }
  assert (Hval : shr_m mrs2 * 2 ^ n2 <= N).
  { rewrite Hm2. pose proof (Hpow n2 Hn2).
    pose proof (Z.mul_div_le N (2 ^ n2) ltac:(lia)). lia. }
  destruct (shr_m mrs2) as [|m|m] eqn:Em.
  - reflexivity.
  - destruct (Z.leb_spec e2 (Float.emax - Float.prec)) as [_|Hover].
    + split; [reflexivity|]. split; [exact He2|].
      assert (Zpos m * 2 ^ n2 <= Zpos mf * 2 ^ (ef - e1)) by (fold K; lia).
      replace (ef - e1) with ((ef - e2) + n2) in H by lia.
      rewrite Z.pow_add_r, Z.mul_assoc in H by lia.
      pose proof (Hpow n2 Hn2). nia.
    + change (Float.emax - Float.prec) with 971 in Hover. lia.
  - pose proof (Z.div_pos N (2 ^ n2) HN0 (Hpow n2 Hn2)). lia.
Qed.

(** *** Division *)

Lemma new_location_loc b r :
  0 < b -> 0 <= r < b ->
  new_location b r = if r =? 0 then loc_Exact else loc_Inexact (2 * r ?= b).
Proof.
  intros Hb Hr. unfold new_location, new_location_even, new_location_odd.
  change (IntDef.Z.even b) with (Z.even b).
  destruct (Z.even b) eqn:Eb; cbv beta; [reflexivity|].
  destruct (Z.eqb_spec r 0) as [E|E]; [reflexivity|].
  assert (Hodd : Z.odd b = true) by (rewrite <- Z.negb_even, Eb; reflexivity).
  apply Z.odd_spec in Hodd as [c Hc].
  destruct (Z.compare_spec (2 * r + 1) b), (Z.compare_spec (2 * r) b);
    try reflexivity; lia.
Qed.

Lemma div_eucl_div_mod a b : Z.div_eucl a b = (a / b, a mod b).
Proof. unfold Z.div, Z.modulo. now destruct (Z.div_eucl a b). Qed.

(** The exponent [SFdiv_core_binary] divides at. *)
Definition div_exponent (m1 : positive) (e1 : Z) (m2 : positive) (e2 : Z) : Z :=
  Z.min (fexp64 (Zpos (digits2_pos m1) + e1 - (Zpos (digits2_pos m2) + e2))) (e1 - e2).

Lemma SFdiv_core_binary_spec m1 e1 m2 e2 :
  let e' := div_exponent m1 e1 m2 e2 in
  let a := Zpos m1 * 2 ^ (e1 - e2 - e') in
  SFdiv_core_binary Float.prec Float.emax (Zpos m1) e1 (Zpos m2) e2
  = (a / Zpos m2, e', loc_of a (Zpos m2))
  /\ 0 <= e1 - e2 - e'
  /\ e' <= fexp64 (Zdigits2 (a / Zpos m2) + e').
Proof.
  intros e' a. unfold SFdiv_core_binary. simpl Zdigits2.
  change (Z.min (fexp64 (Zpos (digits2_pos m1) + e1 - (Zpos (digits2_pos m2) + e2))) (e1 - e2))
    with e'.
  assert (Hs : 0 <= e1 - e2 - e') by (unfold e', div_exponent; lia).
  assert (Ha : (match e1 - e2 - e' with
                | Zpos _ => Z.shiftl (Zpos m1) (e1 - e2 - e')
                | Z0 => Zpos m1
                | Zneg _ => Z0
                end) = a).
  { unfold a. destruct (e1 - e2 - e') as [|p|p] eqn:E; [simpl; lia| |lia].
    apply Z.shiftl_mul_pow2. lia. }
  rewrite Ha, div_eucl_div_mod.
  pose proof (Z.mod_pos_bound a (Zpos m2) ltac:(lia)) as Hr.
  rewrite (new_location_loc (Zpos m2) (a mod Zpos m2) ltac:(lia) Hr).
  split; [reflexivity|].
  split; [exact Hs|].
  rewrite fexp64_eq.
  destruct (Z.le_gt_cases e' (-1074)) as [|Hbig]; [lia|].
  (* above the subnormal range the quotient has at least 53 digits *)
  assert (He' : e' <= Zpos (digits2_pos m1) + e1 - (Zpos (digits2_pos m2) + e2) - 53).
  { unfold e', div_exponent in *. rewrite fexp64_eq in *. lia. }
  pose proof (Zdigits2_bounds (Zpos m1) ltac:(lia)) as [Hlo1 _].
  pose proof (Zdigits2_bounds (Zpos m2) ltac:(lia)) as [_ Hhi2].
  simpl Zdigits2 in Hlo1, Hhi2.
  set (d1 := Zpos (digits2_pos m1)) in *. set (d2 := Zpos (digits2_pos m2)) in *.
  assert (Hq : 2 ^ 52 <= a / Zpos m2).
  { apply Z.div_le_lower_bound; [lia|].
    assert (Hpow : 2 ^ (d1 - 1) * 2 ^ (e1 - e2 - e') <= a).
    { unfold a. apply Z.mul_le_mono_nonneg_r; [apply Z.pow_nonneg; lia | exact Hlo1]. }
    rewrite <- Z.pow_add_r in Hpow by (unfold d1; lia).
    assert (2 ^ (d2 + 52) <= 2 ^ (d1 - 1 + (e1 - e2 - e')))
      by (apply Z.pow_le_mono_r; lia).
    rewrite Z.pow_add_r in H by (unfold d2; lia).
    assert (0 < 2 ^ 52) by reflexivity. nia. }
  assert (53 <= Zdigits2 (a / Zpos m2)) by (apply Zdigits2_ge; [exact Hq | lia]).
  lia.
Qed.

(** [x / y] is at most the float [mf * 2^ef] when the exact quotient is. *)
Lemma SFdiv_le sx mx ex sy my ey mf ef :
  let e' := div_exponent mx ex my ey in
  bounded Float.prec Float.emax mf ef = true ->
  e' <= ef ->
  Zpos mx * 2 ^ (ex - ey - e') <= Zpos my * (Zpos mf * 2 ^ (ef - e')) ->
  match Float.ieee_div (S754_finite sx mx ex) (S754_finite sy my ey) with
  | S754_zero s' => s' = xorb sx sy
  | S754_finite s' m e => s' = xorb sx sy /\ e <= ef /\ Zpos m <= Zpos mf * 2 ^ (ef - e)
  | _ => False
  end.
Proof.
  intros e' Hf He' Hle. unfold Float.ieee_div, SFdiv.
  destruct (SFdiv_core_binary_spec mx ex my ey) as [-> [Hs Hfit]]. fold e' in Hs, Hfit |- *.
  apply binary_round_aux_le; auto; lia.
Qed.

Lemma nearest_le s a b mf ef :
  let e' := div_exponent a 0 b 0 in
  bounded Float.prec Float.emax mf ef = true ->
  e' <= ef ->
  Zpos a * 2 ^ (- e') <= Zpos b * (Zpos mf * 2 ^ (ef - e')) ->
  match Float.nearest s a b with
  | S754_zero s' => s' = s
  | S754_finite s' m e => s' = s /\ e <= ef /\ Zpos m <= Zpos mf * 2 ^ (ef - e)
  | _ => False
  end.
Proof.
  intros e' Hf He' Hle. unfold Float.nearest.
  destruct (SFdiv_core_binary_spec a 0 b 0) as [-> [Hs Hfit]]. fold e' in Hs, Hfit |- *.
  replace (0 - 0 - e') with (- e') in * by lia.
  apply binary_round_aux_le; auto; lia.
Qed.
Definition float_1000 : spec_float := Float.of_Z 1000.
Definition float_5 : spec_float := Float.of_Z 5.

Lemma float_5_eq : float_5 = S754_finite false 5629499534213120 (-50).
Proof. vm_compute. reflexivity. Qed.

Lemma float_1000_eq : float_1000 = S754_finite false 8796093022208000 (-43).
Proof. vm_compute. reflexivity. Qed.

Lemma lt_float_5 mx ex :
  Float.ltb (S754_finite false mx ex) float_5 = true ->
  ex < -50 \/ (ex = -50 /\ Zpos mx < 5629499534213120).
Proof.
  rewrite float_5_eq. unfold Float.ltb, SFltb, SFcompare.
  destruct (Z.compare_spec ex (-50)) as [E|E|E]; try discriminate; [|lia].
  subst ex. destruct (Pos.compare_cont Eq mx 5629499534213120) eqn:C; try discriminate.
  intros _. right. split; [reflexivity|]. now apply Pos.compare_lt_iff in C.
Qed.

Lemma pow2_pos k : 0 <= k -> 0 < 2 ^ k.
Proof. intros. apply Z.pow_pos_nonneg; lia. Qed.

Lemma round_small_is_zero s m e :
  e <= -60 -> Zpos m <= 5764607523034234 * 2 ^ (-60 - e) ->
  Float.round (S754_finite s m e) 2 = S754_zero s.
Proof.
  intros He Hm. unfold Float.round, Float.fraction.
  destruct e as [|k|k]; try lia.
  assert (Hk : 60 <= Zpos k) by lia.
  set (j := -60 - Zneg k) in *.
  assert (Hj : 0 <= j) by (unfold j; lia).
  assert (Hpow : 2 ^ Zpos k = 1152921504606846976 * 2 ^ j).
  { replace (Zpos k) with (60 + j) by (unfold j; lia).
    rewrite Z.pow_add_r by lia. reflexivity. }
  pose proof (pow2_pos j Hj) as Hpos.
  set (P := 2 ^ Zpos k) in *. set (Q := 2 ^ j) in *.
  assert (Hsmall : 200 * Zpos m < P) by lia.
  change (10 ^ 2) with 100.
  unfold Float.round_half_even.
  rewrite Z.div_small, Z.mod_small by lia.
  destruct (Z.compare_spec (2 * (Zpos m * 100)) P); try lia. reflexivity.
Qed.

(** A valid float below 5 divided by 1000 stays at or below the largest
    float under 0.005. *)
Lemma short_quotient mx ex :
  bounded Float.prec Float.emax mx ex = true ->
  (ex < -50 \/ (ex = -50 /\ Zpos mx < 5629499534213120)) ->
  let e' := div_exponent mx ex 8796093022208000 (-43) in
  e' <= -60
  /\ Zpos mx * 2 ^ (ex - -43 - e')
     <= 8796093022208000 * (5764607523034234 * 2 ^ (-60 - e')).
Proof.
  intros Hvalid Hlt. cbv zeta.
  destruct (bounded_canonical mx ex Hvalid) as [Hcanon _]. rewrite fexp64_eq in Hcanon.
  pose proof (Zdigits2_bounds (Zpos mx) ltac:(lia)) as [_ Hhi]. simpl Zdigits2 in Hhi.
  unfold div_exponent. rewrite fexp64_eq.
  change (Zpos (digits2_pos 8796093022208000)) with 53.
  set (d1 := Zpos (digits2_pos mx)) in *.
  set (e' := Z.min (Z.max (d1 + ex - (53 + -43) - 53) (-1074)) (ex - -43)).
  assert (Hd1 : 1 <= d1 <= 53) by (unfold d1; lia).
  assert (Hmx : Zpos mx < 9007199254740992).
  { eapply Z.lt_le_trans; [exact Hhi|].
    change 9007199254740992 with (2 ^ 53). apply Z.pow_le_mono_r; lia. }
  assert (He' : e' <= -60) by (unfold e'; lia).
  assert (Hs : 0 <= ex - -43 - e') by (unfold e'; lia).
  split; [exact He'|].
  clearbody e'. clear Hhi Hcanon Hvalid.
  destruct (Z.le_gt_cases 0 (ex + 103)) as [Hc|Hc].
  - replace (ex - -43 - e') with ((-60 - e') + (ex + 103)) by lia.
    rewrite Z.pow_add_r by lia.
    pose proof (pow2_pos (-60 - e') ltac:(lia)) as HU.
    pose proof (pow2_pos (ex + 103) Hc) as HV.
    assert (HA : Zpos mx * 2 ^ (ex + 103) <= 8796093022208000 * 5764607523034234).
    { destruct Hlt as [Hlt|[-> Hlt]].
      - assert (HW : 2 ^ (ex + 103) <= 2 ^ 52) by (apply Z.pow_le_mono_r; lia).
        change (2 ^ 52) with 4503599627370496 in HW.
        set (V := 2 ^ (ex + 103)) in *.
        apply Z.le_trans with (9007199254740992 * 4503599627370496); [|lia].
        apply Z.mul_le_mono_nonneg; lia.
      - change (2 ^ (-50 + 103)) with 9007199254740992. lia. }
    set (U := 2 ^ (-60 - e')) in *. set (V := 2 ^ (ex + 103)) in *.
    replace (Zpos mx * (U * V)) with (U * (Zpos mx * V)) by ring.
    replace (8796093022208000 * (5764607523034234 * U))
      with (U * (8796093022208000 * 5764607523034234)) by ring.
    apply Z.mul_le_mono_nonneg_l; lia.
  - replace (-60 - e') with ((ex - -43 - e') + (- ex - 103)) by lia.
    rewrite Z.pow_add_r by lia.
    pose proof (pow2_pos (ex - -43 - e') Hs) as HU.
    pose proof (pow2_pos (- ex - 103) ltac:(lia)) as HV.
    set (U := 2 ^ (ex - -43 - e')) in *. set (V := 2 ^ (- ex - 103)) in *.
    replace (8796093022208000 * (5764607523034234 * (U * V)))
      with (U * (8796093022208000 * 5764607523034234 * V)) by ring.
    rewrite (Z.mul_comm (Zpos mx) U).
    apply Z.mul_le_mono_nonneg_l; [lia|].
    apply Z.le_trans with (8796093022208000 * 5764607523034234 * 1); [lia|].
    apply Z.mul_le_mono_nonneg_l; lia.
Qed.

(** A float distance below 5 m displays as 0.0 km. *)
Lemma short_float_distance mx ex :
  bounded Float.prec Float.emax mx ex = true ->
  Float.ltb (S754_finite false mx ex) float_5 = true ->
  Float.round (Float.ieee_div (S754_finite false mx ex) float_1000) 2 = S754_zero false.
Proof.
  intros Hvalid Hlt. apply lt_float_5 in Hlt.
  destruct (short_quotient mx ex Hvalid Hlt) as [He' Hineq].
  rewrite float_1000_eq.
  pose proof (SFdiv_le false mx ex false 8796093022208000 (-43)
                5764607523034234 (-60) eq_refl He' Hineq) as Hdiv.
  destruct (Float.ieee_div (S754_finite false mx ex) (S754_finite false 8796093022208000 (-43)))
    as [s'|s'| |s' m e]; try contradiction.
  - rewrite Hdiv. reflexivity.
  - destruct Hdiv as [-> [He Hm]]. apply round_small_is_zero; assumption.
Qed.

(** *** Minutes *)

Lemma sixty_bound p :
  Zpos p < 2 ^ 63 ->
  let e' := div_exponent p 0 60 0 in
  e' <= 11 /\ Zpos p * 2 ^ (- e') <= 60 * (4503599627370496 * 2 ^ (11 - e')).
Proof.
  intros Hp e'.
  assert (He : e' <= 0) by (unfold e', div_exponent; lia).
  split; [lia|].
  replace (11 - e') with (11 + - e') by lia. rewrite Z.pow_add_r by lia.
  change (2 ^ 11) with 2048. change (2 ^ 63) with 9223372036854775808 in Hp.
  pose proof (pow2_pos (- e') ltac:(lia)). set (U := 2 ^ (- e')) in *.
  replace (60 * (4503599627370496 * (2048 * U))) with (553402322211286548480 * U) by ring.
  apply Z.mul_le_mono_nonneg_r; lia.
Qed.

Lemma nearest_60 s p :
  Zpos p < 2 ^ 63 ->
  Float.is_infinite (Float.nearest s p 60) = false
  /\ Float.sign (Float.nearest s p 60) = s.
Proof.
  intros Hp. destruct (sixty_bound p Hp) as [He Hle].
  pose proof (nearest_le s p 60 4503599627370496 11 eq_refl He Hle) as H.
  destruct (Float.nearest s p 60) as [s'|s'| |s' m e]; try contradiction.
  - now subst.
  - destruct H as [-> _]. split; reflexivity.
Qed.

(** [moving_time / 60] is defined for every moving time within 64 bits. *)
Lemma minutes_defined moving_time :
  Z.abs moving_time < 2 ^ 63 ->
  exists minutes, int_truediv moving_time 60 = Ok minutes
                  /\ Float.sign minutes = (moving_time <? 0).
Proof.
  intros Hmt. unfold int_truediv. change (60 =? 0) with false. cbv iota.
  destruct moving_time as [|p|p]; [now exists (S754_zero false)| |].
  - change (Float.nearest _ _ _) with (Float.nearest false p 60).
    destruct (nearest_60 false p ltac:(lia)) as [-> Hs]. eauto.
  - change (Float.nearest _ _ _) with (Float.nearest true p 60).
    destruct (nearest_60 true p ltac:(lia)) as [-> Hs]. eauto.
Qed.

(** *** Distances that display as zero *)

(** A distance below five metres: a JSON integer from 0 to 4, a float zero,
    or a valid positive float below 5.0. *)
Definition short_distance (distance : pyval) : bool :=
  match distance with
  | VInt z => (0 <=? z) && (z <? 5)
  | VFloat (S754_zero _) => true
  | VFloat (S754_finite false m e) =>
      bounded Float.prec Float.emax m e && Float.ltb (S754_finite false m e) float_5
  | _ => false
  end.

Lemma short_distance_displays_zero activity distance :
  getitem activity "distance" = Ok distance ->
  short_distance distance = true ->
  exists s, activity_distance_km activity = Ok (S754_zero s).
Proof.
  intros Hget Hshort. unfold activity_distance_km. rewrite Hget. cbn [rbind].
  destruct distance as [| |z|f| | |]; try discriminate.
  - simpl in Hshort. apply andb_true_iff in Hshort as [H0 H5].
    apply Z.leb_le in H0. apply Z.ltb_lt in H5.
    assert (Hz : z = 0 \/ z = 1 \/ z = 2 \/ z = 3 \/ z = 4) by lia.
    exists false. destruct Hz as [->|[->|[->|[->| ->]]]]; vm_compute; reflexivity.
  - destruct f as [s|s| |[|] m e]; try discriminate.
    + exists s. destruct s; vm_compute; reflexivity.
    + simpl in Hshort. apply andb_true_iff in Hshort as [Hvalid Hlt].
      exists false. unfold truediv. cbn [as_number rbind].
      change (int_to_float 1000) with (Ok float_1000). cbn [rbind].
      unfold float_truediv. change (Float.is_zero float_1000) with false. cbv iota.
      cbn [rbind]. now rewrite short_float_distance.
Qed.

Lemma to_int_raises x e : Float.to_int x = Raise e -> e <> ZeroDivisionError.
Proof.
  destruct x as [s|s| |s m ex]; simpl; try discriminate; try congruence.
  destruct (Float.fraction m ex). discriminate.
Qed.

(** With a displayed distance that is not zero, the pace computation does
    not divide by zero. *)
Lemma pace_defined_off_zero activity moving_time km :
  getitem activity "moving_time" = Ok (VInt moving_time) ->
  Float.is_zero km = false ->
  activity_pace activity km <> Raise ZeroDivisionError.
Proof.
  intros Hmt Hkm. unfold activity_pace, raw_pace. rewrite Hmt. cbn [rbind].
  unfold truediv. cbn [as_number rbind]. unfold int_truediv.
  change (60 =? 0) with false. cbv iota.
  assert (Hrest : forall minutes,
             (let? raw := float_truediv minutes km in pace_of raw)
             <> Raise ZeroDivisionError).
  { intros minutes. unfold float_truediv. rewrite Hkm. cbn [rbind].
    unfold pace_of, float_divmod.
    change (Float.is_zero float_one) with false. cbv iota. cbn [rbind].
    match goal with
    | |- context [let '(mod1, div1) := ?c in _] => destruct c as [mod1 div1]
    end.
    cbn [rbind].
    match goal with
    | |- (let? m := ?a in _) <> _ =>
        destruct a as [m|e1] eqn:E1; cbn [rbind];
        [|apply to_int_raises in E1; congruence]
    end.
    match goal with
    | |- (let? s := ?b in _) <> _ =>
        destruct b as [s|e2] eqn:E2; cbn [rbind];
        [discriminate|apply to_int_raises in E2; congruence]
    end. }
  destruct moving_time as [|p|p].
  - apply Hrest.
  - match goal with |- context [if ?c then _ else _] => destruct c end;
      [discriminate | apply Hrest].
  - match goal with |- context [if ?c then _ else _] => destruct c end;
      [discriminate | apply Hrest].
Qed.

(** C9: an activity whose distance is below five metres displays the
    distance 0.0 km, and building its message divides the minutes by that
    zero: [build_webhook_message] raises [ZeroDivisionError] instead of
    returning a message, whatever the activity type, since the pace is
    computed before the type is looked at. With a displayed distance other
    than zero the pace computation does not divide by zero. *)
Theorem short_activity_cannot_be_built w activity athlete distance moving_time :
  getitem activity "distance" = Ok distance ->
  short_distance distance = true ->
  getitem activity "moving_time" = Ok (VInt moving_time) ->
  Z.abs moving_time < 2 ^ 63 ->
  (exists s, activity_distance_km activity = Ok (S754_zero s))
  /\ build_embed w activity athlete = Raise ZeroDivisionError
  /\ (forall km, Float.is_zero km = false ->
                 activity_pace activity km <> Raise ZeroDivisionError).
Proof.
  intros Hdistance Hshort Hmt Hbound.
  destruct (short_distance_displays_zero activity distance Hdistance Hshort) as [s Hkm].
  split; [now exists s|]. split.
  - unfold build_embed. rewrite Hkm. cbn [rbind].
    unfold activity_moving_time. rewrite Hmt. cbn [as_number rbind].
    unfold activity_pace, raw_pace. rewrite Hmt. cbn [rbind].
    unfold truediv. cbn [as_number rbind].
    destruct (minutes_defined moving_time Hbound) as [minutes [-> _]]. reflexivity.
  - intros km Hkm'. eapply pace_defined_off_zero; eauto.
Qed.

Definition float_4_9 : spec_float := Float.nearest false 49 10.

Lemma short_activity_cannot_be_built_witness :
  build_embed (online 0) (morning_run (VFloat float_4_9) 4) marianne
  = Raise ZeroDivisionError.
Proof.
  assert (Hbound : Z.abs 4 < 2 ^ 63) by (vm_compute; reflexivity).
  exact (proj1 (proj2 (short_activity_cannot_be_built (online 0)
                         (morning_run (VFloat float_4_9) 4) marianne
                         (VFloat float_4_9) 4 eq_refl eq_refl eq_refl Hbound))).
Defined.

(** *** Exact results *)

Lemma Zdigits2_mul_pow2 m j :
  0 < m -> 0 <= j -> Zdigits2 (m * 2 ^ j) = Zdigits2 m + j.
Proof.
  intros Hm Hj. pose proof (Zdigits2_bounds m Hm) as [Hlo Hhi].
  pose proof (pow2_pos j Hj) as Hp.
  assert (Hd : 1 <= Zdigits2 m).
  { rewrite Zdigits2_log2 by exact Hm. pose proof (Z.log2_nonneg m). lia. }
  apply Zdigits2_unique.
  - replace (Zdigits2 m + j - 1) with ((Zdigits2 m - 1) + j) by lia.
    rewrite !Z.pow_add_r by lia.
    set (A := 2 ^ (Zdigits2 m - 1)) in *. set (B := 2 ^ Zdigits2 m) in *.
    set (J := 2 ^ j) in *. split.
    + apply Z.mul_le_mono_nonneg_r; lia.
    + apply Z.mul_lt_mono_pos_r; lia.
  - apply Z.mul_pos_pos; lia.
Qed.

Lemma Zdigits2_div_pow2 q n :
  0 <= q -> 0 <= n -> Zdigits2 (q / 2 ^ n) = Z.max 0 (Zdigits2 q - n).
Proof.
  intros Hq Hn. pose proof (pow2_pos n Hn) as Hp.
  destruct (Z.eq_dec q 0) as [->|Hne].
  { rewrite Z.div_0_l by lia. simpl. lia. }
  pose proof (Zdigits2_bounds q ltac:(lia)) as [Hlo Hhi].
  destruct (Z.le_gt_cases (Zdigits2 q) n) as [Hsmall|Hbig].
  - assert (q < 2 ^ n).
    { eapply Z.lt_le_trans; [exact Hhi|]. apply Z.pow_le_mono_r; lia. }
    rewrite Z.div_small by lia. simpl. lia.
  - rewrite Z.max_r by lia.
    assert (Hlo' : 2 ^ n * 2 ^ (Zdigits2 q - n - 1) <= q).
    { rewrite <- Z.pow_add_r by lia.
      replace (n + (Zdigits2 q - n - 1)) with (Zdigits2 q - 1) by lia. exact Hlo. }
    assert (Hhi' : q < 2 ^ n * 2 ^ (Zdigits2 q - n)).
    { rewrite <- Z.pow_add_r by lia.
      replace (n + (Zdigits2 q - n)) with (Zdigits2 q) by lia. exact Hhi. }
    pose proof (pow2_pos (Zdigits2 q - n - 1) ltac:(lia)) as Hp1.
    apply Zdigits2_unique.
    + split.
      * apply Z.div_le_lower_bound; [lia|]. exact Hlo'.
      * apply Z.div_lt_upper_bound; [lia|]. exact Hhi'.
    + apply Z.lt_le_trans with (2 ^ (Zdigits2 q - n - 1)); [exact Hp1|].
      apply Z.div_le_lower_bound; [lia|]. exact Hlo'.
Qed.

Lemma iter_xO m d : Zpos (Pos.iter xO m d) = Zpos m * 2 ^ Zpos d.
Proof.
  induction d as [|d IH] using Pos.peano_ind.
  - simpl. lia.
  - rewrite Pos.iter_succ, Pos2Z.inj_xO, IH, Pos2Z.inj_succ, Z.pow_succ_r by lia. ring.
Qed.

Lemma shl_align_spec m e e' :
  snd (shl_align m e e') = Z.min e e'
  /\ Zpos (fst (shl_align m e e')) = Zpos m * 2 ^ (e - Z.min e e').
Proof.
  unfold shl_align. destruct (e' - e) as [|d|d] eqn:E; simpl.
  - rewrite Z.min_l by lia. rewrite Z.sub_diag. simpl. lia.
  - rewrite Z.min_l by lia. rewrite Z.sub_diag. simpl. lia.
  - rewrite Z.min_r by lia. split; [reflexivity|].
    rewrite iter_xO. do 2 f_equal. lia.
Qed.

(** A record that encodes an exact quotient has no round and sticky bit. *)
Lemma encodes_exact mrs a b :
  0 < b -> encodes mrs a b -> a mod b = 0 ->
  mrs = {| shr_m := a / b; shr_r := false; shr_s := false |}.
Proof.
  intros Hb [Hm [Hr Hs]] E. destruct mrs as [m r s]. simpl in *.
  rewrite E in Hr, Hs. simpl in Hr, Hs. subst.
  f_equal. apply Z.leb_gt. lia.
Qed.

(** Rounding a number the format holds gives that number. *)
Lemma binary_round_aux_exact s mf ef j :
  bounded Float.prec Float.emax mf ef = true ->
  0 <= j ->
  binary_round_aux Float.prec Float.emax s (Zpos mf * 2 ^ j) (ef - j) loc_Exact
  = S754_finite s mf ef.
Proof.
  intros Hb Hj. destruct (bounded_canonical mf ef Hb) as [Hcanon Hef].
  pose proof (pow2_pos j Hj) as Hp.
  set (q := Zpos mf * 2 ^ j).
  assert (Hq : 0 < q) by (unfold q; apply Z.mul_pos_pos; lia).
  assert (Hdq : Zdigits2 q + (ef - j) = Zpos (digits2_pos mf) + ef).
  { unfold q. rewrite Zdigits2_mul_pow2 by lia. simpl Zdigits2. lia. }
  unfold binary_round_aux, shr_fexp. rewrite Hdq, Hcanon.
  replace (ef - (ef - j)) with j by lia.
  assert (Henc : encodes (shr_record_of_loc q loc_Exact) q 1).
  { unfold encodes. simpl. rewrite Z.div_1_r, Z.mod_1_r. auto. }
  destruct (shr_encodes (shr_record_of_loc q loc_Exact) q 1 (ef - j) j
              ltac:(lia) ltac:(lia) Henc) as [Henc1 Hexp1].
  rewrite Z.max_r in Henc1, Hexp1 by exact Hj. rewrite Z.mul_1_l in Henc1.
  destruct (shr (shr_record_of_loc q loc_Exact) (ef - j) j) as [mrs1 e1].
  simpl in Henc1, Hexp1. replace e1 with ef by lia.
  assert (Hmod : q mod 2 ^ j = 0) by (unfold q; apply Z.mod_mul; lia).
  rewrite (encodes_exact mrs1 q (2 ^ j) Hp Henc1 Hmod).
  simpl shr_m. simpl loc_of_shr_record. simpl round_nearest_even.
  assert (Hdiv : q / 2 ^ j = Zpos mf) by (unfold q; apply Z.div_mul; lia).
  rewrite !Hdiv. simpl Zdigits2. rewrite Hcanon, Z.sub_diag. simpl.
  destruct (Z.leb_spec ef (Float.emax - Float.prec)) as [|Hover]; [reflexivity|].
  change (Float.emax - Float.prec) with 971 in Hover. lia.
Qed.

(** A mantissa and exponent that denote a number of the format round to
    that number. *)
Lemma binary_round_value s m e mf ef :
  bounded Float.prec Float.emax mf ef = true ->
  (e <= ef /\ Zpos m = Zpos mf * 2 ^ (ef - e))
  \/ (ef <= e /\ Zpos mf = Zpos m * 2 ^ (e - ef)) ->
  binary_round Float.prec Float.emax s m e = S754_finite s mf ef.
Proof.
  intros Hb Hv. destruct (bounded_canonical mf ef Hb) as [Hcanon Hef].
  assert (Hd : Zpos (digits2_pos m) + e = Zpos (digits2_pos mf) + ef).
  { destruct Hv as [[Hle E]|[Hle E]].
    - change (Zpos (digits2_pos m)) with (Zdigits2 (Zpos m)).
      rewrite E, Zdigits2_mul_pow2 by lia. simpl Zdigits2. lia.
    - change (Zpos (digits2_pos mf)) with (Zdigits2 (Zpos mf)).
      rewrite E, Zdigits2_mul_pow2 by lia. simpl Zdigits2. lia. }
  unfold binary_round. rewrite Hd, Hcanon.
  pose proof (shl_align_spec m e ef) as [Hez Hmz].
  destruct (shl_align m e ef) as [mz ez]. simpl in Hez, Hmz. subst ez.
  destruct Hv as [[Hle E]|[Hle E]].
  - rewrite Z.min_l in * by lia. rewrite Z.sub_diag, Z.pow_0_r, Z.mul_1_r in Hmz.
    pose proof (binary_round_aux_exact s mf ef (ef - e) Hb ltac:(lia)) as H.
    replace (ef - (ef - e)) with e in H by lia. rewrite <- E in H.
    rewrite Hmz. exact H.
  - rewrite Z.min_r in * by lia.
    pose proof (binary_round_aux_exact s mf ef 0 Hb ltac:(lia)) as H.
    rewrite Z.sub_0_r, Z.pow_0_r, Z.mul_1_r in H.
    rewrite Hmz, <- E. exact H.
Qed.

(** A mantissa of at most 53 bits above the least exponent is a number of
    the format. *)
Lemma binary_round_fits s c e :
  let ef := fexp64 (Zpos (digits2_pos c) + e) in
  ef <= e -> ef <= 971 ->
  exists mf, Zpos mf = Zpos c * 2 ^ (e - ef)
             /\ bounded Float.prec Float.emax mf ef = true
             /\ binary_round Float.prec Float.emax s c e = S754_finite s mf ef.
Proof.
  intros ef Hle Hmax.
  pose proof (pow2_pos (e - ef) ltac:(lia)) as Hp.
  assert (Hpos : 0 < Zpos c * 2 ^ (e - ef)) by (apply Z.mul_pos_pos; lia).
  destruct (Zpos c * 2 ^ (e - ef)) as [|mf|mf] eqn:E; try lia.
  exists mf. split; [reflexivity|].
  assert (Hb : bounded Float.prec Float.emax mf ef = true).
  { unfold bounded, canonical_mantissa. apply andb_true_iff. split.
    - apply Z.eqb_eq. change (Zpos (digits2_pos mf)) with (Zdigits2 (Zpos mf)).
      rewrite <- E, Zdigits2_mul_pow2 by lia. simpl Zdigits2.
      replace (Zpos (digits2_pos c) + (e - ef) + ef) with (Zpos (digits2_pos c) + e) by lia.
      reflexivity.
    - apply Z.leb_le. exact Hmax. }
  split; [exact Hb|].
  apply binary_round_value; [exact Hb|]. right. split; [exact Hle|]. now rewrite E.
Qed.

Lemma float_one_eq : float_one = S754_finite false 4503599627370496 (-52).
Proof. vm_compute. reflexivity. Qed.

(** Division by one is the identity. *)
Lemma div_one s m e :
  bounded Float.prec Float.emax m e = true ->
  Float.ieee_div (S754_finite s m e) float_one = S754_finite s m e.
Proof.
  intros Hb. destruct (bounded_canonical m e Hb) as [Hcanon He].
  rewrite float_one_eq. unfold Float.ieee_div, SFdiv.
  destruct (SFdiv_core_binary_spec m e 4503599627370496 (-52)) as [-> [Hs Hfit]].
  assert (He' : div_exponent m e 4503599627370496 (-52) <= e).
  { unfold div_exponent. rewrite <- Hcanon at 3.
    etransitivity; [apply Z.le_min_l|]. apply fexp64_mono. simpl. lia. }
  set (e' := div_exponent m e 4503599627370496 (-52)) in *.
  replace (e - -52 - e') with ((e - e') + 52) by lia.
  rewrite Z.pow_add_r by lia. change (2 ^ 52) with 4503599627370496.
  rewrite Z.mul_assoc.
  unfold loc_of. rewrite Z.mod_mul, Z.div_mul by lia.
  change (0 =? 0) with true. cbv iota. rewrite xorb_false_r.
  pose proof (binary_round_aux_exact s m e (e - e') Hb ltac:(lia)) as H.
  replace (e - (e - e')) with e' in H by lia. exact H.
Qed.

(** A number minus itself is zero. *)
Lemma sub_self s m e :
  Float.sub (S754_finite s m e) (S754_finite s m e) = S754_zero false.
Proof.
  unfold Float.sub, SFsub. change (IntDef.Z.min e e) with (Z.min e e).
  rewrite Z.min_id. unfold shl_align. rewrite Z.sub_diag. cbn [fst].
  replace (cond_Zopp s (Zpos m) - cond_Zopp s (Zpos m)) with 0 by lia.
  reflexivity.
Qed.

(** The integer part of a positive number. *)
Definition whole (m : positive) (e : Z) : Z :=
  let '(n, d) := Float.fraction m e in n / d.

Lemma whole_neg m k : whole m (Zneg k) = Zpos m / 2 ^ Zpos k.
Proof. reflexivity. Qed.

Lemma whole_nonneg m e : 0 <= e -> whole m e = Zpos m * 2 ^ e.
Proof.
  intros He. unfold whole, Float.fraction. destruct e; try lia; now rewrite Z.div_1_r.
Qed.

(** [floor] leaves a whole number alone. *)
Lemma floor_whole s m e :
  bounded Float.prec Float.emax m e = true ->
  (e < 0 -> Zpos m mod 2 ^ (- e) = 0) ->
  Float.floor (S754_finite s m e) = S754_finite s m e.
Proof.
  intros Hb Hw. destruct e as [|p|k]; try reflexivity.
  specialize (Hw ltac:(lia)). change (- Zneg k) with (Zpos k) in Hw.
  pose proof (pow2_pos (Zpos k) ltac:(lia)) as Hp.
  apply Z.div_exact in Hw; [|lia].
  unfold Float.floor.
  remember (Zpos m / 2 ^ Zpos k) as q eqn:Eq.
  assert (Hq : 0 < q) by nia.
  destruct q as [|q'|q']; try lia.
  destruct s; cbv iota.
  - assert (E : Zneg m / 2 ^ Zpos k = Zneg q').
    { change (Zneg m) with (- Zpos m). rewrite Hw.
      rewrite <- Z.mul_opp_r, Z.mul_comm, Z.div_mul by lia. reflexivity. }
    rewrite E. unfold binary_normalize. apply binary_round_value; [exact Hb|].
    right. split; [lia|]. rewrite Hw. change (0 - Zneg k) with (Zpos k). ring.
  - rewrite <- Eq. unfold binary_normalize. apply binary_round_value; [exact Hb|].
    right. split; [lia|]. rewrite Hw. change (0 - Zneg k) with (Zpos k). ring.
Qed.

(** *** [divmod(x, 1)] *)

Lemma bounded_range m e :
  bounded Float.prec Float.emax m e = true ->
  -1074 <= e /\ Zpos m < 2 ^ 53.
Proof.
  intros Hb. destruct (bounded_canonical m e Hb) as [Hcanon _].
  rewrite fexp64_eq in Hcanon. split; [lia|].
  pose proof (Zdigits2_bounds (Zpos m) ltac:(lia)) as [_ Hhi]. simpl Zdigits2 in Hhi.
  eapply Z.lt_le_trans; [exact Hhi|]. apply Z.pow_le_mono_r; lia.
Qed.

Lemma to_int_whole m e : Float.to_int (S754_finite false m e) = Ok (whole m e).
Proof. unfold Float.to_int, whole. now destruct (Float.fraction m e). Qed.

(** The operands of [fmod(x, 1)], aligned. *)
Lemma fmod_one_parts m e :
  e < 0 ->
  let e0 := Z.min e (-52) in
  let X := Zpos m * 2 ^ (e - e0) in
  let Y := 4503599627370496 * 2 ^ (-52 - e0) in
  Y = 2 ^ (- e0) /\ X / Y = whole m e
  /\ (X mod Y = 0 -> Zpos m mod 2 ^ (- e) = 0)
  /\ (Zpos m < 2 ^ 53 -> X mod Y < 2 ^ 53).
Proof.
  intros He e0 X Y.
  assert (Hw : whole m e = Zpos m / 2 ^ (- e)) by (destruct e; try lia; reflexivity).
  pose proof (pow2_pos (- e) ltac:(lia)) as Hp.
  destruct (Z.le_gt_cases e (-52)) as [Hle|Hgt].
  - assert (E0 : e0 = e) by (unfold e0; lia).
    assert (EX : X = Zpos m) by (unfold X; rewrite E0, Z.sub_diag; simpl; lia).
    assert (EY : Y = 2 ^ (- e)).
    { unfold Y. rewrite E0. change 4503599627370496 with (2 ^ 52).
      rewrite <- Z.pow_add_r by lia. f_equal. lia. }
    rewrite E0, EX, EY, Hw. repeat split; auto.
    intros Hm. pose proof (Z.mod_pos_bound (Zpos m) (2 ^ (- e)) Hp).
    pose proof (Z.mod_le (Zpos m) (2 ^ (- e)) ltac:(lia) Hp). lia.
  - assert (E0 : e0 = -52) by (unfold e0; lia).
    pose proof (pow2_pos (e + 52) ltac:(lia)) as Hp2.
    assert (EX : X = Zpos m * 2 ^ (e + 52)) by (unfold X; rewrite E0; f_equal; f_equal; lia).
    assert (EY : Y = 2 ^ (- e) * 2 ^ (e + 52)).
    { unfold Y. rewrite E0. rewrite <- Z.pow_add_r by lia.
      replace (- e + (e + 52)) with 52 by lia. reflexivity. }
    split; [unfold Y; rewrite E0; reflexivity|].
    rewrite EX, EY, Hw. split; [apply Z.div_mul_cancel_r; lia|].
    rewrite Z.mul_mod_distr_r by lia. split.
    + intros H. apply Z.mul_eq_0 in H. lia.
    + intros _. rewrite <- Z.mul_mod_distr_r, <- EY by lia.
      pose proof (Z.mod_pos_bound (Zpos m * 2 ^ (e + 52)) Y) as Hb.
      assert (HY : Y = 2 ^ 52) by (unfold Y; rewrite E0; reflexivity).
      rewrite HY in *. change (2 ^ 52) with 4503599627370496 in *.
      change (2 ^ 53) with 9007199254740992. lia.
Qed.

(** [fmod(x, 1)] for a positive [x] is zero when [x] is a whole number, and
    otherwise a positive number of the format that differs from [x] by the
    integer part of [x]. *)
Lemma fmod_one m e :
  bounded Float.prec Float.emax m e = true ->
  (Float.fmod (S754_finite false m e) float_one = S754_zero false
   /\ (e < 0 -> Zpos m mod 2 ^ (- e) = 0))
  \/ (exists mr er,
        Float.fmod (S754_finite false m e) float_one = S754_finite false mr er
        /\ bounded Float.prec Float.emax mr er = true
        /\ e < 0 /\ er <= e /\ er <= -53
        /\ Zpos m * 2 ^ (e - er) - Zpos mr = whole m e * 2 ^ (- er)).
Proof.
  intros Hb. destruct (bounded_range m e Hb) as [Hmin Hm].
  rewrite float_one_eq. unfold Float.fmod.
  destruct (Z.le_gt_cases 0 e) as [Hnn|Hneg].
  - left. split; [|lia]. rewrite Z.min_r by lia.
    replace (e - -52) with (e + 52) by lia. rewrite Z.pow_add_r by lia.
    change (-52 - -52) with 0. change (2 ^ 52) with 4503599627370496.
    change (2 ^ 0) with 1. rewrite Z.mul_1_r, Z.mul_assoc, Z.mod_mul by lia.
    reflexivity.
  - destruct (fmod_one_parts m e Hneg) as [EY [Hq [Hz Hr53]]].
    set (e0 := Z.min e (-52)) in *.
    set (X := Zpos m * 2 ^ (e - e0)) in *.
    set (Y := 4503599627370496 * 2 ^ (-52 - e0)) in *.
    assert (HY : 0 < Y) by (rewrite EY; apply pow2_pos; unfold e0; lia).
    pose proof (Z.mod_pos_bound X Y HY) as Hr.
    pose proof (Z.div_mod X Y ltac:(lia)) as Hdm.
    specialize (Hr53 Hm).
    destruct (X mod Y) as [|r|r] eqn:Er; try lia.
    + left. split; [reflexivity|]. intros _. now apply Hz.
    + right.
      assert (Hd1 : Zdigits2 (Zpos r) <= - e0).
      { apply Zdigits2_le; [lia | rewrite <- EY; lia | unfold e0; lia]. }
      assert (Hd2 : Zdigits2 (Zpos r) <= 53) by (apply Zdigits2_le; lia).
      simpl Zdigits2 in Hd1, Hd2.
      assert (He0 : -1074 <= e0 <= e) by (unfold e0; lia).
      pose proof (binary_round_fits false r e0) as Hfit. cbv zeta in Hfit.
      rewrite fexp64_eq in Hfit.
      set (er := Z.max (Zpos (digits2_pos r) + e0 - 53) (-1074)) in *.
      destruct (Hfit ltac:(lia) ltac:(lia)) as [mr [Emr [Hbr Hround]]].
      exists mr, er. split; [exact Hround|]. split; [exact Hbr|].
      split; [lia|]. split; [lia|]. split; [lia|].
      rewrite Emr.
      replace (e - er) with ((e - e0) + (e0 - er)) by lia.
      rewrite Z.pow_add_r by lia. rewrite Z.mul_assoc. fold X.
      replace (- er) with (- e0 + (e0 - er)) by lia.
      rewrite Z.pow_add_r by lia. rewrite <- EY, <- Hq.
      rewrite Hdm at 1. ring.
Qed.

Lemma float_half_test : Float.ltb float_half (S754_zero false) = false.
Proof. vm_compute. reflexivity. Qed.

Lemma whole_finite m e w :
  bounded Float.prec Float.emax m e = true -> e <= 0 ->
  Zpos m = w * 2 ^ (0 - e) -> whole m e = w.
Proof.
  intros _ He E. destruct e as [|p|k]; try lia.
  - rewrite whole_nonneg by lia. rewrite E. simpl. lia.
  - rewrite whole_neg, E. change (0 - Zneg k) with (Zpos k).
    apply Z.div_mul. pose proof (pow2_pos (Zpos k)). lia.
Qed.

(** [divmod(x, 1)] of a positive [x]: the remainder is [fmod(x, 1)] and the
    quotient is a float whose integer value is the integer part of [x]. *)
Lemma float_divmod_one m e :
  bounded Float.prec Float.emax m e = true ->
  exists fd, float_divmod (S754_finite false m e) float_one
             = Ok (fd, Float.fmod (S754_finite false m e) float_one)
             /\ Float.to_int fd = Ok (whole m e).
Proof.
  intros Hb. unfold float_divmod. change (Float.is_zero float_one) with false. cbv iota.
  destruct (fmod_one m e Hb) as [[Hmod Hw]|(mr & er & Hmod & Hbr & Hneg & Hle & Her & HD)];
    rewrite Hmod.
  - change (Float.sub (S754_finite false m e) (S754_zero false)) with (S754_finite false m e).
    rewrite (div_one false m e Hb). cbn [Float.is_zero negb].
    change (Float.copysign float_zero float_one) with (S754_zero false).
    rewrite (floor_whole false m e Hb Hw), sub_self, float_half_test.
    eexists. split; [reflexivity|]. apply to_int_whole.
  - assert (Hsub : Float.sub (S754_finite false m e) (S754_finite false mr er)
                   = binary_normalize Float.prec Float.emax (whole m e * 2 ^ (- er)) er false).
    { unfold Float.sub, SFsub. change (IntDef.Z.min e er) with (Z.min e er).
      rewrite Z.min_r by lia.
      destruct (shl_align_spec m e er) as [_ E1]. rewrite Z.min_r in E1 by lia.
      destruct (shl_align_spec mr er er) as [_ E2].
      rewrite Z.min_id, Z.sub_diag, Z.pow_0_r, Z.mul_1_r in E2.
      cbn [cond_Zopp]. rewrite E1, E2, HD. reflexivity. }
    rewrite Hsub. clear Hsub.
    change (Float.ltb float_one float_zero) with false.
    change (Float.ltb (S754_finite false mr er) float_zero) with false.
    cbn [Float.is_zero negb xorb].
    assert (Hwn : 0 <= whole m e).
    { destruct e as [|p|k]; try lia. rewrite whole_neg.
      apply Z.div_pos; [lia|]. apply pow2_pos. lia. }
    assert (Hwm : whole m e <= Zpos m).
    { destruct e as [|p|k]; try lia. rewrite whole_neg.
      pose proof (pow2_pos (Zpos k) ltac:(lia)).
      apply Z.div_le_upper_bound; [lia|]. nia. }
    destruct (whole m e) as [|w|w] eqn:Ew; try lia.
    + rewrite Z.mul_0_l. cbn [binary_normalize].
      change (Float.ieee_div (S754_zero false) float_one) with (S754_zero false).
      cbn [Float.is_zero negb]. rewrite (div_one false m e Hb).
      cbn [Float.copysign Float.sign].
      eexists. split; [reflexivity|]. reflexivity.
    + destruct (bounded_range m e Hb) as [_ Hm53].
      assert (Hdw : Zpos (digits2_pos w) <= 53).
      { change (Zpos (digits2_pos w)) with (Zdigits2 (Zpos w)). apply Zdigits2_le; lia. }
      pose proof (binary_round_fits false w 0) as Hfit. cbv zeta in Hfit.
      rewrite fexp64_eq, Z.add_0_r in Hfit.
      set (eq := Z.max (Zpos (digits2_pos w) - 53) (-1074)) in *.
      assert (Heq : -52 <= eq <= 0) by (unfold eq; lia).
      destruct (Hfit ltac:(lia) ltac:(lia)) as [mq [Emq [Hbq _]]].
      pose proof (pow2_pos (- er) ltac:(lia)) as Hp.
      assert (Hpos : 0 < Zpos w * 2 ^ (- er)) by (apply Z.mul_pos_pos; lia).
      destruct (Zpos w * 2 ^ (- er)) as [|D|D] eqn:ED; try lia.
      cbn [binary_normalize].
      assert (Hy : binary_round Float.prec Float.emax false D er = S754_finite false mq eq).
      { apply binary_round_value; [exact Hbq|]. left. split; [lia|].
        rewrite <- ED, Emq. replace (- er) with ((0 - eq) + (eq - er)) by lia.
        rewrite Z.pow_add_r by lia. ring. }
      rewrite Hy, (div_one false mq eq Hbq). cbn [Float.is_zero negb].
      assert (Hwq : eq < 0 -> Zpos mq mod 2 ^ (- eq) = 0).
      { intros _. rewrite Emq. replace (0 - eq) with (- eq) by lia.
        apply Z.mod_mul. pose proof (pow2_pos (- eq)). lia. }
      rewrite (floor_whole false mq eq Hbq Hwq), sub_self, float_half_test.
      eexists. split; [reflexivity|]. rewrite to_int_whole. f_equal.
      apply whole_finite; [exact Hbq|lia|exact Emq].
Qed.

(** *** Rounding yields numbers of the format *)

Lemma Zdigits2_mono a b : 0 <= a <= b -> Zdigits2 a <= Zdigits2 b.
Proof.
  intros [Ha Hab]. destruct (Z.eq_dec b 0) as [->|Hb].
  - replace a with 0 by lia. lia.
  - pose proof (Zdigits2_bounds b ltac:(lia)) as [_ Hhi].
    apply Zdigits2_le; [lia|lia|apply Zdigits2_nonneg].
Qed.

(** Rounding a quotient gives a number of the format (or an infinity),
    with the sign asked for and an exponent that is not below the one given;
    zero only from the range of the least exponent. *)
Lemma binary_round_aux_shape s a b e :
  0 <= a -> 0 < b ->
  e <= fexp64 (Zdigits2 (a / b) + e) ->
  match binary_round_aux Float.prec Float.emax s (a / b) e (loc_of a b) with
  | S754_zero s' => s' = s /\ fexp64 (Zdigits2 (a / b) + e) = -1074
  | S754_finite s' m e' =>
      s' = s /\ bounded Float.prec Float.emax m e' = true /\ e <= e'
  | S754_infinity s' => s' = s
  | S754_nan => False
  end.
Proof.
  intros Ha Hb Hfit.
  set (q := a / b) in *.
  assert (Hq : 0 <= q) by (apply Z.div_pos; lia).
  set (e1 := fexp64 (Zdigits2 q + e)) in *.
  assert (Hn : 0 <= e1 - e) by lia.
  (* first shift *)
  unfold binary_round_aux, shr_fexp. fold q. fold e1.
  destruct (shr_encodes (shr_record_of_loc q (loc_of a b)) a b e (e1 - e) Ha Hb
              (encodes_loc_of a b Hb)) as [Henc1 Hexp1].
  rewrite Z.max_r in Henc1, Hexp1 by exact Hn.
  destruct (shr (shr_record_of_loc q (loc_of a b)) e (e1 - e)) as [mrs1 e1'].
  simpl in Henc1, Hexp1. replace e1' with e1 by lia. clear Hexp1 e1'.
  set (n := e1 - e) in *.
  pose proof (pow2_pos n Hn) as Hpn.
  assert (HB : 0 < b * 2 ^ n) by nia.
  destruct (round_nearest_even_bounds mrs1 a (b * 2 ^ n) HB Henc1) as [[HNlo _] _].
  set (N := round_nearest_even (shr_m mrs1) (loc_of_shr_record mrs1)) in *.
  assert (Hdiv : a / (b * 2 ^ n) = q / 2 ^ n) by (unfold q; rewrite Z.div_div by lia; reflexivity).
  rewrite Hdiv in HNlo.
  assert (HN0 : 0 <= N) by (pose proof (Z.div_pos q (2 ^ n) Hq Hpn); lia).
  pose proof (Zdigits2_div_pow2 q n Hq Hn) as Hdq.
  pose proof (Zdigits2_mono (q / 2 ^ n) N ltac:(split; [apply Z.div_pos|]; lia)) as HdN.
  (* the second shift never goes left *)
  assert (Hn2 : 0 <= fexp64 (Zdigits2 N + e1) - e1).
  { assert (En : n = e1 - e) by reflexivity.
    assert (Ee1 : e1 = Z.max (Zdigits2 q + e - 53) (-1074)) by (unfold e1; apply fexp64_eq).
    rewrite fexp64_eq. lia. }
  assert (HencN : encodes (shr_record_of_loc N loc_Exact) N 1).
  { unfold encodes. simpl. rewrite Z.div_1_r, Z.mod_1_r. auto. }
  destruct (shr_encodes (shr_record_of_loc N loc_Exact) N 1 e1
              (fexp64 (Zdigits2 N + e1) - e1) HN0 ltac:(lia) HencN) as [Henc2 Hexp2].
  rewrite Z.max_r in Henc2, Hexp2 by exact Hn2.
  destruct (shr (shr_record_of_loc N loc_Exact) e1 (fexp64 (Zdigits2 N + e1) - e1))
    as [mrs2 e2].
  simpl in Henc2, Hexp2. destruct Henc2 as [Hm2 _]. rewrite Z.mul_1_l in Hm2.
  set (n2 := fexp64 (Zdigits2 N + e1) - e1) in *.
  pose proof (Zdigits2_div_pow2 N n2 HN0 Hn2) as Hd2. rewrite <- Hm2 in Hd2.
  assert (En : n = e1 - e) by reflexivity.
  assert (Ee1 : e1 = Z.max (Zdigits2 q + e - 53) (-1074)) by (unfold e1; apply fexp64_eq).
  assert (En2 : n2 = Z.max (Zdigits2 N + e1 - 53) (-1074) - e1).
  { unfold n2. now rewrite fexp64_eq. }
  destruct (shr_m mrs2) as [|m|m].
  - split; [reflexivity|]. simpl Zdigits2 in Hd2. lia.
  - destruct (Z.leb_spec e2 (Float.emax - Float.prec)) as [Hle|Hgt]; [|reflexivity].
    split; [reflexivity|]. split; [|lia].
    unfold bounded, canonical_mantissa.
    apply andb_true_iff. split; [|now apply Z.leb_le].
    apply Z.eqb_eq. simpl Zdigits2 in Hd2. rewrite fexp64_eq. lia.
  - pose proof (pow2_pos n2 Hn2). pose proof (Z.div_pos N (2 ^ n2) HN0 ltac:(lia)). lia.
Qed.

Lemma div_shape sx mx ex sy my ey :
  match Float.ieee_div (S754_finite sx mx ex) (S754_finite sy my ey) with
  | S754_zero s' => s' = xorb sx sy
  | S754_finite s' m e' =>
      s' = xorb sx sy /\ bounded Float.prec Float.emax m e' = true
      /\ div_exponent mx ex my ey <= e'
  | S754_infinity s' => s' = xorb sx sy
  | S754_nan => False
  end.
Proof.
  unfold Float.ieee_div, SFdiv.
  destruct (SFdiv_core_binary_spec mx ex my ey) as [-> [Hs Hfit]].
  pose proof (binary_round_aux_shape (xorb sx sy)
                (Zpos mx * 2 ^ (ex - ey - div_exponent mx ex my ey)) (Zpos my)
                (div_exponent mx ex my ey) ltac:(lia) ltac:(lia) Hfit) as H.
  destruct (binary_round_aux _ _ _ _ _ _); tauto.
Qed.

Lemma nearest_shape s a b :
  match Float.nearest s a b with
  | S754_zero s' => s' = s
  | S754_finite s' m e' =>
      s' = s /\ bounded Float.prec Float.emax m e' = true
      /\ div_exponent a 0 b 0 <= e'
  | S754_infinity s' => s' = s
  | S754_nan => False
  end.
Proof.
  unfold Float.nearest.
  destruct (SFdiv_core_binary_spec a 0 b 0) as [-> [Hs Hfit]].
  pose proof (binary_round_aux_shape s
                (Zpos a * 2 ^ (0 - 0 - div_exponent a 0 b 0)) (Zpos b)
                (div_exponent a 0 b 0) ltac:(lia) ltac:(lia) Hfit) as H.
  destruct (binary_round_aux _ _ _ _ _ _); tauto.
Qed.

(** *** The pace *)

(** The pace as the specification words it: the integer part of the raw
    pace is the minutes; the fractional part, multiplied by 0.6 and rounded
    to two decimals, then multiplied by 100 and truncated, is the seconds
    field, written with two digits. *)
Definition two_step_pace (raw_pace : spec_float) : result string :=
  let? minutes := Float.to_int raw_pace in
  let fractional := Float.fmod raw_pace float_one in
  let hundredths := Float.round (Float.mul fractional lit_0_6) 2 in
  let? seconds := Float.to_int (Float.mul hundredths (Float.of_Z 100)) in
  Ok (Text.of_Z minutes +:+ ":" +:+ Text.format_02d seconds).

(** Zero, or a positive number of the format. *)
Definition finite_nonneg (x : spec_float) : bool :=
  match x with
  | S754_zero _ => true
  | S754_finite false m e => bounded Float.prec Float.emax m e
  | _ => false
  end.

Lemma pace_of_two_step raw :
  finite_nonneg raw = true -> pace_of raw = two_step_pace raw.
Proof.
  destruct raw as [s|s| |s m e]; try discriminate.
  - intros _. destruct s; vm_compute; reflexivity.
  - destruct s; [discriminate|]. intros Hb. simpl in Hb.
    destruct (float_divmod_one m e Hb) as [fd [Hdm Hint]].
    unfold pace_of, two_step_pace. rewrite Hdm. cbn [rbind].
    rewrite Hint, to_int_whole. reflexivity.
Qed.

(** A positive displayed distance is an infinity or at least 2^-7. *)
Lemma displayed_positive q :
  Float.ltb float_zero (Float.round q 2) = true ->
  match Float.round q 2 with
  | S754_infinity s => s = false
  | S754_finite s m e => s = false /\ bounded Float.prec Float.emax m e = true /\ -59 <= e
  | _ => False
  end.
Proof.
  assert (Hsign : forall x, Float.ltb float_zero x = true -> Float.sign x = false).
  { intros [s|s| |s m e] H; try destruct s; vm_compute in H |- *; congruence. }
  destruct q as [s|s| |s m e]; try discriminate.
  - simpl. intros H. apply (Hsign _ H).
  - unfold Float.round. destruct (Float.fraction m e) as [n d].
    destruct (Float.round_half_even (n * 10 ^ 2) d) as [|k|k]; try discriminate.
    change (Z.to_pos (10 ^ 2)) with 100%positive.
    pose proof (nearest_shape s k 100) as Hshape.
    assert (Hexp : -59 <= div_exponent k 0 100 0).
    { unfold div_exponent. rewrite fexp64_eq.
      change (Zpos (digits2_pos 100)) with 7. lia. }
    intros H. pose proof (Hsign _ H) as Hs.
    destruct (Float.nearest s k 100) as [s'|s'| |s' m' e']; simpl in Hs; subst.
    + discriminate.
    + reflexivity.
    + contradiction.
    + destruct Hshape as [_ [Hb He]]. repeat split; [exact Hb|lia].
Qed.

(** The minutes of a moving time: zero or a positive number below 2^64. *)
Definition minutes_range (x : spec_float) : Prop :=
  match x with
  | S754_zero s => s = false
  | S754_finite s m e => s = false /\ bounded Float.prec Float.emax m e = true /\ e <= 11
  | _ => False
  end.

(** A positive distance as displayed: an infinity or at least 2^-7. *)
Definition distance_range (x : spec_float) : Prop :=
  match x with
  | S754_infinity s => s = false
  | S754_finite s m e => s = false /\ bounded Float.prec Float.emax m e = true /\ -59 <= e
  | _ => False
  end.

Lemma minutes_shape moving_time :
  0 <= moving_time < 2 ^ 63 ->
  exists minutes, int_truediv moving_time 60 = Ok minutes /\ minutes_range minutes.
Proof.
  intros [H0 H63]. unfold int_truediv. change (60 =? 0) with false. cbv iota.
  destruct moving_time as [|p|p]; try lia.
  - exists (S754_zero false). split; reflexivity.
  - change (Float.nearest _ _ _) with (Float.nearest false p 60).
    destruct (sixty_bound p H63) as [He Hle].
    pose proof (nearest_le false p 60 4503599627370496 11 eq_refl He Hle) as Hub.
    pose proof (nearest_shape false p 60) as Hsh.
    destruct (Float.nearest false p 60) as [s|s| |s m e]; try contradiction.
    + exists (S754_zero s). split; [reflexivity|exact Hub].
    + exists (S754_finite s m e). split; [reflexivity|].
      destruct Hub as [-> [He' _]]. destruct Hsh as [_ [Hb _]]. repeat split; assumption.
Qed.

(** Minutes over a displayed distance: zero or a positive number of the
    format, never an infinity. *)
Lemma raw_pace_finite minutes km :
  minutes_range minutes -> distance_range km ->
  finite_nonneg (Float.ieee_div minutes km) = true.
Proof.
  intros Hm Hk.
  destruct minutes as [s|s| |s mx ex], km as [s'|s'| |s' my ey];
    simpl in Hm, Hk; try contradiction; try reflexivity.
  destruct Hm as [-> [Hbx Hex]], Hk as [-> [Hby Hey]].
  destruct (bounded_range mx ex Hbx) as [_ Hmx].
  assert (Hmy : 2 ^ 52 <= Zpos my).
  { destruct (bounded_canonical my ey Hby) as [Hc _]. rewrite fexp64_eq in Hc.
    pose proof (Zdigits2_bounds (Zpos my) ltac:(lia)) as [Hlo _]. simpl Zdigits2 in Hlo.
    replace (Zpos (digits2_pos my) - 1) with 52 in Hlo by lia. exact Hlo. }
  pose proof (div_shape false mx ex false my ey) as Hsh.
  pose proof (SFdiv_le false mx ex false my ey 4503599627370496 100 eq_refl) as Hub.
  cbv zeta in Hub.
  destruct (SFdiv_core_binary_spec mx ex my ey) as [_ [Ht _]].
  set (e' := div_exponent mx ex my ey) in *.
  assert (He' : e' <= 100) by (unfold e', div_exponent; lia).
  assert (Hle : Zpos mx * 2 ^ (ex - ey - e')
                <= Zpos my * (4503599627370496 * 2 ^ (100 - e'))).
  { set (t := ex - ey - e') in *.
    pose proof (pow2_pos t Ht) as Hpt.
    pose proof (pow2_pos (100 - e') ltac:(lia)) as Hpe.
    change 4503599627370496 with (2 ^ 52).
    apply Z.le_trans with (2 ^ 53 * 2 ^ t).
    { apply Z.mul_le_mono_nonneg_r; lia. }
    apply Z.le_trans with (2 ^ 52 * (2 ^ 52 * 2 ^ (100 - e'))).
    { rewrite <- !Z.pow_add_r by lia. apply Z.pow_le_mono_r; [lia|]. unfold t. lia. }
    apply Z.mul_le_mono_nonneg_r; [|exact Hmy].
    apply Z.mul_nonneg_nonneg; lia. }
  specialize (Hub He' Hle).
  destruct (Float.ieee_div (S754_finite false mx ex) (S754_finite false my ey))
    as [s|s| |s m e]; try contradiction.
  - reflexivity.
  - destruct Hsh as [-> [Hb _]]. exact Hb.
Qed.

(** *** The seconds field *)

Lemma lit_0_6_eq : lit_0_6 = S754_finite false 5404319552844595 (-53).
Proof. vm_compute. reflexivity. Qed.

Lemma float_100_eq : Float.of_Z 100 = S754_finite false 7036874417766400 (-46).
Proof. vm_compute. reflexivity. Qed.

(** A product of mantissas with 54 digits or more between them is rounded
    at or above the sum of the exponents. *)
Lemma mul_fit mx my e :
  54 <= Zpos (digits2_pos mx) + Zpos (digits2_pos my) ->
  e <= fexp64 (Zdigits2 (Zpos (mx * my)) + e).
Proof.
  intros Hd.
  pose proof (Zdigits2_bounds (Zpos mx) ltac:(lia)) as [Hx _].
  pose proof (Zdigits2_bounds (Zpos my) ltac:(lia)) as [Hy _].
  simpl Zdigits2 in Hx, Hy.
  assert (H : Zpos (digits2_pos mx) + Zpos (digits2_pos my) - 1 <= Zdigits2 (Zpos (mx * my))).
  { apply Zdigits2_ge; [|lia].
    replace (Zpos (digits2_pos mx) + Zpos (digits2_pos my) - 1 - 1)
      with ((Zpos (digits2_pos mx) - 1) + (Zpos (digits2_pos my) - 1)) by lia.
    rewrite Z.pow_add_r, Pos2Z.inj_mul by lia.
    pose proof (pow2_pos (Zpos (digits2_pos mx) - 1) ltac:(lia)).
    pose proof (pow2_pos (Zpos (digits2_pos my) - 1) ltac:(lia)).
    apply Z.mul_le_mono_nonneg; lia. }
  rewrite fexp64_eq. lia.
Qed.

(** Rounding a product never passes a number of the format that bounds it. *)
Lemma mul_le mx ex my ey mf ef :
  bounded Float.prec Float.emax mf ef = true ->
  54 <= Zpos (digits2_pos mx) + Zpos (digits2_pos my) ->
  ex + ey <= ef ->
  Zpos mx * Zpos my <= Zpos mf * 2 ^ (ef - (ex + ey)) ->
  match Float.mul (S754_finite false mx ex) (S754_finite false my ey) with
  | S754_zero s' => s' = false
  | S754_finite s' m e' => s' = false /\ e' <= ef /\ Zpos m <= Zpos mf * 2 ^ (ef - e')
  | _ => False
  end.
Proof.
  intros Hb Hd He Hle. unfold Float.mul, SFmul. cbn [xorb].
  pose proof (binary_round_aux_le false (Zpos (mx * my)) 1 (ex + ey) mf ef) as H.
  rewrite Z.div_1_r in H.
  assert (Hloc : loc_of (Zpos (mx * my)) 1 = loc_Exact).
  { unfold loc_of. rewrite Z.mod_1_r. reflexivity. }
  rewrite Hloc in H. apply H; try lia.
  - now apply mul_fit.
  - exact Hb.
Qed.

Lemma round_half_even_le n d K :
  0 < d -> n <= K * d -> Float.round_half_even n d <= K.
Proof.
  intros Hd Hn. unfold Float.round_half_even.
  pose proof (le_div n d K Hd Hn) as Hq.
  pose proof (Z.mod_pos_bound n d Hd) as Hr.
  destruct (Z.compare_spec (2 * (n mod d)) d) as [E|E|E].
  - destruct (Z.even (n / d)); [exact Hq|]. apply le_div_succ; [exact Hd|exact Hn|lia].
  - exact Hq.
  - apply le_div_succ; [exact Hd|exact Hn|lia].
Qed.

Lemma round_half_even_nonneg n d :
  0 < d -> 0 <= n -> 0 <= Float.round_half_even n d.
Proof.
  intros Hd Hn. unfold Float.round_half_even.
  pose proof (Z.div_pos n d Hn Hd).
  destruct (2 * (n mod d) ?= d); [destruct (Z.even (n / d))|..]; lia.
Qed.

(** The fractional part of a pace, times 0.6, is at most 0.6. *)
Lemma scaled_fraction mr er :
  bounded Float.prec Float.emax mr er = true -> er <= -53 ->
  match Float.mul (S754_finite false mr er) lit_0_6 with
  | S754_zero s' => s' = false
  | S754_finite s' m e' =>
      s' = false /\ e' <= -53 /\ Zpos m <= 5404319552844595 * 2 ^ (-53 - e')
  | _ => False
  end.
Proof.
  intros Hb He. destruct (bounded_range mr er Hb) as [_ Hm].
  rewrite lit_0_6_eq. apply mul_le; [reflexivity| |lia|].
  - change (Zpos (digits2_pos 5404319552844595)) with 53. lia.
  - replace (-53 - (er + -53)) with (- er) by lia.
    assert (2 ^ 53 <= 2 ^ (- er)) by (apply Z.pow_le_mono_r; lia).
    rewrite Z.mul_comm. apply Z.mul_le_mono_nonneg_l; lia.
Qed.

(** Rounded to two decimals it is at most 60 hundredths. *)
Lemma hundredths_le m e :
  e <= -53 -> Zpos m <= 5404319552844595 * 2 ^ (-53 - e) ->
  let '(n, d) := Float.fraction m e in
  0 <= Float.round_half_even (n * 10 ^ 2) d <= 60.
Proof.
  intros He Hm. destruct e as [|p|k]; try lia. unfold Float.fraction.
  pose proof (pow2_pos (Zpos k) ltac:(lia)) as Hp.
  change (10 ^ 2) with 100. split.
  - apply round_half_even_nonneg; lia.
  - apply round_half_even_le; [exact Hp|].
    replace (Zpos k) with (53 + (-53 - Zneg k)) by lia.
    rewrite Z.pow_add_r by lia. change (2 ^ 53) with 9007199254740992.
    pose proof (pow2_pos (-53 - Zneg k) ltac:(lia)).
    set (U := 2 ^ (-53 - Zneg k)) in *. lia.
Qed.

(** Up to 59 hundredths, read back as a float, are at most 0.6. *)
Lemma hundredth_float k :
  Zpos k <= 59 ->
  match Float.nearest false k 100 with
  | S754_zero s' => s' = false
  | S754_finite s' m e' =>
      s' = false /\ e' <= -53 /\ Zpos m <= 5404319552844595 * 2 ^ (-53 - e')
      /\ Zpos (digits2_pos m) = 53
  | _ => False
  end.
Proof.
  intros Hk.
  assert (Hdk : Zpos (digits2_pos k) <= 6).
  { change (Zpos (digits2_pos k)) with (Zdigits2 (Zpos k)).
    apply Zdigits2_le; [lia| |lia]. change (2 ^ 6) with 64. lia. }
  assert (He : -59 <= div_exponent k 0 100 0 <= -54).
  { unfold div_exponent. rewrite fexp64_eq. change (Zpos (digits2_pos 100)) with 7. lia. }
  pose proof (nearest_shape false k 100) as Hsh.
  pose proof (nearest_le false k 100 5404319552844595 (-53) eq_refl) as Hub.
  cbv zeta in Hub. set (e' := div_exponent k 0 100 0) in *.
  assert (Hle : Zpos k * 2 ^ (- e') <= 100 * (5404319552844595 * 2 ^ (-53 - e'))).
  { replace (- e') with (53 + (-53 - e')) by lia.
    rewrite Z.pow_add_r by lia. change (2 ^ 53) with 9007199254740992.
    pose proof (pow2_pos (-53 - e') ltac:(lia)).
    set (U := 2 ^ (-53 - e')) in *. nia. }
  specialize (Hub ltac:(lia) Hle).
  destruct (Float.nearest false k 100) as [s|s| |s m e]; try contradiction.
  - exact Hub.
  - destruct Hub as [-> [Hee Hm]]. destruct Hsh as [_ [Hb Hlow]].
    repeat split; try assumption.
    destruct (bounded_canonical m e Hb) as [Hc _]. rewrite fexp64_eq in Hc. lia.
Qed.

(** At most 0.6, times 100, is at most 60. *)
Lemma seconds_le mh eh :
  eh <= -53 -> Zpos mh <= 5404319552844595 * 2 ^ (-53 - eh) ->
  Zpos (digits2_pos mh) = 53 ->
  match Float.mul (S754_finite false mh eh) (Float.of_Z 100) with
  | S754_zero s' => s' = false
  | S754_finite s' m e' =>
      s' = false /\ e' <= -47 /\ Zpos m <= 8444249301319680 * 2 ^ (-47 - e')
  | _ => False
  end.
Proof.
  intros He Hm Hd. rewrite float_100_eq. apply mul_le; [reflexivity| |lia|].
  - change (Zpos (digits2_pos 7036874417766400)) with 53. lia.
  - replace (-47 - (eh + -46)) with (52 + (-53 - eh)) by lia.
    rewrite Z.pow_add_r by lia. change (2 ^ 52) with 4503599627370496.
    pose proof (pow2_pos (-53 - eh) ltac:(lia)).
    set (U := 2 ^ (-53 - eh)) in *. nia.
Qed.

Lemma to_int_le m e :
  e <= -47 -> Zpos m <= 8444249301319680 * 2 ^ (-47 - e) ->
  exists sec, Float.to_int (S754_finite false m e) = Ok sec /\ 0 <= sec <= 60.
Proof.
  intros He Hm. exists (whole m e). split; [apply to_int_whole|].
  destruct e as [|p|k]; try lia. rewrite whole_neg.
  pose proof (pow2_pos (Zpos k) ltac:(lia)) as Hp. split.
  - apply Z.div_pos; lia.
  - apply Z.div_le_upper_bound; [exact Hp|].
    replace (Zpos k) with (47 + (-47 - Zneg k)) by lia.
    rewrite Z.pow_add_r by lia. change (2 ^ 47) with 140737488355328.
    pose proof (pow2_pos (-47 - Zneg k) ltac:(lia)).
    set (U := 2 ^ (-47 - Zneg k)) in *. lia.
Qed.

(** The fractional part of a pace: zero, or a positive number below one. *)
Definition fraction_range (x : spec_float) : Prop :=
  match x with
  | S754_zero _ => True
  | S754_finite s m e => s = false /\ bounded Float.prec Float.emax m e = true /\ e <= -53
  | _ => False
  end.

Lemma fmod_one_range raw :
  finite_nonneg raw = true -> fraction_range (Float.fmod raw float_one).
Proof.
  destruct raw as [s|s| |s m e]; try discriminate.
  - intros _. rewrite float_one_eq. exact I.
  - destruct s; [discriminate|]. intros Hb. simpl in Hb.
    destruct (fmod_one m e Hb) as [[-> _]|(mr & er & -> & Hbr & _ & _ & Her & _)].
    + exact I.
    + repeat split; assumption.
Qed.

(** The seconds of the two-step rounding are from 0 to 60. *)
Lemma seconds_range fractional :
  fraction_range fractional ->
  exists sec,
    Float.to_int (Float.mul (Float.round (Float.mul fractional lit_0_6) 2) (Float.of_Z 100))
    = Ok sec
    /\ 0 <= sec <= 60.
Proof.
  destruct fractional as [s|s| |s mr er]; try contradiction.
  - intros _. exists 0. split; [|lia]. destruct s; vm_compute; reflexivity.
  - intros [-> [Hb He]].
    pose proof (scaled_fraction mr er Hb He) as H1.
    destruct (Float.mul (S754_finite false mr er) lit_0_6) as [s1|s1| |s1 m1 e1];
      try contradiction.
    { subst. exists 0. split; [|lia]. vm_compute. reflexivity. }
    destruct H1 as [-> [He1 Hm1]].
    pose proof (hundredths_le m1 e1 He1 Hm1) as H2.
    unfold Float.round. destruct (Float.fraction m1 e1) as [n d].
    destruct (Float.round_half_even (n * 10 ^ 2) d) as [|k|k]; try lia.
    { exists 0. split; [|lia]. vm_compute. reflexivity. }
    change (Z.to_pos (10 ^ 2)) with 100%positive.
    destruct (Z.eq_dec (Zpos k) 60) as [E|E].
    { injection E as ->. exists 60. split; [|lia]. vm_compute. reflexivity. }
    pose proof (hundredth_float k ltac:(lia)) as H3.
    destruct (Float.nearest false k 100) as [s3|s3| |s3 mh eh]; try contradiction.
    { subst. exists 0. split; [|lia]. vm_compute. reflexivity. }
    destruct H3 as [-> [Heh [Hmh Hdh]]].
    pose proof (seconds_le mh eh Heh Hmh Hdh) as H4.
    destruct (Float.mul (S754_finite false mh eh) (Float.of_Z 100)) as [s4|s4| |s4 m4 e4];
      try contradiction.
    { exists 0. split; [reflexivity|lia]. }
    destruct H4 as [-> [He4 Hm4]]. now apply to_int_le.
Qed.

Lemma format_02d_length sec :
  0 <= sec <= 60 -> String.length (Text.format_02d sec) = 2%nat.
Proof.
  intros H. rewrite <- (Z2Nat.id sec) by lia.
  assert (Hn : (Z.to_nat sec <= 60)%nat) by lia.
  destruct (Z.to_nat sec) as [|n]; [reflexivity|].
  do 60 (destruct n as [|n]; [vm_compute; reflexivity|]). lia.
Qed.

Lemma whole_ge_0 m e : 0 <= whole m e.
Proof.
  destruct e as [|p|k].
  - rewrite whole_nonneg by lia. lia.
  - rewrite whole_nonneg by lia. pose proof (pow2_pos (Zpos p)). lia.
  - rewrite whole_neg. apply Z.div_pos; [lia|]. apply pow2_pos. lia.
Qed.

(** The two-step rounding of a non-negative finite raw pace is defined: the
    minutes are its integer part, the seconds are from 0 to 60. *)
Lemma two_step_pace_defined raw :
  finite_nonneg raw = true ->
  exists minutes sec,
    two_step_pace raw = Ok (Text.of_Z minutes +:+ ":" +:+ Text.format_02d sec)
    /\ Float.to_int raw = Ok minutes
    /\ 0 <= minutes /\ 0 <= sec <= 60.
Proof.
  intros H. destruct (seconds_range _ (fmod_one_range raw H)) as [sec [Hs Hr]].
  assert (Hm : exists minutes, Float.to_int raw = Ok minutes /\ 0 <= minutes).
  { destruct raw as [s|s| |s m e]; try discriminate.
    - exists 0. split; [reflexivity|lia].
    - destruct s; [discriminate|]. exists (whole m e).
      split; [apply to_int_whole|apply whole_ge_0]. }
  destruct Hm as [minutes [Hm Hm0]]. exists minutes, sec.
  unfold two_step_pace. rewrite Hm. cbn [rbind]. rewrite Hs. cbn [rbind]. auto.
Qed.

(** C4: for every activity with a positive displayed distance and a moving
    time from 0 to 2^63 - 1 seconds, the pace field is the two-step rounding
    of the raw pace (the minutes of the moving time over the displayed
    kilometres): its integer part is the minutes, and its fractional part,
    times 0.6, rounded to two decimals, times 100 and truncated, is the
    seconds field, a number from 0 to 60 written with two digits. 5 km in
    1500 s give "5:00". *)
Theorem pace_two_step_rounding :
  (forall activity km moving_time,
      activity_distance_km activity = Ok km ->
      Float.ltb float_zero km = true ->
      getitem activity "moving_time" = Ok (VInt moving_time) ->
      0 <= moving_time < 2 ^ 63 ->
      exists activity_minutes,
        int_truediv moving_time 60 = Ok activity_minutes
        /\ let raw := Float.ieee_div activity_minutes km in
           pace_field activity = two_step_pace raw
           /\ exists minutes sec,
                two_step_pace raw
                = Ok (Text.of_Z minutes +:+ ":" +:+ Text.format_02d sec)
                /\ Float.to_int raw = Ok minutes
                /\ 0 <= sec <= 60
                /\ String.length (Text.format_02d sec) = 2%nat)
  /\ pace_field (VDict [("distance", VInt 5000); ("moving_time", VInt 1500)])
     = Ok "5:00".
Proof.
  split; [|vm_compute; reflexivity].
  intros activity km moving_time Hkm Hpos Hmt Hrange.
  destruct (minutes_shape moving_time Hrange) as [activity_minutes [Hmin Hsh]].
  exists activity_minutes. split; [exact Hmin|]. cbv zeta.
  assert (Hraw : finite_nonneg (Float.ieee_div activity_minutes km) = true).
  { apply raw_pace_finite; [exact Hsh|].
    unfold activity_distance_km in Hkm.
    destruct (getitem activity "distance") as [d|]; [|discriminate]. cbn [rbind] in Hkm.
    destruct (truediv d (VInt 1000)) as [q|]; [|discriminate]. cbn [rbind] in Hkm.
    injection Hkm as <-.
    pose proof (displayed_positive q Hpos) as H. unfold distance_range.
    destruct (Float.round q 2); auto. }
  split.
  - unfold pace_field. rewrite Hkm. cbn [rbind].
    unfold activity_pace, raw_pace. rewrite Hmt. cbn [rbind truediv as_number].
    rewrite Hmin. cbn [rbind]. unfold float_truediv.
    assert (Hnz : Float.is_zero km = false) by (destruct km; [discriminate|reflexivity..]).
    rewrite Hnz. cbn [rbind]. now apply pace_of_two_step.
  - destruct (two_step_pace_defined _ Hraw) as (minutes & sec & Hp & Hm & _ & Hs).
    exists minutes, sec. repeat split; try assumption; try lia.
    now apply format_02d_length.
Qed.

Lemma pace_two_step_rounding_witness :
  exists activity_minutes,
    int_truediv 2970 60 = Ok activity_minutes
    /\ let raw := Float.ieee_div activity_minutes (Float.of_Z 10) in
       pace_field (VDict [("distance", VInt 10000); ("moving_time", VInt 2970)])
       = two_step_pace raw
       /\ exists minutes sec,
            two_step_pace raw
            = Ok (Text.of_Z minutes +:+ ":" +:+ Text.format_02d sec)
            /\ Float.to_int raw = Ok minutes
            /\ 0 <= sec <= 60
            /\ String.length (Text.format_02d sec) = 2%nat.
Proof.
  apply (proj1 pace_two_step_rounding
           (VDict [("distance", VInt 10000); ("moving_time", VInt 2970)])
           (Float.of_Z 10) 2970).
  - vm_compute. reflexivity.
  - vm_compute. reflexivity.
  - reflexivity.
  - split; [lia|reflexivity].
Defined.

(** The two-step rounding is not the clean conversion: 10 km in 2970 s are
    4 min 57 s per kilometre and display as "4:56", and 10 km in 3599 s
    display as "5:60". *)
Example pace_not_clean_conversion :
  pace_field (VDict [("distance", VInt 10000); ("moving_time", VInt 2970)]) = Ok "4:56"
  /\ pace_field (VDict [("distance", VInt 10000); ("moving_time", VInt 3599)]) = Ok "5:60".
Proof. split; vm_compute; reflexivity. Qed.

(** * The SNS entry point ([post_event]) *)

(** [post_event] indexes a list, which can raise [IndexError]; no other
    handler does, so its outcomes are the results above and that exception. *)
Inductive outcome (A : Type) :=
| Returned (a : A)
| Raised (e : exn)
| RaisedIndexError.
Arguments Returned {A} a.
Arguments Raised {A} e.
Arguments RaisedIndexError {A}.

Definition Handler (A : Type) : Type := state -> outcome A * state.

Definition finish {A} (a : A) : Handler A := fun s => (Returned a, s).

Definition run {A} (c : M A) : Handler A :=
  fun s => match c s with
           | (Ok a, s') => (Returned a, s')
           | (Raise e, s') => (Raised e, s')
           end.

Definition and_then {A B} (c : Handler A) (k : A -> Handler B) : Handler B :=
  fun s => match c s with
           | (Returned a, s') => k a s'
           | (Raised e, s') => (Raised e, s')
           | (RaisedIndexError, s') => (RaisedIndexError, s')
           end.

Notation "'let+' x ':=' c 'in' k" := (and_then c (fun x => k))
  (at level 10, x pattern, c at level 100, k at level 200) : py_scope.

(** [try: c except KeyError: handler] *)
Definition except_key_error {A} (c handler : Handler A) : Handler A :=
  fun s => match c s with
           | (Raised KeyError, s') => handler s'
           | r => r
           end.

(** [len(v)]; the keys of a dict count once. *)
Definition len (v : pyval) : result Z :=
  match v with
  | VStr s => Ok (Z.of_nat (String.length s))
  | VList l => Ok (Z.of_nat (List.length l))
  | VDict d => Ok (Z.of_nat (List.length (nodup string_dec (map fst d))))
  | _ => Raise TypeError
  end.

(** [v[0]]: the keys of a dict are strings, so [0] is never among them. *)
Definition first_item (v : pyval) : outcome pyval :=
  match v with
  | VList (x :: _) => Returned x
  | VList [] => RaisedIndexError
  | VStr (String c _) => Returned (VStr (String c ""))
  | VStr EmptyString => RaisedIndexError
  | VDict _ => Raised KeyError
  | _ => Raised TypeError
  end.

Section Entry.

Variable w : World.

(** The fallback of [post_event]: [post_message(json.loads(event["body"]))]. *)
Definition basic_http (event : pyval) : Handler unit :=
  let+ raw := run (lift (getitem event "body")) in
  let+ body := run (lift (loads w raw)) in
  let+ _ := run (post_message w body) in
  finish tt.

(** [post_event(event)] *)
Definition post_event (event : pyval) : Handler reply :=
  let+ _ :=
    except_key_error
      (let+ records := run (lift (getitem event "Records")) in
       let+ n := run (lift (len records)) in
       let+ _ := finish (1 <? n) in   (* more than one record: a warning is logged *)
       let+ records := run (lift (getitem event "Records")) in
       let+ record := (fun s => (first_item records, s)) in
       let+ sns := run (lift (getitem record "Sns")) in
       let+ message := run (lift (getitem sns "Message")) in
       let+ body := run (lift (loads w message)) in
       let+ _ := run (post_message w body) in
       finish tt)
      (basic_http event) in
  finish {| statusCode := 200; body := "" |}.

End Entry.

(** The reply of [post_event]. *)
Definition processed : reply := {| statusCode := 200; body := "" |}.

(** An SNS event: the records, each wrapping a message text. *)
Definition sns_record (message : string) : pyval :=
  VDict [("EventSource", VStr "aws:sns"); ("Sns", VDict [("Message", VStr message)])].

Definition sns_event (messages : list string) : pyval :=
  VDict [("Records", VList (map sns_record messages))].

(** ** Properties of [post_event] *)

(** Once the first record is unwrapped and parsed, [post_event] is the
    processing of that payload: a [KeyError] it raises is caught and sends
    the event through the fallback. *)
Lemma post_event_unwrapped w event record rest sns raw payload s :
  getitem event "Records" = Ok (VList (record :: rest)) ->
  getitem record "Sns" = Ok sns ->
  getitem sns "Message" = Ok (VStr raw) ->
  json_loads w raw = Ok payload ->
  post_event w event s
  = match post_message w payload s with
    | (Ok _, s') => (Returned processed, s')
    | (Raise KeyError, s') =>
        (let+ _ := basic_http w event in finish processed) s'
    | (Raise e, s') => (Raised e, s')
    end.
Proof.
  intros Hrecords Hsns Hmessage Hloads.
  unfold post_event, except_key_error, and_then at 1 2 3 4 5 6 7 8 9 10.
  unfold run at 1 2 3 4 5 6 7, lift, finish at 1 2.
  rewrite Hrecords. simpl len. cbv iota beta. simpl first_item. cbv iota beta.
  rewrite Hsns, Hmessage. simpl loads. rewrite Hloads.
  unfold run. destruct (post_message w payload s) as [[n|e] s']; [reflexivity|].
  destruct e; reflexivity.
Qed.

(** Of an SNS event only the first record is processed: the reply and the
    state are those of processing its message, whatever records follow. *)
Theorem post_event_first_record_only w event record rest sns raw payload n s s' :
  getitem event "Records" = Ok (VList (record :: rest)) ->
  getitem record "Sns" = Ok sns ->
  getitem sns "Message" = Ok (VStr raw) ->
  json_loads w raw = Ok payload ->
  post_message w payload s = (Ok n, s') ->
  post_event w event s = (Returned processed, s').
Proof.
  intros Hrecords Hsns Hmessage Hloads Hrun.
  rewrite (post_event_unwrapped w event record rest sns raw payload s
             Hrecords Hsns Hmessage Hloads), Hrun.
  reflexivity.
Qed.

Lemma post_event_first_record_only_witness :
  post_event (parsing activity_event (online 0))
    (sns_event [Text.json_dumps activity_event; Text.json_dumps athlete_event])
    one_athlete
  = (Returned processed,
     snd (post_message (parsing activity_event (online 0)) activity_event one_athlete)).
Proof.
  apply (post_event_first_record_only (parsing activity_event (online 0))
           (sns_event [Text.json_dumps activity_event; Text.json_dumps athlete_event])
           (sns_record (Text.json_dumps activity_event))
           [sns_record (Text.json_dumps athlete_event)]
           (VDict [("Message", VStr (Text.json_dumps activity_event))])
           (Text.json_dumps activity_event) activity_event 200 one_athlete);
    vm_compute; reflexivity.
Defined.

(** An event without [Records] is taken for a plain HTTP request: its
    [body] is parsed and processed, and what the processing raises is
    raised. *)
Theorem post_event_http_fallback w event raw payload s :
  getitem event "Records" = Raise KeyError ->
  getitem event "body" = Ok (VStr raw) ->
  json_loads w raw = Ok payload ->
  post_event w event s
  = match post_message w payload s with
    | (Ok _, s') => (Returned processed, s')
    | (Raise e, s') => (Raised e, s')
    end.
Proof.
  intros Hrecords Hbody Hloads.
  unfold post_event, except_key_error, and_then at 1 2, run at 1, lift.
  rewrite Hrecords. unfold basic_http, and_then, run, lift, finish.
  rewrite Hbody. simpl loads. rewrite Hloads.
  destruct (post_message w payload s) as [[n|e] s']; reflexivity.
Qed.

Lemma post_event_http_fallback_witness :
  post_event (parsing activity_event (online 0)) (http_event activity_event) one_athlete
  = match post_message (parsing activity_event (online 0)) activity_event one_athlete with
    | (Ok _, s') => (Returned processed, s')
    | (Raise e, s') => (Raised e, s')
    end.
Proof.
  apply (post_event_http_fallback (parsing activity_event (online 0))
           (http_event activity_event) (Text.json_dumps activity_event) activity_event
           one_athlete);
    vm_compute; reflexivity.
Defined.

(** An SNS event with an empty list of records raises [IndexError], which
    [except KeyError] does not catch; nothing is called or written. *)
Theorem post_event_no_records w event s :
  getitem event "Records" = Ok (VList []) ->
  post_event w event s = (RaisedIndexError, s).
Proof.
  intros Hrecords.
  unfold post_event, except_key_error, and_then, run, lift, finish.
  rewrite Hrecords. reflexivity.
Qed.

Lemma post_event_no_records_witness :
  post_event (offline 0) (sns_event []) empty_state = (RaisedIndexError, empty_state).
Proof. apply (post_event_no_records (offline 0) (sns_event []) empty_state). reflexivity. Defined.

(** A [KeyError] raised while the message is processed is taken for a
    failure to unwrap it: the fallback looks for [event["body"]], which an
    SNS event does not have, and [post_event] raises [KeyError] from the
    state the processing left. *)
Theorem post_event_key_error_in_processing w event record rest sns raw payload s s' :
  getitem event "Records" = Ok (VList (record :: rest)) ->
  getitem record "Sns" = Ok sns ->
  getitem sns "Message" = Ok (VStr raw) ->
  json_loads w raw = Ok payload ->
  getitem event "body" = Raise KeyError ->
  post_message w payload s = (Raise KeyError, s') ->
  post_event w event s = (Raised KeyError, s').
Proof.
  intros Hrecords Hsns Hmessage Hloads Hbody Hrun.
  rewrite (post_event_unwrapped w event record rest sns raw payload s
             Hrecords Hsns Hmessage Hloads), Hrun.
  unfold basic_http, and_then, run, lift. rewrite Hbody. reflexivity.
Qed.

(** For instance when the athlete has no stored credential. *)
Lemma post_event_key_error_in_processing_witness :
  post_event (parsing activity_event (online 0))
    (sns_event [Text.json_dumps activity_event]) empty_state
  = (Raised KeyError, with_calls empty_state [GetItem Users (VInt 134815)]).
Proof.
  apply (post_event_key_error_in_processing (parsing activity_event (online 0))
           (sns_event [Text.json_dumps activity_event])
           (sns_record (Text.json_dumps activity_event)) []
           (VDict [("Message", VStr (Text.json_dumps activity_event))])
           (Text.json_dumps activity_event) activity_event empty_state);
    vm_compute; reflexivity.
Defined.

(** * Further properties of the handlers *)

(** ** [subscribe] *)

(** A printable ASCII character other than the double quote and the
    backslash: [json.dumps] writes it as it is. *)
Definition plain_char (c : ascii) : bool :=
  let n := N_of_ascii c in
  (32 <=? n)%N && (n <=? 126)%N && negb (n =? 34)%N && negb (n =? 92)%N.

Fixpoint plain (s : string) : bool :=
  match s with
  | EmptyString => true
  | String c s' => plain_char c && plain s'
  end.

Lemma json_char_plain c : plain_char c = true -> Text.json_char c = Text.char c.
Proof.
  unfold plain_char, Text.json_char. cbv zeta. intros H.
  repeat (apply andb_true_iff in H as [H ?]).
  repeat match goal with
         | H : negb _ = true |- _ => apply negb_true_iff in H
         | H : (_ =? _)%N = false |- _ => apply N.eqb_neq in H
         | H : (_ <=? _)%N = true |- _ => apply N.leb_le in H
         end.
  repeat match goal with
         | |- context [(?a =? ?b)%N] => destruct (N.eqb_spec a b); [lia|]
         end.
  destruct (N.ltb_spec (N_of_ascii c) 32); [lia|].
  destruct (N.ltb_spec 126 (N_of_ascii c)); [lia|]. reflexivity.
Qed.

Lemma json_string_plain s :
  plain s = true -> Text.json_string s = Text.dquote +:+ s +:+ Text.dquote.
Proof.
  intros H. unfold Text.json_string. do 2 f_equal.
  induction s as [|c s IH]; [reflexivity|].
  simpl in H. apply andb_true_iff in H as [Hc Hs].
  cbn [Text.flat_map_string]. rewrite (json_char_plain c Hc), (IH Hs). reflexivity.
Qed.

Lemma append_assoc (a b c : string) : (a +:+ b) +:+ c = a +:+ (b +:+ c).
Proof.
  induction a as [|x a IH]; [reflexivity|].
  change (String x ((a +:+ b) +:+ c) = String x (a +:+ (b +:+ c))). now rewrite IH.
Qed.

(** A challenge of printable ASCII characters without quote or backslash
    is echoed character for character: the reply is 200 with the body
    [{"hub.challenge": "<challenge>"}]. *)
Theorem subscribe_echoes_plain_challenge event params challenge :
  getitem event "queryStringParameters" = Ok params ->
  getitem params "hub.challenge" = Ok (VStr challenge) ->
  plain challenge = true ->
  subscribe event
  = Ok {| statusCode := 200;
          body := "{" +:+ Text.dquote +:+ "hub.challenge" +:+ Text.dquote +:+ ": "
                      +:+ Text.dquote +:+ challenge +:+ Text.dquote +:+ "}" |}.
Proof.
  intros Hparams Hchallenge Hplain. unfold subscribe.
  rewrite Hparams. cbn [rbind]. rewrite Hchallenge.
  do 2 f_equal. cbn [Text.json_dumps].
  rewrite (json_string_plain challenge Hplain).
  change (Text.json_string "hub.challenge")
    with (Text.dquote +:+ "hub.challenge" +:+ Text.dquote).
  rewrite !append_assoc. reflexivity.
Qed.

Lemma subscribe_echoes_plain_challenge_witness :
  subscribe (VDict [("queryStringParameters",
                     VDict [("hub.mode", VStr "subscribe");
                            ("hub.challenge", VStr "15f7d1a91c1f40f8a748fd134752feb3");
                            ("hub.verify_token", VStr "STRAVA")])])
  = Ok {| statusCode := 200;
          body := "{" +:+ Text.dquote +:+ "hub.challenge" +:+ Text.dquote +:+ ": "
                      +:+ Text.dquote +:+ "15f7d1a91c1f40f8a748fd134752feb3"
                      +:+ Text.dquote +:+ "}" |}.
Proof.
  apply (subscribe_echoes_plain_challenge _
           (VDict [("hub.mode", VStr "subscribe");
                   ("hub.challenge", VStr "15f7d1a91c1f40f8a748fd134752feb3");
                   ("hub.verify_token", VStr "STRAVA")]));
    reflexivity.
Defined.

Definition is_mapping (v : pyval) : bool :=
  match v with VDict _ => true | _ => false end.

(** [subscribe] replies 200 or 400 or raises [TypeError], nothing else; it
    raises exactly when the event, or the [queryStringParameters] it
    carries, is not a mapping, and replies 400 exactly when a key is
    missing. *)
Theorem subscribe_outcomes event :
  match subscribe event with
  | Ok r =>
      (statusCode r = 200
       /\ exists params challenge,
            getitem event "queryStringParameters" = Ok params
            /\ getitem params "hub.challenge" = Ok challenge)
      \/ (r = {| statusCode := 400; body := "Invalid request" |}
          /\ is_mapping event = true
          /\ forall params, getitem event "queryStringParameters" = Ok params ->
                            is_mapping params = true
                            /\ getitem params "hub.challenge" = Raise KeyError)
  | Raise e =>
      e = TypeError
      /\ (is_mapping event = false
          \/ exists params, getitem event "queryStringParameters" = Ok params
                            /\ is_mapping params = false)
  end.
Proof.
  unfold subscribe.
  destruct event as [| | | | | |d]; try (split; [reflexivity|left; reflexivity]).
  simpl getitem at 1. destruct (dict_get d "queryStringParameters") as [params|] eqn:E.
  - cbn [rbind].
    destruct params as [| | | | | |p];
      try (split; [reflexivity|right; eexists; split; [simpl; rewrite E|]; reflexivity]).
    simpl getitem at 1. destruct (dict_get p "hub.challenge") as [challenge|] eqn:E'.
    + left. split; [reflexivity|]. exists (VDict p), challenge.
      simpl. rewrite E, E'. auto.
    + right. split; [reflexivity|]. split; [reflexivity|].
      intros params Hp. simpl in Hp. rewrite E in Hp. injection Hp as <-.
      simpl. rewrite E'. auto.
  - cbn [rbind]. right. split; [reflexivity|]. split; [reflexivity|].
    intros params Hp. simpl in Hp. rewrite E in Hp. discriminate.
Qed.

(** ** [receive_event] *)

(** Whatever the request and whatever the services answer, [receive_event]
    writes no table and makes at most one call, a publish. *)
Theorem receive_event_at_most_one_publish w event s :
  let s' := snd (receive_event w event s) in
  users s' = users s /\ messages s' = messages s
  /\ (calls s' = calls s \/ exists message, calls s' = calls s ++ [SnsPublish message]).
Proof.
  cbv zeta. unfold receive_event.
  destruct (getitem event "body") as [raw|e] eqn:Hraw;
    [rewrite (bind_lift_ok _ raw) by reflexivity|rewrite (bind_lift_raise _ e) by reflexivity; simpl; auto].
  destruct (loads w raw) as [payload|e] eqn:Hload;
    [rewrite (bind_lift_ok _ payload) by reflexivity|rewrite (bind_lift_raise _ e) by reflexivity; simpl; auto].
  destruct (getitem payload "object_type") as [type|e] eqn:Htype;
    [rewrite (bind_lift_ok _ type) by reflexivity|rewrite (bind_lift_raise _ e) by reflexivity; simpl; auto].
  destruct (eq_str type "activity"); [|simpl; auto].
  unfold try_except, bind, emit, lift, ret. cbv beta.
  destruct (sns_publish w (Text.json_dumps payload)) as [[]|e].
  - simpl. split; [reflexivity|]. split; [reflexivity|]. right. eauto.
  - destruct (exn_eqb e ClientError); simpl;
      (split; [reflexivity|]; split; [reflexivity|]; right; eauto).
Qed.

(** A request that is unusable (no [body], a body that is not a string or
    does not parse, a payload that is not an object or has no
    [object_type]) raises what the failing step raises and publishes
    nothing. *)
Theorem receive_event_unusable_request w event e s :
  (let? raw := getitem event "body" in
   let? payload := loads w raw in
   getitem payload "object_type") = Raise e ->
  receive_event w event s = (Raise e, s).
Proof.
  intros H. unfold receive_event.
  destruct (getitem event "body") as [raw|e1] eqn:Hraw;
    [rewrite (bind_lift_ok _ raw) by reflexivity
    |rewrite (bind_lift_raise _ e1) by reflexivity; injection H as <-; reflexivity].
  cbn [rbind] in H.
  destruct (loads w raw) as [payload|e2] eqn:Hload;
    [rewrite (bind_lift_ok _ payload) by reflexivity
    |rewrite (bind_lift_raise _ e2) by reflexivity; injection H as <-; reflexivity].
  cbn [rbind] in H. now rewrite (bind_lift_raise _ _ _ _ H).
Qed.

(** For instance the request API Gateway passes on for an empty POST, whose
    [body] is [null]. *)
Lemma receive_event_unusable_request_witness :
  receive_event (offline 0) (VDict [("body", VNone)]) empty_state
  = (Raise TypeError, empty_state).
Proof.
  apply (receive_event_unusable_request (offline 0) (VDict [("body", VNone)]) TypeError).
  reflexivity.
Defined.

(** ** [get_token_for_athlete] *)

(** An athlete without a stored credential: the lookup answers without an
    ["Item"], [result["Item"]] raises [KeyError], and nothing else is called
    or written. *)
Theorem get_token_for_unknown_athlete w id k s :
  key_of id = Ok k ->
  users s !! k = None ->
  get_token_for_athlete w id s = (Raise KeyError, with_calls s [GetItem Users id]).
Proof.
  intros Hk Hnone. unfold get_token_for_athlete, bind at 1.
  rewrite (get_item_run _ _ _ _ Hk). unfold table_of. rewrite Hnone. reflexivity.
Qed.

Lemma get_token_for_unknown_athlete_witness :
  get_token_for_athlete (offline 0) (VInt 134815) empty_state
  = (Raise KeyError, with_calls empty_state [GetItem Users (VInt 134815)]).
Proof.
  apply (get_token_for_unknown_athlete (offline 0) (VInt 134815) 134815); reflexivity.
Defined.

(** A 200 answer of the refresh endpoint whose body cannot be read, or lacks
    one of [access_token], [refresh_token] and [expires_at]: the resolver
    raises and the stored credential stays as it was, nothing is written. *)
Theorem incomplete_refresh_answer_writes_nothing
    w id k s (credential : item) expires_at refresh response e :
  key_of id = Ok k ->
  users s !! k = Some credential ->
  dict_get credential "expires_at" = Some (VInt expires_at) ->
  datetime_min <= expires_at <= datetime_max ->
  dict_get credential "refresh_token" = Some refresh ->
  expires_at * 1000000 < now w ->
  oauth_token w refresh = Ok response ->
  status_code response = 200 ->
  (let? answer := json response in
   let? _ := getitem answer "access_token" in
   let? _ := getitem answer "refresh_token" in
   getitem answer "expires_at") = Raise e ->
  get_token_for_athlete w id s
  = (Raise e, with_calls s [GetItem Users id; OauthToken refresh]).
Proof.
  intros Hk Hst Hexp Hrange Href Hpast Hans Hstatus Hbad.
  rewrite (get_token_for_athlete_expired w id k s credential expires_at
             Hk Hst Hexp Hrange refresh Hpast Href).
  rewrite (bind_lift_ok _ _ _ _ Hans), Hstatus.
  change (negb (200 =? 200)) with false. cbv iota.
  destruct (json response) as [answer|e0] eqn:Hjson;
    [rewrite (bind_lift_ok _ answer) by reflexivity
    |rewrite (bind_lift_raise _ e0) by reflexivity; injection Hbad as <-; reflexivity].
  cbn [rbind] in Hbad.
  destruct (getitem answer "access_token") as [a|e1] eqn:Ha;
    [rewrite (bind_lift_ok _ a) by reflexivity
    |rewrite (bind_lift_raise _ e1) by reflexivity; injection Hbad as <-; reflexivity].
  cbn [rbind] in Hbad.
  destruct (getitem answer "refresh_token") as [r|e2] eqn:Hr;
    [rewrite (bind_lift_ok _ r) by reflexivity
    |rewrite (bind_lift_raise _ e2) by reflexivity; injection Hbad as <-; reflexivity].
  cbn [rbind] in Hbad. now rewrite (bind_lift_raise _ _ _ _ Hbad).
Qed.

Lemma incomplete_refresh_answer_writes_nothing_witness :
  get_token_for_athlete
    (answering 200 (VDict [("access_token", VStr "access-2")]) (offline 1700000000000001))
    (VInt 134815) one_athlete
  = (Raise KeyError,
     with_calls one_athlete [GetItem Users (VInt 134815); OauthToken (VStr "refresh-1")]).
Proof.
  assert (Hrange : datetime_min <= 1700000000 <= datetime_max)
    by (unfold datetime_min, datetime_max; lia).
  apply (incomplete_refresh_answer_writes_nothing
           (answering 200 (VDict [("access_token", VStr "access-2")])
              (offline 1700000000000001))
           (VInt 134815) 134815 one_athlete stored_credential 1700000000 (VStr "refresh-1")
           {| status_code := 200; json := Ok (VDict [("access_token", VStr "access-2")]) |}
           KeyError eq_refl eq_refl eq_refl Hrange eq_refl);
    reflexivity.
Defined.

(** After a refresh the credential is served from the table: resolving the
    same athlete again, with the clock not past the new expiry, returns the
    new access token with a lookup and no call to the refresh endpoint. *)
Theorem refreshed_credential_is_reused
    w id k s (credential : item) expires_at refresh response answer
    access' refresh' expires' :
  key_of id = Ok k ->
  users s !! k = Some credential ->
  dict_get credential "id" = Some (VInt k) ->
  dict_get credential "expires_at" = Some (VInt expires_at) ->
  datetime_min <= expires_at <= datetime_max ->
  dict_get credential "refresh_token" = Some refresh ->
  expires_at * 1000000 < now w ->
  oauth_token w refresh = Ok response ->
  status_code response = 200 ->
  json response = Ok answer ->
  getitem answer "access_token" = Ok access' ->
  getitem answer "refresh_token" = Ok refresh' ->
  getitem answer "expires_at" = Ok (VInt expires') ->
  datetime_min <= expires' <= datetime_max ->
  now w <= expires' * 1000000 ->
  let s1 := snd (get_token_for_athlete w id s) in
  get_token_for_athlete w id s1 = (Ok access', with_calls s1 [GetItem Users id]).
Proof.
  intros Hk Hst Hid Hexp Hrange Href Hpast Hans Hstatus Hjson Ha Hr He Hrange' Hnow.
  rewrite (get_token_for_athlete_refreshed w id k s credential expires_at
             Hk Hst Hexp Hrange refresh Hpast Href response answer access' refresh'
             (VInt expires') Hid Hans Hstatus Hjson Ha Hr He).
  cbv zeta. cbn [snd].
  apply (get_token_for_athlete_fresh w id k _
           (refreshed credential access' refresh' (VInt expires')) expires' Hk).
  - simpl. apply lookup_insert_eq.
  - unfold refreshed. apply dict_get_set_eq.
  - exact Hrange'.
  - exact Hnow.
  - unfold refreshed. rewrite !dict_get_set_ne by discriminate. apply dict_get_set_eq.
Qed.

Lemma refreshed_credential_is_reused_witness :
  get_token_for_athlete (answering 200 token_answer (offline 1700000000000001))
    (VInt 134815)
    (snd (get_token_for_athlete (answering 200 token_answer (offline 1700000000000001))
            (VInt 134815) one_athlete))
  = (Ok (VStr "access-2"),
     with_calls
       (snd (get_token_for_athlete (answering 200 token_answer (offline 1700000000000001))
               (VInt 134815) one_athlete))
       [GetItem Users (VInt 134815)]).
Proof.
  assert (Hrange : datetime_min <= 1700000000 <= datetime_max)
    by (unfold datetime_min, datetime_max; lia).
  assert (Hrange' : datetime_min <= 1700021600 <= datetime_max)
    by (unfold datetime_min, datetime_max; lia).
  apply (refreshed_credential_is_reused
           (answering 200 token_answer (offline 1700000000000001))
           (VInt 134815) 134815 one_athlete stored_credential 1700000000 (VStr "refresh-1")
           {| status_code := 200; json := Ok token_answer |} token_answer
           (VStr "access-2") (VStr "refresh-2") 1700021600
           eq_refl eq_refl eq_refl eq_refl Hrange eq_refl);
    try reflexivity; try exact Hrange'; simpl; lia.
Defined.

(** ** [post_webhook] and [update_or_repost_webhook] *)

(** When Discord refuses the message nothing is recorded: the exception of
    the send is raised before the table is touched. *)
Theorem failed_send_records_nothing w activity_id embed e s :
  webhook_send w embed = Raise e ->
  post_webhook w (Positional2 activity_id embed) s
  = (Raise e, with_calls s [WebhookSend embed]).
Proof.
  intros Hsend. unfold post_webhook, post_webhook_body.
  rewrite bind_emit. now rewrite (bind_lift_raise _ _ _ _ Hsend).
Qed.

Lemma failed_send_records_nothing_witness :
  post_webhook (offline 0) (Positional2 (VInt 1360128428) blank_embed) empty_state
  = (Raise HTTPException, with_calls empty_state [WebhookSend blank_embed]).
Proof.
  apply (failed_send_records_nothing (offline 0) (VInt 1360128428) blank_embed HTTPException).
  reflexivity.
Defined.

(** What [post_webhook] records is what [update_or_repost_webhook] finds:
    after a post that Discord answered with the message id [m] (not zero),
    an update of the same activity edits message [m], whatever the table
    held for the activity before. *)
Theorem update_after_post_edits_posted_message
    w activity_id k embed embed' message_id s :
  key_of activity_id = Ok k ->
  webhook_send w embed = Ok message_id ->
  message_id <> 0 ->
  let s1 := snd (post_webhook w (Positional2 activity_id embed) s) in
  update_or_repost_webhook w activity_id embed' s1
  = (webhook_edit w (VInt message_id) embed',
     with_calls s1 [GetItem Messages activity_id; WebhookEdit (VInt message_id) embed']).
Proof.
  intros Hk Hsend Hm. cbv zeta.
  rewrite (post_webhook_records w activity_id k embed message_id s Hk Hsend). cbn [snd].
  apply (update_with_record_edits w activity_id k
           [("activity_id", activity_id); ("message_id", VInt message_id)]
           (VInt message_id) embed' _ Hk).
  - simpl. apply lookup_insert_eq.
  - reflexivity.
  - simpl. now destruct (Z.eqb_spec message_id 0).
Qed.

Lemma update_after_post_edits_posted_message_witness :
  update_or_repost_webhook (online 0) (VInt 1360128428) morning_run_embed
    (snd (post_webhook (online 0) (Positional2 (VInt 1360128428) blank_embed) delivered))
  = (Ok tt,
     with_calls
       (snd (post_webhook (online 0) (Positional2 (VInt 1360128428) blank_embed) delivered))
       [GetItem Messages (VInt 1360128428); WebhookEdit (VInt 42) morning_run_embed]).
Proof.
  apply (update_after_post_edits_posted_message (online 0) (VInt 1360128428) 1360128428
           blank_embed morning_run_embed 42 delivered); [reflexivity|reflexivity|lia].
Defined.

(** Whatever the tables hold and the services answer,
    [update_or_repost_webhook] writes no table and sends no new message:
    it looks the record up and at most submits one edit. *)
Theorem update_never_posts_or_records w activity_id embed s :
  exists l,
    snd (update_or_repost_webhook w activity_id embed s) = with_calls s l
    /\ (l = [GetItem Messages activity_id]
        \/ exists message_id,
             l = [GetItem Messages activity_id; WebhookEdit message_id embed]).
Proof.
  unfold update_or_repost_webhook, get_item.
  rewrite !bind_bind, bind_emit.
  destruct (key_of activity_id) as [k|e] eqn:Hk;
    [rewrite bind_bind, (bind_lift_ok _ k) by reflexivity
    |rewrite bind_bind, (bind_lift_raise _ e) by reflexivity; eauto].
  unfold bind at 1, read. cbn [fst snd].
  set (message_id := default VNone (dict_get (default [] _) "message_id")).
  destruct (truthy message_id).
  - rewrite bind_emit, with_calls_app. unfold lift. cbn [snd]. eauto.
  - unfold post_webhook, raise. cbn [snd]. eauto.
Qed.

(** A record without a message id, or with one that counts as false, is no
    better than no record: the update falls into the broken repost and
    raises [TypeError] after the lookup. *)
Theorem update_with_unusable_record w activity_id k embed s :
  key_of activity_id = Ok k ->
  truthy (stored_message_id (messages s !! k)) = false ->
  update_or_repost_webhook w activity_id embed s
  = (Raise TypeError, with_calls s [GetItem Messages activity_id]).
Proof.
  intros Hk Hfalse. unfold update_or_repost_webhook, bind.
  rewrite (get_item_run _ _ _ _ Hk). unfold table_of.
  unfold stored_message_id in Hfalse. rewrite Hfalse. reflexivity.
Qed.

Lemma update_with_unusable_record_witness :
  update_or_repost_webhook (online 0) (VInt 1360128428) blank_embed
    {| users := ∅;
       messages := {[ 1360128428 := [("activity_id", VInt 1360128428)] ]};
       calls := [] |}
  = (Raise TypeError,
     with_calls {| users := ∅;
                   messages := {[ 1360128428 := [("activity_id", VInt 1360128428)] ]};
                   calls := [] |}
       [GetItem Messages (VInt 1360128428)]).
Proof.
  apply (update_with_unusable_record (online 0) (VInt 1360128428) 1360128428); reflexivity.
Defined.

(** ** [post_message] *)

(** A payload that lacks one of [object_type], [object_id], [aspect_type]
    and [owner_id] (or is not an object) is refused before anything is
    called: not even the credentials are looked up. *)
Theorem post_message_incomplete_payload w payload e s :
  (let? _ := getitem payload "object_type" in
   let? _ := getitem payload "object_id" in
   let? _ := getitem payload "aspect_type" in
   getitem payload "owner_id") = Raise e ->
  post_message w payload s = (Raise e, s).
Proof.
  intros H. unfold post_message.
  destruct (getitem payload "object_type") as [a|e1] eqn:H1;
    [rewrite (bind_lift_ok _ a) by reflexivity
    |rewrite (bind_lift_raise _ e1) by reflexivity; injection H as <-; reflexivity].
  cbn [rbind] in H.
  destruct (getitem payload "object_id") as [b|e2] eqn:H2;
    [rewrite (bind_lift_ok _ b) by reflexivity
    |rewrite (bind_lift_raise _ e2) by reflexivity; injection H as <-; reflexivity].
  cbn [rbind] in H.
  destruct (getitem payload "aspect_type") as [c|e3] eqn:H3;
    [rewrite (bind_lift_ok _ c) by reflexivity
    |rewrite (bind_lift_raise _ e3) by reflexivity; injection H as <-; reflexivity].
  cbn [rbind] in H. now rewrite (bind_lift_raise _ _ _ _ H).
Qed.

Lemma post_message_incomplete_payload_witness :
  post_message (online 0)
    (VDict [("aspect_type", VStr "create"); ("object_id", VInt 1360128428);
            ("object_type", VStr "activity")])
    one_athlete
  = (Raise KeyError, one_athlete).
Proof.
  apply (post_message_incomplete_payload (online 0)
           (VDict [("aspect_type", VStr "create"); ("object_id", VInt 1360128428);
                   ("object_type", VStr "activity")]) KeyError).
  reflexivity.
Defined.

(** The create path: once the credentials are resolved and the message is
    built, the message is sent once and its record [{activity_id,
    message_id}] is written under the activity id; the calls are the two
    fetches, the send and the write, and the reply is 200. *)
Theorem create_posts_and_records
    w payload object_id owner_id k s s1 access_token activity athlete embed message_id :
  getitem payload "object_type" = Ok (VStr "activity") ->
  getitem payload "object_id" = Ok object_id ->
  getitem payload "aspect_type" = Ok (VStr "create") ->
  getitem payload "owner_id" = Ok owner_id ->
  key_of object_id = Ok k ->
  get_token_for_athlete w owner_id s = (Ok access_token, s1) ->
  get_activity w object_id access_token = Ok activity ->
  get_athlete w access_token = Ok athlete ->
  build_embed w activity athlete = Ok embed ->
  webhook_send w embed = Ok message_id ->
  let record := [("activity_id", object_id); ("message_id", VInt message_id)] in
  post_message w payload s
  = (Ok 200,
     {| users := users s1;
        messages := <[k := record]> (messages s1);
        calls := calls s1 ++ [GetActivity object_id access_token; GetAthlete access_token;
                              WebhookSend embed; PutItem Messages record] |}).
Proof.
  intros Hty Hid Hasp Hown Hk Htoken Hactivity Hathlete Hembed Hsend record.
  rewrite (post_message_run w payload (VStr "activity") object_id (VStr "create")
             owner_id Hty Hid Hasp Hown).
  unfold bind at 1. rewrite Htoken. unfold deliver. simpl eq_str. cbv iota.
  unfold build_webhook_message.
  rewrite ?bind_bind, bind_emit.
  rewrite ?bind_bind, (bind_lift_ok _ _ _ _ Hactivity).
  rewrite ?bind_bind, bind_emit.
  rewrite ?bind_bind, (bind_lift_ok _ _ _ _ Hathlete).
  rewrite ?bind_bind, (bind_lift_ok _ _ _ _ Hembed).
  unfold bind at 1.
  rewrite (post_webhook_records w object_id k embed message_id _ Hk Hsend).
  unfold ret, with_calls. simpl. now rewrite <- !app_assoc.
Qed.

Lemma create_posts_and_records_witness :
  post_message (online 0) activity_event one_athlete
  = (Ok 200,
     {| users := users one_athlete;
        messages := <[1360128428 := [("activity_id", VInt 1360128428);
                                     ("message_id", VInt 42)]]> ∅;
        calls := [GetItem Users (VInt 134815);
                  GetActivity (VInt 1360128428) (VStr "access-1");
                  GetAthlete (VStr "access-1");
                  WebhookSend morning_run_embed;
                  PutItem Messages [("activity_id", VInt 1360128428);
                                    ("message_id", VInt 42)]] |}).
Proof.
  apply (create_posts_and_records (online 0) activity_event (VInt 1360128428) (VInt 134815)
           1360128428 one_athlete (with_calls one_athlete [GetItem Users (VInt 134815)])
           (VStr "access-1") (morning_run (VInt 5000) 1500) marianne morning_run_embed 42);
    reflexivity.
Defined.

(** When the message cannot be built (a fetch fails, or a record lacks
    what the message needs), nothing reaches the chat and no record is
    written: a create or update event ends with the exception, after the
    credential calls and at most the two fetches. *)
Theorem unbuilt_message_is_not_delivered
    w payload object_type object_id aspect_type owner_id s s1 s2 access_token e :
  getitem payload "object_type" = Ok object_type ->
  getitem payload "object_id" = Ok object_id ->
  getitem payload "aspect_type" = Ok aspect_type ->
  getitem payload "owner_id" = Ok owner_id ->
  produces_message object_type aspect_type = true ->
  get_token_for_athlete w owner_id s = (Ok access_token, s1) ->
  build_webhook_message w access_token object_id s1 = (Raise e, s2) ->
  post_message w payload s = (Raise e, s2)
  /\ users s2 = users s1 /\ messages s2 = messages s1
  /\ exists l, calls s2 = calls s1 ++ l /\ Forall fetch_call l.
Proof.
  intros Hty Hid Hasp Hown Hmsg Htoken Hbuild. split.
  - rewrite (post_message_run w payload object_type object_id aspect_type owner_id
               Hty Hid Hasp Hown).
    unfold bind at 1. rewrite Htoken. unfold deliver.
    unfold produces_message in Hmsg. apply andb_true_iff in Hmsg as [-> Hasp'].
    destruct (eq_str aspect_type "create").
    + unfold bind. rewrite Hbuild. reflexivity.
    + simpl in Hasp'. rewrite Hasp'. unfold bind. rewrite Hbuild. reflexivity.
  - pose proof (build_webhook_message_frame w access_token object_id s1) as [Hc [Hu Hm]].
    rewrite Hbuild in Hc, Hu, Hm. cbn [snd] in Hc, Hu, Hm.
    split; [apply Hu; intros []|]. split; [apply Hm; intros []|]. exact Hc.
Qed.

(** For instance when Strava is unreachable. *)
Lemma unbuilt_message_is_not_delivered_witness :
  post_message (offline 0) activity_event one_athlete
  = (Raise RequestException,
     with_calls one_athlete
       [GetItem Users (VInt 134815); GetActivity (VInt 1360128428) (VStr "access-1")]).
Proof.
  apply (unbuilt_message_is_not_delivered (offline 0) activity_event (VStr "activity")
           (VInt 1360128428) (VStr "create") (VInt 134815) one_athlete
           (with_calls one_athlete [GetItem Users (VInt 134815)])
           (with_calls one_athlete
              [GetItem Users (VInt 134815); GetActivity (VInt 1360128428) (VStr "access-1")])
           (VStr "access-1") RequestException);
    reflexivity.
Defined.

(** ** [build_webhook_message]: the message *)

(** The keys a message needs: every one is read whatever the activity type,
    so an activity or athlete record that lacks one (the error payload
    Strava answers to a bad token, say) yields no message. *)
Definition activity_keys : list string :=
  ["distance"; "moving_time"; "average_speed"; "total_elevation_gain";
   "type"; "name"; "id"; "start_date"].

Definition athlete_keys : list string :=
  ["firstname"; "lastname"; "id"; "profile_medium"].

(** Every step of a computation that returned has returned. *)
Ltac rbind_ok :=
  repeat match goal with
         | H : rbind ?c _ = Ok _ |- _ =>
             let E := fresh "E" in
             destruct c eqn:E; [cbn [rbind] in H|discriminate H]
         end.

Theorem build_embed_required_keys w activity athlete embed :
  build_embed w activity athlete = Ok embed ->
  Forall (fun key => exists v, getitem activity key = Ok v) activity_keys
  /\ Forall (fun key => exists v, getitem athlete key = Ok v) athlete_keys.
Proof.
  unfold build_embed, activity_distance_km, activity_moving_time, activity_speed_kmh.
  intros H. rbind_ok. split; repeat constructor; eauto.
Qed.

Lemma build_embed_required_keys_witness :
  Forall (fun key => exists v, getitem (morning_run (VInt 5000) 1500) key = Ok v) activity_keys
  /\ Forall (fun key => exists v, getitem marianne key = Ok v) athlete_keys.
Proof.
  apply (build_embed_required_keys (online 0) (morning_run (VInt 5000) 1500) marianne
           morning_run_embed).
  reflexivity.
Defined.

(** Every message has the same four inline fields in the same order:
    Distance, Moving Time, then Average Speed for a ride and Pace for any
    other type, then Elevation; and the Strava footer. *)
Theorem build_embed_fields w activity athlete embed :
  build_embed w activity athlete = Ok embed ->
  exists activity_type,
    getitem activity "type" = Ok activity_type
    /\ map field_name (fields embed)
       = ["Distance"; "Moving Time";
          if eq_str activity_type "Ride" then "Average Speed" else "Pace";
          "Elevation"]
    /\ Forall (fun f => field_inline f = true) (fields embed)
    /\ footer_text (footer embed) = "Powered by Strava".
Proof.
  unfold build_embed. intros H. rbind_ok.
  injection H as <-. eexists. split; [reflexivity|]. cbn [fields footer footer_text].
  unfold in_use_speed, use_speed. cbn [existsb]. rewrite orb_false_r.
  split; [|split; [|reflexivity]].
  - destruct (eq_str _ "Ride"); reflexivity.
  - destruct (eq_str _ "Ride"); repeat constructor.
Qed.

Definition evening_ride : pyval :=
  activity_record "Ride" (VInt 5000) 1500 (VFloat (Float.of_Z 3)).

Definition evening_ride_embed : Embed :=
  Eval vm_compute in
    match build_embed (online 0) evening_ride marianne with
    | Ok embed => embed
    | Raise _ => blank_embed
    end.

Lemma build_embed_fields_witness :
  exists activity_type,
    getitem evening_ride "type" = Ok activity_type
    /\ map field_name (fields evening_ride_embed)
       = ["Distance"; "Moving Time";
          if eq_str activity_type "Ride" then "Average Speed" else "Pace";
          "Elevation"]
    /\ Forall (fun f => field_inline f = true) (fields evening_ride_embed)
    /\ footer_text (footer evening_ride_embed) = "Powered by Strava".
Proof.
  apply (build_embed_fields (online 0) evening_ride marianne evening_ride_embed).
  vm_compute. reflexivity.
Defined.

(** ** The moving time *)

(** A moving time of [t >= 0] seconds reads as a clock: with [t = 3600 h +
    60 m + sec], [m] and [sec] below 60, it is [h:mm:ss] when [h] is not
    zero and [m:ss] otherwise, the minutes after an hour and the seconds
    always with two digits. *)
Theorem moving_time_reads_as_clock activity t :
  getitem activity "moving_time" = Ok (VInt t) ->
  0 <= t ->
  exists h m sec,
    t = 3600 * h + 60 * m + sec /\ 0 <= h /\ 0 <= m < 60 /\ 0 <= sec < 60
    /\ activity_moving_time activity
       = Ok (if h =? 0
             then Text.of_Z m +:+ ":" +:+ Text.format_02d sec
             else Text.of_Z h +:+ ":" +:+ Text.format_02d m +:+ ":" +:+ Text.format_02d sec)
    /\ String.length (Text.format_02d m) = 2%nat
    /\ String.length (Text.format_02d sec) = 2%nat.
Proof.
  intros Hmt Ht.
  exists (t / 3600), (t mod 3600 / 60), (t mod 3600 mod 60).
  assert (Hm : 0 <= t mod 3600 / 60 < 60) by (Z.div_mod_to_equations; lia).
  assert (Hs : 0 <= t mod 3600 mod 60 < 60) by (Z.div_mod_to_equations; lia).
  split; [Z.div_mod_to_equations; lia|].
  split; [Z.div_mod_to_equations; lia|].
  split; [exact Hm|]. split; [exact Hs|]. split.
  - unfold activity_moving_time. rewrite Hmt. cbn [rbind as_number]. cbv zeta.
    destruct (t / 3600 =? 0); reflexivity.
  - split; apply format_02d_length; lia.
Qed.

Lemma moving_time_reads_as_clock_witness :
  exists h m sec,
    86399 = 3600 * h + 60 * m + sec /\ 0 <= h /\ 0 <= m < 60 /\ 0 <= sec < 60
    /\ activity_moving_time (morning_run (VInt 5000) 86399)
       = Ok (if h =? 0
             then Text.of_Z m +:+ ":" +:+ Text.format_02d sec
             else Text.of_Z h +:+ ":" +:+ Text.format_02d m +:+ ":" +:+ Text.format_02d sec)
    /\ String.length (Text.format_02d m) = 2%nat
    /\ String.length (Text.format_02d sec) = 2%nat.
Proof.
  apply (moving_time_reads_as_clock (morning_run (VInt 5000) 86399) 86399);
    [reflexivity|lia].
Defined.

(** A moving time that arrives as a float cannot be displayed:
    ["{:02d}".format] refuses a float, so the message is not built even
    though the distance is fine. *)
Theorem float_moving_time_fails w activity athlete km f :
  activity_distance_km activity = Ok km ->
  getitem activity "moving_time" = Ok (VFloat f) ->
  build_embed w activity athlete = Raise ValueError.
Proof.
  intros Hkm Hmt. unfold build_embed. rewrite Hkm. cbn [rbind].
  unfold activity_moving_time. rewrite Hmt. reflexivity.
Qed.

Lemma float_moving_time_fails_witness :
  build_embed (online 0)
    (VDict [("distance", VInt 5000); ("moving_time", VFloat (Float.of_Z 1500))]) marianne
  = Raise ValueError.
Proof.
  apply (float_moving_time_fails (online 0)
           (VDict [("distance", VInt 5000); ("moving_time", VFloat (Float.of_Z 1500))])
           marianne (Float.nearest false 5 1) (Float.of_Z 1500)).
  - vm_compute. reflexivity.
  - reflexivity.
Defined.

(** * Distances from five metres up *)

(** ** Rounding from below *)

(** Rounding a quotient never falls below a number of the format that the
    quotient reaches. *)
Lemma binary_round_aux_ge s a b e mf ef :
  0 <= a -> 0 < b ->
  e <= fexp64 (Zdigits2 (a / b) + e) ->
  bounded Float.prec Float.emax mf ef = true ->
  e <= ef ->
  b * (Zpos mf * 2 ^ (ef - e)) <= a ->
  match binary_round_aux Float.prec Float.emax s (a / b) e (loc_of a b) with
  | S754_zero _ => False
  | S754_finite _ m e' => ef <= e' /\ Zpos mf <= Zpos m * 2 ^ (e' - ef)
  | _ => True
  end.
Proof.
  intros Ha Hb Hfit Hbounded He Hle.
  destruct (bounded_canonical mf ef Hbounded) as [Hcanon _].
  destruct (bounded_range mf ef Hbounded) as [Hefmin Hmf53].
  set (q := a / b) in *.
  pose proof (pow2_pos (ef - e) ltac:(lia)) as HpF.
  set (F := Zpos mf * 2 ^ (ef - e)) in *.
  assert (HF : 0 < F) by (unfold F; apply Z.mul_pos_pos; lia).
  assert (HqF : F <= q) by (unfold q; apply Z.div_le_lower_bound; lia).
  assert (Hq : 0 <= q) by lia.
  assert (HdF : Zdigits2 F = Zpos (digits2_pos mf) + (ef - e)).
  { unfold F. rewrite Zdigits2_mul_pow2 by lia. reflexivity. }
  pose proof (Zdigits2_mono F q ltac:(lia)) as Hdq.
  set (e1 := fexp64 (Zdigits2 q + e)) in *.
  assert (Ee1 : e1 = Z.max (Zdigits2 q + e - 53) (-1074)) by (unfold e1; apply fexp64_eq).
  assert (He1 : ef <= e1).
  { rewrite <- Hcanon. unfold e1. apply fexp64_mono. lia. }
  assert (Hn : 0 <= e1 - e) by lia.
  (* first shift *)
  unfold binary_round_aux, shr_fexp. fold q. fold e1.
  destruct (shr_encodes (shr_record_of_loc q (loc_of a b)) a b e (e1 - e) Ha Hb
              (encodes_loc_of a b Hb)) as [Henc1 Hexp1].
  rewrite Z.max_r in Henc1, Hexp1 by exact Hn.
  destruct (shr (shr_record_of_loc q (loc_of a b)) e (e1 - e)) as [mrs1 e1'].
  simpl in Henc1, Hexp1. replace e1' with e1 by lia. clear Hexp1 e1'.
  set (n := e1 - e) in *.
  assert (En : n = e1 - e) by reflexivity.
  pose proof (pow2_pos n Hn) as Hpn.
  assert (HB : 0 < b * 2 ^ n) by nia.
  destruct (round_nearest_even_bounds mrs1 a (b * 2 ^ n) HB Henc1) as [[HNlo HNhi] _].
  set (N := round_nearest_even (shr_m mrs1) (loc_of_shr_record mrs1)) in *.
  assert (Hdiv : a / (b * 2 ^ n) = q / 2 ^ n) by (unfold q; rewrite Z.div_div by lia; reflexivity).
  rewrite Hdiv in HNlo, HNhi.
  set (m1 := q / 2 ^ n) in *.
  assert (Hm1 : 0 <= m1) by (unfold m1; apply Z.div_pos; lia).
  pose proof (Zdigits2_div_pow2 q n Hq Hn) as Hdm1. fold m1 in Hdm1.
  assert (Hm153 : m1 < 2 ^ 53).
  { destruct (Z.eq_dec m1 0) as [->|Hnz]; [reflexivity|].
    pose proof (Zdigits2_bounds m1 ltac:(lia)) as [_ Hhi].
    eapply Z.lt_le_trans; [exact Hhi|]. apply Z.pow_le_mono_r; lia. }
  (* the rounded mantissa reaches the bound *)
  assert (HNmf : Zpos mf <= N * 2 ^ (e1 - ef)).
  { destruct (Z.eq_dec e1 ef) as [E|E].
    - rewrite E, Z.sub_diag, Z.pow_0_r, Z.mul_1_r.
      assert (Zpos mf <= m1); [|lia].
      unfold m1. apply Z.div_le_lower_bound; [lia|].
      replace n with (ef - e) by lia. fold F. rewrite Z.mul_comm. exact HqF.
    - assert (Hd53 : Zdigits2 m1 = 53) by lia.
      assert (Hm1lo : 2 ^ 52 <= m1).
      { assert (0 < m1) by (destruct (Z.eq_dec m1 0) as [E0|]; [rewrite E0 in Hd53; discriminate|lia]).
        pose proof (Zdigits2_bounds m1 ltac:(lia)) as [Hlo _].
        rewrite Hd53 in Hlo. exact Hlo. }
      assert (2 ^ 1 <= 2 ^ (e1 - ef)) by (apply Z.pow_le_mono_r; lia).
      change (2 ^ 1) with 2 in *. change (2 ^ 52) with 4503599627370496 in *.
      change (2 ^ 53) with 9007199254740992 in *.
      set (U := 2 ^ (e1 - ef)) in *. nia. }
  assert (HN0 : 0 < N).
  { pose proof (pow2_pos (e1 - ef) ltac:(lia)).
    destruct (Z.le_gt_cases N 0); [|assumption]. nia. }
  assert (HN53 : N <= 2 ^ 53) by lia.
  (* second shift *)
  assert (HencN : encodes (shr_record_of_loc N loc_Exact) N 1).
  { unfold encodes. simpl. rewrite Z.div_1_r, Z.mod_1_r. auto. }
  assert (Hn2 : 0 <= fexp64 (Zdigits2 N + e1) - e1).
  { pose proof (Zdigits2_mono m1 N ltac:(lia)). rewrite fexp64_eq. lia. }
  destruct (shr_encodes (shr_record_of_loc N loc_Exact) N 1 e1
              (fexp64 (Zdigits2 N + e1) - e1) ltac:(lia) ltac:(lia) HencN) as [Henc2 Hexp2].
  rewrite Z.max_r in Henc2, Hexp2 by exact Hn2.
  destruct (shr (shr_record_of_loc N loc_Exact) e1 (fexp64 (Zdigits2 N + e1) - e1))
    as [mrs2 e2].
  simpl in Henc2, Hexp2. destruct Henc2 as [Hm2 _]. rewrite Z.mul_1_l in Hm2.
  set (n2 := fexp64 (Zdigits2 N + e1) - e1) in *.
  assert (En2 : n2 = Z.max (Zdigits2 N + e1 - 53) (-1074) - e1).
  { unfold n2. now rewrite fexp64_eq. }
  assert (Hexact : shr_m mrs2 * 2 ^ n2 = N).
  { destruct (Z.le_gt_cases (Zdigits2 N) 53) as [Hsmall|Hbig].
    - assert (n2 = 0) by lia. replace n2 with 0 in * by lia.
      rewrite Hm2. simpl. rewrite Z.div_1_r. lia.
    - assert (HN : N = 2 ^ 53).
      { assert (2 ^ 53 <= N); [|lia].
        pose proof (Zdigits2_bounds N HN0) as [Hlo _].
        eapply Z.le_trans; [|exact Hlo]. apply Z.pow_le_mono_r; lia. }
      assert (HdN : Zdigits2 N = 54) by (rewrite HN; reflexivity).
      assert (n2 = 1) by lia. replace n2 with 1 in * by lia.
      rewrite Hm2, HN. reflexivity. }
  assert (Hm2pos : 0 < shr_m mrs2).
  { pose proof (pow2_pos n2 Hn2). destruct (Z.le_gt_cases (shr_m mrs2) 0); [|assumption]. nia. }
  destruct (shr_m mrs2) as [|m|m]; try lia.
  destruct (Z.leb_spec e2 (Float.emax - Float.prec)) as [_|_]; [|exact I].
  split; [lia|].
  replace (e2 - ef) with (n2 + (e1 - ef)) by lia.
  rewrite Z.pow_add_r, Z.mul_assoc, Hexact by lia. exact HNmf.
Qed.

Lemma SFdiv_ge sx mx ex sy my ey mf ef :
  let e' := div_exponent mx ex my ey in
  bounded Float.prec Float.emax mf ef = true ->
  e' <= ef ->
  Zpos my * (Zpos mf * 2 ^ (ef - e')) <= Zpos mx * 2 ^ (ex - ey - e') ->
  match Float.ieee_div (S754_finite sx mx ex) (S754_finite sy my ey) with
  | S754_zero _ => False
  | S754_finite _ m e => ef <= e /\ Zpos mf <= Zpos m * 2 ^ (e - ef)
  | _ => True
  end.
Proof.
  intros e' Hf He' Hle. unfold Float.ieee_div, SFdiv.
  destruct (SFdiv_core_binary_spec mx ex my ey) as [-> [Hs Hfit]]. fold e' in Hs, Hfit |- *.
  apply binary_round_aux_ge; auto; lia.
Qed.

Lemma nearest_ge s a b mf ef :
  let e' := div_exponent a 0 b 0 in
  bounded Float.prec Float.emax mf ef = true ->
  e' <= ef ->
  Zpos b * (Zpos mf * 2 ^ (ef - e')) <= Zpos a * 2 ^ (- e') ->
  match Float.nearest s a b with
  | S754_zero _ => False
  | S754_finite _ m e => ef <= e /\ Zpos mf <= Zpos m * 2 ^ (e - ef)
  | _ => True
  end.
Proof.
  intros e' Hf He' Hle. unfold Float.nearest.
  destruct (SFdiv_core_binary_spec a 0 b 0) as [-> [Hs Hfit]]. fold e' in Hs, Hfit |- *.
  replace (0 - 0 - e') with (- e') in * by lia.
  apply binary_round_aux_ge; auto; lia.
Qed.

(** The number [2^52 * 2^e], the least of its binade. *)
Lemma bounded_pow2 e :
  -1074 <= e <= 971 -> bounded Float.prec Float.emax 4503599627370496 e = true.
Proof.
  intros He. unfold bounded, canonical_mantissa. apply andb_true_iff. split.
  - apply Z.eqb_eq. rewrite fexp64_eq. change (Zpos (digits2_pos 4503599627370496)) with 53. lia.
  - apply Z.leb_le. change (Float.emax - Float.prec) with 971. lia.
Qed.

Lemma bounded_digits m e :
  bounded Float.prec Float.emax m e = true -> -1074 < e ->
  Zpos (digits2_pos m) = 53 /\ 2 ^ 52 <= Zpos m.
Proof.
  intros Hb He. destruct (bounded_canonical m e Hb) as [Hc _]. rewrite fexp64_eq in Hc.
  assert (Hd : Zpos (digits2_pos m) = 53) by lia. split; [exact Hd|].
  pose proof (Zdigits2_bounds (Zpos m) ltac:(lia)) as [Hlo _]. simpl Zdigits2 in Hlo.
  rewrite Hd in Hlo. exact Hlo.
Qed.

(** ** Distances that display above zero *)

Lemma round_half_even_pos n d : 0 < d -> d < 2 * n -> 1 <= Float.round_half_even n d.
Proof.
  intros Hd Hn. unfold Float.round_half_even.
  assert (H0 : 0 <= n / d) by (apply Z.div_pos; lia).
  destruct (Z.eq_dec (n / d) 0) as [E|E].
  - assert (Hsmall : n mod d = n).
    { pose proof (Z.div_mod n d ltac:(lia)) as H. rewrite E in H. lia. }
    rewrite E, Hsmall. destruct (Z.compare_spec (2 * n) d); simpl; lia.
  - destruct (2 * (n mod d) ?= d); [destruct (Z.even (n / d))|..]; lia.
Qed.

(** Hundredths read back as a float are above zero. *)
Lemma nearest_100_positive k : Float.ltb float_zero (Float.nearest false k 100) = true.
Proof.
  assert (He : -59 <= div_exponent k 0 100 0).
  { unfold div_exponent. rewrite fexp64_eq. change (Zpos (digits2_pos 100)) with 7. lia. }
  unfold Float.nearest.
  destruct (SFdiv_core_binary_spec k 0 100 0) as [-> [Hs Hfit]].
  pose proof (binary_round_aux_shape false
                (Zpos k * 2 ^ (0 - 0 - div_exponent k 0 100 0)) 100
                (div_exponent k 0 100 0) ltac:(lia) ltac:(lia) Hfit) as H.
  destruct (binary_round_aux _ _ _ _ _ _) as [s|s| |s m e].
  - destruct H as [_ H]. rewrite H in Hfit. lia.
  - now subst.
  - contradiction.
  - destruct H as [-> _]. reflexivity.
Qed.

(** A quotient that reaches half a cent: the exponent is above -60, or it
    is -60 and the mantissa reaches that of the float nearest to 0.005. *)
Definition reaches_half_cent (m : positive) (e : Z) : Prop :=
  -59 <= e \/ (e = -60 /\ 5764607523034235 <= Zpos m).

Lemma round_positive m e :
  bounded Float.prec Float.emax m e = true ->
  reaches_half_cent m e ->
  Float.ltb float_zero (Float.round (S754_finite false m e) 2) = true.
Proof.
  intros Hb Hreach.
  assert (Hm : -60 <= e /\ (e = -60 -> 5764607523034235 <= Zpos m) /\ 2 ^ 52 <= Zpos m).
  { destruct (bounded_digits m e Hb ltac:(destruct Hreach; lia)) as [_ Hlo].
    destruct Hreach; repeat split; try lia; assumption. }
  destruct Hm as [He [Hlow Hm52]]. change (2 ^ 52) with 4503599627370496 in Hm52.
  assert (Hk : 1 <= let '(n, d) := Float.fraction m e in
                    Float.round_half_even (n * 10 ^ 2) d).
  { unfold Float.fraction. change (10 ^ 2) with 100. destruct e as [|p|k].
    - apply round_half_even_pos; lia.
    - pose proof (pow2_pos (Zpos p) ltac:(lia)). apply round_half_even_pos; nia.
    - apply round_half_even_pos; [apply pow2_pos; lia|].
      destruct (Z.eq_dec (Zneg k) (-60)) as [E|E].
      + injection E as ->. specialize (Hlow eq_refl).
        change (2 ^ 60) with 1152921504606846976. lia.
      + assert (2 ^ Zpos k <= 2 ^ 59) by (apply Z.pow_le_mono_r; lia).
        change (2 ^ 59) with 576460752303423488 in *. lia. }
  unfold Float.round. destruct (Float.fraction m e) as [n d].
  destruct (Float.round_half_even (n * 10 ^ 2) d) as [|k|k]; try lia.
  change (Z.to_pos (10 ^ 2)) with 100%positive. apply nearest_100_positive.
Qed.

Lemma ge_float_5 mx ex :
  Float.ltb (S754_finite false mx ex) float_5 = false ->
  -50 < ex \/ (ex = -50 /\ 5629499534213120 <= Zpos mx).
Proof.
  rewrite float_5_eq. unfold Float.ltb, SFltb, SFcompare.
  destruct (Z.compare_spec ex (-50)) as [E|E|E]; try discriminate; [|lia].
  subst ex. destruct (Pos.compare_cont Eq mx 5629499534213120) eqn:C; try discriminate.
  - intros _. right. split; [reflexivity|]. apply Pos.compare_eq in C. subst. reflexivity.
  - intros _. right. split; [reflexivity|]. apply Pos.compare_gt_iff in C. lia.
Qed.

(** A float distance of 5.0 or more, in kilometres and rounded, is above
    zero. *)
Lemma long_float_distance mx ex :
  bounded Float.prec Float.emax mx ex = true ->
  Float.ltb (S754_finite false mx ex) float_5 = false ->
  Float.ltb float_zero
    (Float.round (Float.ieee_div (S754_finite false mx ex) float_1000) 2) = true.
Proof.
  intros Hb Hge. apply ge_float_5 in Hge.
  destruct (bounded_canonical mx ex Hb) as [_ Hmax].
  destruct (bounded_digits mx ex Hb ltac:(lia)) as [Hd Hlo].
  change (2 ^ 52) with 4503599627370496 in Hlo.
  destruct (Z.eq_dec (Zpos mx) 5629499534213120) as [Em|Em];
    [destruct (Z.eq_dec ex (-50)) as [Ee|Ee]|].
  { (* 5.0 itself *)
    injection Em as ->. subst ex. vm_compute. reflexivity. }
  all: rewrite float_1000_eq;
    pose proof (div_shape false mx ex false 8796093022208000 (-43)) as Hsh;
    assert (Ee' : div_exponent mx ex 8796093022208000 (-43) = ex - 10)
      by (unfold div_exponent; rewrite fexp64_eq, Hd;
          change (Zpos (digits2_pos 8796093022208000)) with 53; lia).
  - (* a higher binade *)
    pose proof (SFdiv_ge false mx ex false 8796093022208000 (-43)
                  4503599627370496 (ex - 10)) as Hge'.
    cbv zeta in Hge'. rewrite Ee' in Hge', Hsh.
    replace (ex - 10 - (ex - 10)) with 0 in Hge' by lia.
    replace (ex - -43 - (ex - 10)) with 53 in Hge' by lia.
    change (2 ^ 0) with 1 in Hge'. change (2 ^ 53) with 9007199254740992 in Hge'.
    specialize (Hge' (bounded_pow2 (ex - 10) ltac:(lia)) ltac:(lia) ltac:(lia)).
    destruct (Float.ieee_div (S754_finite false mx ex)
                (S754_finite false 8796093022208000 (-43))) as [s|s| |s m e];
      try contradiction.
    + simpl in Hsh. subst. reflexivity.
    + destruct Hsh as [Hs [Hbm _]]. simpl in Hs. subst s.
      apply round_positive; [exact Hbm|]. left. lia.
  - (* above 5.0 *)
    destruct (Z.le_gt_cases ex (-50)) as [Hlow|Hhigh].
    + assert (ex = -50) by lia. subst ex.
      pose proof (SFdiv_ge false mx (-50) false 8796093022208000 (-43)
                    5764607523034235 (-60) eq_refl) as Hge'.
      cbv zeta in Hge'. rewrite Ee' in Hge', Hsh.
      change (-50 - 10) with (-60) in Hge', Hsh.
      change (2 ^ (-60 - -60)) with 1 in Hge'.
      change (2 ^ (-50 - -43 - -60)) with 9007199254740992 in Hge'.
      specialize (Hge' ltac:(lia) ltac:(lia)).
      destruct (Float.ieee_div (S754_finite false mx (-50))
                  (S754_finite false 8796093022208000 (-43))) as [s|s| |s m e];
        try contradiction.
      * simpl in Hsh. subst. reflexivity.
      * destruct Hsh as [Hs [Hbm _]]. simpl in Hs. subst s.
        destruct Hge' as [He Hm]. apply round_positive; [exact Hbm|].
        destruct (Z.eq_dec e (-60)) as [->|]; [|left; lia].
        right. split; [reflexivity|]. change (2 ^ (-60 - -60)) with 1 in Hm. lia.
    + pose proof (SFdiv_ge false mx ex false 8796093022208000 (-43)
                    4503599627370496 (ex - 10)) as Hge'.
      cbv zeta in Hge'. rewrite Ee' in Hge', Hsh.
      replace (ex - 10 - (ex - 10)) with 0 in Hge' by lia.
      replace (ex - -43 - (ex - 10)) with 53 in Hge' by lia.
      change (2 ^ 0) with 1 in Hge'. change (2 ^ 53) with 9007199254740992 in Hge'.
      specialize (Hge' (bounded_pow2 (ex - 10) ltac:(lia)) ltac:(lia) ltac:(lia)).
      destruct (Float.ieee_div (S754_finite false mx ex)
                  (S754_finite false 8796093022208000 (-43))) as [s|s| |s m e];
        try contradiction.
      * simpl in Hsh. subst. reflexivity.
      * destruct Hsh as [Hs [Hbm _]]. simpl in Hs. subst s.
        apply round_positive; [exact Hbm|]. left. lia.
Qed.

(** An integer distance from 5 up (within 64 bits), in kilometres and
    rounded, is defined and above zero. *)
Lemma long_int_distance p :
  5 <= Zpos p < 2 ^ 63 ->
  Float.is_infinite (Float.nearest false p 1000) = false
  /\ Float.ltb float_zero (Float.round (Float.nearest false p 1000) 2) = true.
Proof.
  intros [H5 H63].
  destruct (Z.le_gt_cases (Zpos p) 7) as [Hsmall|Hbig].
  { assert (Hp : Zpos p = 5 \/ Zpos p = 6 \/ Zpos p = 7) by lia.
    destruct Hp as [E|[E|E]]; injection E as ->; split; vm_compute; reflexivity. }
  assert (Hd : 4 <= Zpos (digits2_pos p) <= 63).
  { change (Zpos (digits2_pos p)) with (Zdigits2 (Zpos p)). split.
    - apply Zdigits2_ge; [|lia]. change (2 ^ (4 - 1)) with 8. lia.
    - apply Zdigits2_le; lia. }
  assert (Ee' : div_exponent p 0 1000 0 = Zpos (digits2_pos p) - 63).
  { unfold div_exponent. rewrite fexp64_eq.
    change (Zpos (digits2_pos 1000)) with 10. lia. }
  pose proof (Zdigits2_bounds (Zpos p) ltac:(lia)) as [Hlo _]. simpl Zdigits2 in Hlo.
  pose proof (nearest_shape false p 1000) as Hsh.
  pose proof (nearest_le false p 1000 4503599627370496 11 eq_refl) as Hle.
  pose proof (nearest_ge false p 1000 4503599627370496 (Zpos (digits2_pos p) - 63)
                (bounded_pow2 (Zpos (digits2_pos p) - 63) ltac:(lia))) as Hge.
  cbv zeta in Hle, Hge. rewrite Ee' in Hsh, Hle, Hge.
  set (d := Zpos (digits2_pos p)) in *.
  assert (Hscale : 2 ^ 62 <= Zpos p * 2 ^ (- (d - 63)) < 2 ^ 63 * 2 ^ (- (d - 63))).
  { pose proof (pow2_pos (- (d - 63)) ltac:(lia)) as Hp. split.
    - replace 62 with ((d - 1) + - (d - 63)) by lia. rewrite Z.pow_add_r by lia.
      apply Z.mul_le_mono_nonneg_r; lia.
    - apply Z.mul_lt_mono_pos_r; lia. }
  assert (Hle' : Zpos p * 2 ^ (- (d - 63))
                 <= 1000 * (4503599627370496 * 2 ^ (11 - (d - 63)))).
  { replace (11 - (d - 63)) with (11 + - (d - 63)) by lia. rewrite Z.pow_add_r by lia.
    change (2 ^ 11) with 2048. change (2 ^ 63) with 9223372036854775808 in Hscale.
    pose proof (pow2_pos (- (d - 63)) ltac:(lia)).
    set (U := 2 ^ (- (d - 63))) in *. nia. }
  assert (Hge' : 1000 * (4503599627370496 * 2 ^ (d - 63 - (d - 63)))
                 <= Zpos p * 2 ^ (- (d - 63))).
  { rewrite Z.sub_diag. change (2 ^ 0) with 1.
    change (2 ^ 62) with 4611686018427387904 in Hscale. lia. }
  specialize (Hle ltac:(lia) Hle'). specialize (Hge ltac:(lia) Hge').
  destruct (Float.nearest false p 1000) as [s|s| |s m e]; try contradiction.
  destruct Hsh as [-> [Hb _]]. split; [reflexivity|].
  apply round_positive; [exact Hb|]. left. lia.
Qed.

(** A distance of five metres or more: a JSON integer from 5 up (within 64
    bits), or a float, an infinity included, that is not below 5.0. *)
Definition long_distance (distance : pyval) : bool :=
  match distance with
  | VInt z => (5 <=? z) && (z <? 2 ^ 63)
  | VFloat (S754_infinity false) => true
  | VFloat (S754_finite false m e) =>
      bounded Float.prec Float.emax m e && negb (Float.ltb (S754_finite false m e) float_5)
  | _ => false
  end.

Lemma long_distance_displays_positive activity distance :
  getitem activity "distance" = Ok distance ->
  long_distance distance = true ->
  exists km, activity_distance_km activity = Ok km /\ Float.ltb float_zero km = true.
Proof.
  intros Hget Hlong. unfold activity_distance_km. rewrite Hget. cbn [rbind].
  destruct distance as [| |z|f| | |]; try discriminate.
  - simpl in Hlong. apply andb_true_iff in Hlong as [H5 H63].
    apply Z.leb_le in H5. apply Z.ltb_lt in H63.
    destruct z as [|p|p]; try lia.
    destruct (long_int_distance p ltac:(lia)) as [Hfin Hpos].
    unfold truediv. cbn [as_number rbind]. unfold int_truediv.
    change (1000 =? 0) with false. cbv iota.
    change (Float.nearest _ _ _) with (Float.nearest false p 1000).
    rewrite Hfin. cbn [rbind]. eauto.
  - unfold truediv. cbn [as_number rbind].
    change (int_to_float 1000) with (Ok float_1000). cbn [rbind].
    unfold float_truediv. change (Float.is_zero float_1000) with false. cbv iota.
    cbn [rbind]. eexists. split; [reflexivity|].
    destruct f as [s|[|]| |[|] m e]; try discriminate.
    + vm_compute. reflexivity.
    + simpl in Hlong. apply andb_true_iff in Hlong as [Hvalid Hge].
      apply negb_true_iff in Hge. now apply long_float_distance.
Qed.

(** With a displayed distance above zero and a moving time from 0 to
    2^63 - 1 seconds, the pace is defined. *)
Lemma pace_defined_above_zero activity km moving_time :
  activity_distance_km activity = Ok km ->
  Float.ltb float_zero km = true ->
  getitem activity "moving_time" = Ok (VInt moving_time) ->
  0 <= moving_time < 2 ^ 63 ->
  exists pace, activity_pace activity km = Ok pace.
Proof.
  intros Hkm Hpos Hmt Hrange.
  destruct (minutes_shape moving_time Hrange) as [minutes [Hmin Hsh]].
  assert (Hraw : finite_nonneg (Float.ieee_div minutes km) = true).
  { apply raw_pace_finite; [exact Hsh|].
    unfold activity_distance_km in Hkm.
    destruct (getitem activity "distance") as [d|]; [|discriminate]. cbn [rbind] in Hkm.
    destruct (truediv d (VInt 1000)) as [q|]; [|discriminate]. cbn [rbind] in Hkm.
    injection Hkm as <-.
    pose proof (displayed_positive q Hpos) as H. unfold distance_range.
    destruct (Float.round q 2); auto. }
  destruct (two_step_pace_defined _ Hraw) as (m & sec & Hpace & _).
  exists (Text.of_Z m +:+ ":" +:+ Text.format_02d sec).
  unfold activity_pace, raw_pace. rewrite Hmt. cbn [rbind truediv as_number].
  rewrite Hmin. cbn [rbind]. unfold float_truediv.
  assert (Hnz : Float.is_zero km = false) by (destruct km; [discriminate|reflexivity..]).
  rewrite Hnz. cbn [rbind]. rewrite (pace_of_two_step _ Hraw). exact Hpace.
Qed.

(** From five metres up the distance displays above zero and the pace is
    defined: with a moving time from 0 to 2^63 - 1 seconds neither the
    distance nor the pace computation raises. *)
Theorem five_metres_suffice activity distance moving_time :
  getitem activity "distance" = Ok distance ->
  long_distance distance = true ->
  getitem activity "moving_time" = Ok (VInt moving_time) ->
  0 <= moving_time < 2 ^ 63 ->
  exists km pace,
    activity_distance_km activity = Ok km
    /\ Float.ltb float_zero km = true
    /\ activity_pace activity km = Ok pace.
Proof.
  intros Hget Hlong Hmt Hrange.
  destruct (long_distance_displays_positive activity distance Hget Hlong) as [km [Hkm Hpos]].
  destruct (pace_defined_above_zero activity km moving_time Hkm Hpos Hmt Hrange)
    as [pace Hpace].
  exists km, pace. auto.
Qed.

(** Five metres in a day. *)
Lemma five_metres_suffice_witness :
  exists km pace,
    activity_distance_km (morning_run (VInt 5) 86400) = Ok km
    /\ Float.ltb float_zero km = true
    /\ activity_pace (morning_run (VInt 5) 86400) km = Ok pace.
Proof.
  apply (five_metres_suffice (morning_run (VInt 5) 86400) (VInt 5) 86400);
    [reflexivity|reflexivity|reflexivity|split; [lia|reflexivity]].
Defined.

(** What suffices for a message: an activity of five metres or more with an
    integer moving time (from 0 to 2^63 - 1 seconds), a float average
    speed, a string type and a start date that parses, and the other keys
    present in the activity and the athlete. *)
Theorem long_activity_is_displayed
    w activity athlete distance moving_time speed activity_type start_date date :
  getitem activity "distance" = Ok distance ->
  long_distance distance = true ->
  getitem activity "moving_time" = Ok (VInt moving_time) ->
  0 <= moving_time < 2 ^ 63 ->
  getitem activity "average_speed" = Ok (VFloat speed) ->
  getitem activity "type" = Ok (VStr activity_type) ->
  getitem activity "start_date" = Ok (VStr start_date) ->
  strptime w start_date = Ok date ->
  Forall (fun key => exists v, getitem activity key = Ok v)
         ["total_elevation_gain"; "name"; "id"] ->
  Forall (fun key => exists v, getitem athlete key = Ok v) athlete_keys ->
  exists embed, build_embed w activity athlete = Ok embed /\ timestamp embed = date.
Proof.
  intros Hget Hlong Hmt Hrange Hspeed Htype Hstart Hdate Hact Hath.
  destruct (long_distance_displays_positive activity distance Hget Hlong) as [km [Hkm Hpos]].
  destruct (pace_defined_above_zero activity km moving_time Hkm Hpos Hmt Hrange)
    as [pace Hpace].
  inversion Hact as [|? ? [elevation He] Hact1]; subst.
  inversion Hact1 as [|? ? [name Hn] Hact2]; subst.
  inversion Hact2 as [|? ? [id Hi] _]; subst.
  inversion Hath as [|? ? [firstname Hf] Hath1]; subst.
  inversion Hath1 as [|? ? [lastname Hl] Hath2]; subst.
  inversion Hath2 as [|? ? [athlete_id Ha] Hath3]; subst.
  inversion Hath3 as [|? ? [profile Hp] _]; subst.
  unfold build_embed. rewrite Hkm. cbn [rbind].
  unfold activity_moving_time. rewrite Hmt. cbn [rbind as_number]. cbv zeta.
  rewrite Hpace. cbn [rbind].
  unfold activity_speed_kmh. rewrite Hspeed. cbn [rbind mul_float as_number].
  rewrite He. cbn [rbind]. rewrite Htype. cbn [rbind]. rewrite Hn. cbn [rbind].
  rewrite Hi. cbn [rbind colour_of]. rewrite Hstart. cbn [rbind]. rewrite Hdate.
  cbn [rbind]. rewrite Hf. cbn [rbind]. rewrite Hl. cbn [rbind]. rewrite Ha.
  cbn [rbind]. rewrite Hp. cbn [rbind]. eexists. split; reflexivity.
Qed.

Lemma long_activity_is_displayed_witness :
  exists embed,
    build_embed (online 0) (morning_run (VInt 5) 86400) marianne = Ok embed
    /\ timestamp embed = 1518792774000000.
Proof.
  apply (long_activity_is_displayed (online 0) (morning_run (VInt 5) 86400) marianne
           (VInt 5) 86400 (Float.of_Z 3) "Run" "2018-02-16T14:52:54Z" 1518792774000000);
    try reflexivity.
  - split; [lia|reflexivity].
  - repeat constructor; eexists; reflexivity.
  - repeat constructor; eexists; reflexivity.
Defined.

(** * From intake to processing *)

(** The two handlers fit: what [receive_event] publishes for an activity
    event, delivered as the one record of an SNS event, is what
    [post_event] processes, provided [json.loads] reads back what
    [json.dumps] wrote. An exception of the processing is raised by
    [post_event], a [KeyError] too, then from the fallback. *)
Theorem published_event_is_processed w event raw payload type s0 :
  getitem event "body" = Ok (VStr raw) ->
  json_loads w raw = Ok payload ->
  getitem payload "object_type" = Ok type ->
  eq_str type "activity" = true ->
  sns_publish w (Text.json_dumps payload) = Ok tt ->
  json_loads w (Text.json_dumps payload) = Ok payload ->
  exists message,
    receive_event w event s0 = (Ok success, with_calls s0 [SnsPublish message])
    /\ forall s,
         post_event w (sns_event [message]) s
         = match post_message w payload s with
           | (Ok _, s') => (Returned processed, s')
           | (Raise e, s') => (Raised e, s')
           end.
Proof.
  intros Hraw Hload Htype Hactivity Hpub Hback.
  exists (Text.json_dumps payload). split.
  - unfold receive_event.
    rewrite (bind_lift_ok _ _ _ _ Hraw).
    rewrite (bind_lift_ok _ payload) by exact Hload.
    rewrite (bind_lift_ok _ _ _ _ Htype), Hactivity.
    unfold try_except, bind, emit, lift, ret. cbv beta. rewrite Hpub. reflexivity.
  - intros s.
    rewrite (post_event_unwrapped w (sns_event [Text.json_dumps payload])
               (sns_record (Text.json_dumps payload)) []
               (VDict [("Message", VStr (Text.json_dumps payload))])
               (Text.json_dumps payload) payload s eq_refl eq_refl eq_refl Hback).
    destruct (post_message w payload s) as [[n|e] s']; [reflexivity|].
    destruct e; reflexivity.
Qed.

Lemma published_event_is_processed_witness :
  exists message,
    receive_event (published (parsing activity_event (online 0)))
      (http_event activity_event) empty_state
    = (Ok success, with_calls empty_state [SnsPublish message])
    /\ forall s,
         post_event (published (parsing activity_event (online 0)))
           (sns_event [message]) s
         = match post_message (published (parsing activity_event (online 0)))
                   activity_event s with
           | (Ok _, s') => (Returned processed, s')
           | (Raise e, s') => (Raised e, s')
           end.
Proof.
  apply (published_event_is_processed (published (parsing activity_event (online 0)))
           (http_event activity_event) (Text.json_dumps activity_event) activity_event
           (VStr "activity") empty_state);
    vm_compute; reflexivity.
Defined.
